(** * The x402 payment protocol on Aptos: facilitator, gateway and client

    A shallow embedding of the protocol core of the repository:
    - [facilitator/src/aptos-facilitator.ts]  (class [AptosFacilitator]),
    - [facilitator/src/payment-middleware.ts] ([createPaymentMiddleware],
      [findMatchingRoute]),
    - the server's payment handler (class [PaymentHandler]) and its
      middleware [createX402Middleware],
    - the client driver (class [X402Client]) with [AptosUtils],
    - the test server's [customPaymentMiddleware], the endpoints [/verify]
      and [/transaction/:hash] of the facilitator's server, and the web
      application's [x402Request],
    - of the website agent, [determineStyle] and [cleanContent].

    JavaScript values are embedded as a small tree type, exceptions and the
    effects the code performs ([Date.now()], ledger submission, HTTP calls)
    are threaded through a state-and-exception monad.  Everything that lives
    outside the repository (the JSON parser of the runtime, the ledger, the
    HTTP peer, the wall clock) is a field of an environment record, and the
    properties hold for every environment.

    Conventions of the embedding: a text is a [string] of 8-bit characters
    (exact for ASCII text, where a character is also one byte of
    [Buffer.from]); a number is an integer of [Z] (amounts in minor units,
    epoch milliseconds); [console] output is left out. *)

From Stdlib Require Import ZArith List String Ascii Bool Lia DecimalString.
Import ListNotations.

Set Implicit Arguments.
Set Warnings "-register-all".

Open Scope Z_scope.
Open Scope string_scope.

(** ** JavaScript values *)

(** The values the code handles dynamically.  Numbers are restricted to
    integers (amounts in minor units, epoch milliseconds). *)
Inductive JValue : Type :=
| JUndefined
| JNull
| JBool (b : bool)
| JNum (n : Z)
| JStr (s : string)
| JArr (xs : list JValue)
| JObj (fields : list (string * JValue)).

(** [if (v)], [!v], [a || b]. *)
Definition truthy (v : JValue) : bool :=
  match v with
  | JUndefined | JNull => false
  | JBool b => b
  | JNum n => negb (n =? 0)%Z
  | JStr s => negb (s =? EmptyString)%string
  | JArr _ | JObj _ => true
  end.

Definition js_or (a b : JValue) : JValue := if truthy a then a else b.

(** [typeof v === 'string'] and [typeof v === 'object'] under a truthy guard. *)
Definition is_string (v : JValue) : bool :=
  match v with JStr _ => true | _ => false end.

Definition is_object (v : JValue) : bool :=
  match v with JArr _ | JObj _ | JNull => true | _ => false end.

(** Decimal rendering of an integer, as [String(n)] gives it. *)
Definition string_of_Z (n : Z) : string :=
  NilEmpty.string_of_int (Z.to_int n).

(** [String(v)]: the coercion applied by [JSON.parse(v)], by [a + b] on a
    string operand and by template literals. *)
Fixpoint js_ToString (v : JValue) : string :=
  match v with
  | JUndefined => "undefined"
  | JNull => "null"
  | JBool true => "true"
  | JBool false => "false"
  | JNum n => string_of_Z n
  | JStr s => s
  | JArr xs =>
      (fix join (l : list JValue) : string :=
         match l with
         | [] => EmptyString
         | x :: tl =>
             let here := match x with
                         | JUndefined | JNull => EmptyString
                         | _ => js_ToString x
                         end in
             match tl with
             | [] => here
             | _ :: _ => here ++ "," ++ join tl
             end
         end) xs
  | JObj _ => "[object Object]"
  end.

(** The own property [k] of an object given by its entries: the first
    binding of the key.  The expression [o[k]] finds more than that: where
    the object has no own property [k], it finds the member of that name
    every object inherits, if there is one ([inherited] below).  The
    embedding reads a property with [lookup] alone only where the key
    cannot be such a name: the field names the code reads from a proof or a
    response, and [req.path], which begins with a slash. *)
Fixpoint lookup {A : Type} (k : string) (fs : list (string * A)) : option A :=
  match fs with
  | [] => None
  | (k', v) :: tl => if (k =? k')%string then Some v else lookup k tl
  end.

(** The members of [Object.prototype], which every object written as a
    literal inherits; each of them is truthy (eleven functions, and the
    prototype itself under [__proto__]). *)
Definition Object_prototype : list string :=
  [ "constructor"; "__defineGetter__"; "__defineSetter__"; "hasOwnProperty";
    "__lookupGetter__"; "__lookupSetter__"; "isPrototypeOf";
    "propertyIsEnumerable"; "toString"; "valueOf"; "__proto__";
    "toLocaleString" ].

Definition inherited (k : string) : bool :=
  existsb (String.eqb k) Object_prototype.

(** ** Exceptions *)

(** The response object of the HTTP client library. *)
Record AxiosResponse : Type := {
  status : Z;
  statusText : string;
  data : JValue
}.

(** What the code observes of a thrown value: whether it is an instance of
    [Error], its [message], its [transactionHash] property and, for the
    errors of the HTTP client library, the response they carry. *)
Inductive Exn : Type :=
| ErrorInstance (message : string) (txHash : option string)
| AxiosError (message : string) (response : option AxiosResponse)
| OtherThrown (message : option string) (txHash : option string).

Definition Error (message : string) : Exn := ErrorInstance message None.
Definition TypeError (message : string) : Exn := ErrorInstance message None.

(** [`${error.message}`] *)
Definition exn_message_text (e : Exn) : string :=
  match e with
  | ErrorInstance m _ | AxiosError m _ => m
  | OtherThrown (Some m) _ => m
  | OtherThrown None _ => "undefined"
  end.

(** [error instanceof Error ? error.message : fallback] *)
Definition message_or (fallback : string) (e : Exn) : string :=
  match e with
  | ErrorInstance m _ | AxiosError m _ => m
  | OtherThrown _ _ => fallback
  end.

(** [error.message?.includes(needle)] as a condition. *)
Fixpoint includes (needle s : string) : bool :=
  prefix needle s ||
  match s with
  | EmptyString => false
  | String _ s' => includes needle s'
  end.

Definition exn_message_includes (needle : string) (e : Exn) : bool :=
  match e with
  | ErrorInstance m _ | AxiosError m _ => includes needle m
  | OtherThrown (Some m) _ => includes needle m
  | OtherThrown None _ => false
  end.

Definition exn_transactionHash (e : Exn) : option string :=
  match e with
  | ErrorInstance _ h | OtherThrown _ h => h
  | AxiosError _ _ => None
  end.

(** ** Results and the state-and-exception monad *)

Inductive Res (A : Type) : Type :=
| Ok (a : A)
| Throw (e : Exn).
Arguments Ok {A} a.
Arguments Throw {A} e.

Definition M (W A : Type) : Type := W -> Res A * W.

Definition ret {W A : Type} (a : A) : M W A := fun w => (Ok a, w).

Definition throw {W A : Type} (e : Exn) : M W A := fun w => (Throw e, w).

Definition bind {W A B : Type} (m : M W A) (k : A -> M W B) : M W B :=
  fun w =>
    match m w with
    | (Ok a, w') => k a w'
    | (Throw e, w') => (Throw e, w')
    end.

(** [try { m } catch (error) { h error }]: effects of [m] are kept. *)
Definition try_catch {W A : Type} (m : M W A) (h : Exn -> M W A) : M W A :=
  fun w =>
    match m w with
    | (Ok a, w') => (Ok a, w')
    | (Throw e, w') => h e w'
    end.

Definition lift {W A : Type} (r : Res A) : M W A := fun w => (r, w).

Declare Scope js_scope.
Delimit Scope js_scope with js.
Notation "x <- m ;; k" := (bind m (fun x => k))
  (at level 100, m at next level, right associativity) : js_scope.
Notation "m ;;; k" := (bind m (fun _ => k))
  (at level 100, right associativity) : js_scope.
Open Scope js_scope.

(** Property read [v.k]: throws on [null] and [undefined], gives [undefined]
    for a missing key and for the primitives (none of the keys read by the
    code is a built-in property of strings, numbers or arrays). *)
Definition get_prop (v : JValue) (k : string) : Res JValue :=
  match v with
  | JUndefined =>
      Throw (TypeError ("Cannot read properties of undefined (reading '" ++ k ++ "')"))
  | JNull =>
      Throw (TypeError ("Cannot read properties of null (reading '" ++ k ++ "')"))
  | JObj fs => Ok (match lookup k fs with Some x => x | None => JUndefined end)
  | _ => Ok JUndefined
  end.

(** ** Buffers and hexadecimal text *)

Definition hex_digit (n : N) : ascii :=
  match n with
  | 0%N => "0" | 1%N => "1" | 2%N => "2" | 3%N => "3"
  | 4%N => "4" | 5%N => "5" | 6%N => "6" | 7%N => "7"
  | 8%N => "8" | 9%N => "9" | 10%N => "a" | 11%N => "b"
  | 12%N => "c" | 13%N => "d" | 14%N => "e" | _ => "f"
  end%char.

(** [Buffer.from(s).toString('hex')]: two lower-case digits per byte. *)
Fixpoint toString_hex (s : string) : string :=
  match s with
  | EmptyString => EmptyString
  | String c s' =>
      let n := N_of_ascii c in
      String (hex_digit (N.div n 16)) (String (hex_digit (N.modulo n 16)) (toString_hex s'))
  end.

(** [s.slice(0, n)] *)
Definition slice0 (n : nat) (s : string) : string := substring 0 n s.




(** ** Route patterns and regular expressions *)

(** [routePath.replace(/\*/g, '.*')] *)
Fixpoint replace_star (routePath : string) : string :=
  match routePath with
  | EmptyString => EmptyString
  | String c rest =>
      if Ascii.eqb c "*" then String "." (String "*" (replace_star rest))
      else String c (replace_star rest)
  end.

(** The fragment of regular expressions interpreted here: a sequence of
    atoms, each a literal character or [.], each possibly followed by [*]. *)
Inductive Atom : Type :=
| Lit (c : ascii)
| AnyChar.

Inductive Item : Type :=
| One (a : Atom)
| Star (a : Atom).

(** Characters with a syntactic role in a pattern, apart from [.] and [*]. *)
Definition is_meta (c : ascii) : bool :=
  existsb (Ascii.eqb c)
    ["\"; "^"; "$"; "+"; "?"; "("; ")"; "["; "]"; "{"; "}"; "|"]%char.

Definition atom_of (c : ascii) : Atom :=
  if Ascii.eqb c "." then AnyChar else Lit c.

(** Reading of a pattern source; [None] outside the fragment. *)
Fixpoint compile (source : string) : option (list Item) :=
  match source with
  | EmptyString => Some []
  | String c rest =>
      if is_meta c || Ascii.eqb c "*" then None
      else
        match rest with
        | String "*" rest' => option_map (cons (Star (atom_of c))) (compile rest')
        | _ => option_map (cons (One (atom_of c))) (compile rest)
        end
  end.

(** [.] matches every character but a line terminator. *)
Definition is_line_terminator (c : ascii) : bool :=
  Ascii.eqb c "010" || Ascii.eqb c "013".

Definition atom_matches (a : Atom) (c : ascii) : bool :=
  match a with
  | Lit c' => Ascii.eqb c c'
  | AnyChar => negb (is_line_terminator c)
  end.

(** Match of the whole string (the pattern is anchored by [^] and [$]). *)
Fixpoint matches (r : list Item) (s : string) {struct r} : bool :=
  match r with
  | [] => match s with EmptyString => true | String _ _ => false end
  | One a :: r' =>
      match s with
      | EmptyString => false
      | String c s' => atom_matches a c && matches r' s'
      end
  | Star a :: r' =>
      (fix star (s : string) : bool :=
         matches r' s ||
         match s with
         | EmptyString => false
         | String c s' => atom_matches a c && star s'
         end) s
  end.

(** [new RegExp(`^${pattern}$`).test(s)]; sources outside the fragment are
    handed to [other], which stands for the engine of the runtime (and may
    throw a [SyntaxError]). *)
Definition RegExp_test (other : string -> string -> Res bool)
  (pattern s : string) : Res bool :=
  match compile pattern with
  | Some r => Ok (matches r s)
  | None => other ("^" ++ pattern ++ "$") s
  end.

(** The loop shared by [findMatchingRoute], [isPaymentRequired] and
    [getPaymentConfig]: the first entry, in [Object.entries] order (the
    order of insertion, for keys that are not numerals), whose key contains
    a [*] and whose translation matches the path. *)
Fixpoint first_wildcard {A : Type} (other : string -> string -> Res bool)
  (path : string) (entries : list (string * A)) : Res (option A) :=
  match entries with
  | [] => Ok None
  | (routePath, routeConfig) :: tl =>
      if includes "*" routePath
      then
        match RegExp_test other (replace_star routePath) path with
        | Ok true => Ok (Some routeConfig)
        | Ok false => first_wildcard other path tl
        | Throw e => Throw e
        end
      else first_wildcard other path tl
  end.



(** ** Prices ([PaymentRoute.price]) *)

Record Asset : Type := {
  asset_address : string;
  asset_decimals : Z
}.

Inductive Price : Type :=
| PriceString (text : string)
| PriceObject (amount : string) (asset : option Asset).

(** [`0x${Buffer.from(text).toString('hex').slice(0, 64)}`] *)
Definition hash_of_text (text : string) : string :=
  "0x" ++ slice0 64 (toString_hex text).

(** The result of [JSON.parse]: a value, or a [SyntaxError] thrown. *)
Inductive Parsed : Type :=
| ParseOk (v : JValue)
| SyntaxError (message : string).

(** ** Records shared by the components *)

(** [PaymentVerification] ([facilitator/src/types.ts], [server/src/types.ts]) *)
Record PaymentVerification : Type := {
  isValid : bool;
  transactionHash : option string;
  error : option string;
  verifiedAt : Z
}.

(** [APT]: the default token of a payment. *)
Definition APT : string := "0x1::aptos_coin::AptosCoin".

(** [5 * 60 * 1000]: the window added to [Date.now()] for a deadline. *)
Definition WINDOW : Z := (5 * 60 * 1000)%Z.

(** * The facilitator: [aptos-facilitator.ts] and [payment-middleware.ts] *)

Module Facilitator.

(** ** Data model ([facilitator/src/types.ts]) *)

Record PaymentRequest : Type := {
  transaction : string;
  signature : string;
  publicKey : string;
  address : string;
  timestamp : Z
}.

(** The object a well-typed [PaymentRequest] is at run time. *)
Definition to_js (p : PaymentRequest) : JValue :=
  JObj [ ("transaction", JStr p.(transaction));
         ("signature", JStr p.(signature));
         ("publicKey", JStr p.(publicKey));
         ("address", JStr p.(address));
         ("timestamp", JNum p.(timestamp)) ].

Inductive AptosNetwork : Type := mainnet | testnet | devnet.

Record FacilitatorConfig : Type := {
  aptosNetwork : AptosNetwork;
  port : Z;
  mockMode : option bool
}.

(** [!this.config.mockMode]: an absent flag counts as real mode. *)
Definition mock_enabled (config : FacilitatorConfig) : bool :=
  match config.(mockMode) with Some b => b | None => false end.

Record PaymentRoute : Type := {
  price : Price;
  network : string
}.

(** [PaymentRoutes]: the entries of the object, in insertion order. *)
Definition PaymentRoutes : Type := list (string * PaymentRoute).

(** What the middleware reads of a request: [req.path] and
    [req.headers['x-payment']].  The path of a request begins with a slash,
    so it is never the name of an inherited member of the route table. *)
Record Request : Type := {
  path : string;
  x_payment : option string
}.

(** The [payment] object of a 402 body; [amount] is [route.price] as it is. *)
Record Payment402 : Type := {
  pay_amount : Price;
  pay_token : string;
  pay_recipient : string;
  pay_deadline : Z
}.

Inductive Body : Type :=
| Body402 (payment : Payment402) (message : string) (retryAfter : Z)
| BodyError (error : string).

(** What the handler does with a request: call [next()] (with the
    verification it attached, if any) or send a response. *)
Inductive Outcome : Type :=
| Next (paymentVerification : option PaymentVerification)
| Respond (status : Z) (body : Body).

(** ** The outside world *)

(** The reply of the fullnode REST endpoint: [restResponse.ok] and
    [restResponse.statusText], and the [message] and [hash] of the object
    [restResponse.json()] gives. *)
Record RestResponse : Type := {
  rest_ok : bool;
  rest_statusText : string;
  rest_message : JValue;
  rest_hash : string
}.

(** One hand-over of a transaction to the ledger. *)
Inductive Submission : Type :=
| ViaRest (submissionPayload : JValue)
| ViaSdk (transactionToSubmit senderAuthenticator : JValue).

(** Collaborators that are not code of the repository.  The clock is indexed
    by the number of earlier readings, the ledger by the number of earlier
    hand-overs and waits, so that they may answer differently each time. *)
Record Env : Type := {
  (** [JSON.parse] and [JSON.stringify] of the runtime *)
  JSON_parse : string -> Parsed;
  JSON_stringify : JValue -> string;
  (** the n-th reading of [Date.now()] *)
  Date_now : nat -> Z;
  (** [new RegExp(source).test(s)] for sources outside the fragment
      interpreted by [RegExp_test] below *)
  RegExp_other : string -> string -> Res bool;
  (** the field-by-field conversion of a wallet-signed transaction into the
      REST submission payload (lines 196-259 of the facilitator): a pure
      function of the parsed transaction, the transaction to submit and the
      authenticator, which may throw on a missing field *)
  submissionPayload_of : JValue -> JValue -> JValue -> Res JValue;
  (** [fetch(.../v1/transactions, POST)] followed by [.json()] *)
  fetch_transactions : nat -> JValue -> Res RestResponse;
  (** [aptos.transaction.submit.simple], returning [response.hash] *)
  submit_simple : nat -> JValue -> JValue -> Res string;
  (** [aptos.waitForTransaction] with [timeoutSecs: 30] *)
  waitForTransaction : nat -> string -> Res unit
}.

(** The part of the world the facilitator changes or consumes. *)
Record World : Type := {
  ticks : nat;                     (* readings of Date.now() so far *)
  submitted : list Submission;     (* hand-overs to the ledger, latest first *)
  awaited : list string            (* confirmations waited for, latest first *)
}.

Definition initial_world : World :=
  {| ticks := 0; submitted := []; awaited := [] |}.

Section WithEnv.

Variable E : Env.

Definition now : M World Z :=
  fun w => (Ok (E.(Date_now) w.(ticks)),
            {| ticks := S w.(ticks); submitted := w.(submitted); awaited := w.(awaited) |}).

(** [JSON.parse(v)]: the argument is coerced to a string first. *)
Definition JSON_parse_value (v : JValue) : Res JValue :=
  match E.(JSON_parse) (js_ToString v) with
  | ParseOk x => Ok x
  | SyntaxError m => Throw (ErrorInstance m None)
  end.

(** [Buffer.from(x)] for the result of [a + Date.now()]: a string operand
    makes the sum a string, every other primitive makes it a number, which
    [Buffer.from] rejects. *)
Definition Buffer_from_sum (a : JValue) (t : Z) : Res string :=
  match a with
  | JStr _ | JArr _ | JObj _ => Ok (js_ToString a ++ string_of_Z t)
  | _ =>
      Throw (TypeError "The first argument must be of type string or an instance of Buffer, ArrayBuffer, or Array or an Array-like Object. Received type number")
  end.

(** *** [verifySignature] (lines 97-119) *)
Definition verifySignature (transaction signature publicKey address : JValue)
  : M World bool :=
  try_catch (ret true) (fun _ => ret false).

(** [a?.k] *)
Definition opt_chain (v : JValue) (k : string) : Res JValue :=
  match v with
  | JUndefined | JNull => Ok JUndefined
  | _ => get_prop v k
  end.

(** [v === 'text'] *)
Definition strict_eq_string (v : JValue) (text : string) : bool :=
  match v with JStr s => (s =? text)%string | _ => false end.

(** The three calls that reach the ledger; each is recorded in the world. *)
Definition post_transaction (submissionPayload : JValue) : M World RestResponse :=
  fun w => (E.(fetch_transactions) (List.length w.(submitted)) submissionPayload,
            {| ticks := w.(ticks);
               submitted := ViaRest submissionPayload :: w.(submitted);
               awaited := w.(awaited) |}).

Definition submit_sdk (transactionToSubmit senderAuthenticator : JValue) : M World string :=
  fun w => (E.(submit_simple) (List.length w.(submitted)) transactionToSubmit senderAuthenticator,
            {| ticks := w.(ticks);
               submitted := ViaSdk transactionToSubmit senderAuthenticator :: w.(submitted);
               awaited := w.(awaited) |}).

Definition wait_confirmation (transactionHash : string) : M World unit :=
  fun w => (E.(waitForTransaction) (List.length w.(awaited)) transactionHash,
            {| ticks := w.(ticks);
               submitted := w.(submitted);
               awaited := transactionHash :: w.(awaited) |}).

(** *** [submitTransaction] (lines 124-320) *)

(** The [catch] block of [submitTransaction] (lines 307-319). *)
Definition submitTransaction_catch (transaction : JValue) (error : Exn) : M World string :=
  if exn_message_includes "timeout" error || exn_message_includes "confirmation" error
  then
    match exn_transactionHash error with
    | Some h =>
        if (h =? EmptyString)%string
        then t <- now ;; ret (hash_of_text (E.(JSON_stringify) transaction ++ string_of_Z t))
        else ret h
    | None => t <- now ;; ret (hash_of_text (E.(JSON_stringify) transaction ++ string_of_Z t))
    end
  else throw (Error ("Failed to submit transaction: " ++ exn_message_text error)).

(** The [try] block of [submitTransaction] (lines 125-306). *)
Definition submitTransaction_try (transaction signature : JValue) : M World string :=
    ( parsedTransaction <-
        try_catch
          (if is_string transaction
           then lift (JSON_parse_value transaction)
           else ret transaction)
          (fun error =>
             throw (Error ("Invalid transaction JSON: " ++ exn_message_text error))) ;;
      parsedSignature <-
        match signature with
        | JStr text =>
            if prefix "0x" text
            then
              public_key <- lift (get_prop parsedTransaction "address") ;;
              ret (JObj [ ("type", JStr "ed25519_signature");
                          ("public_key", public_key);
                          ("signature", signature) ])
            else
              try_catch
                (lift (JSON_parse_value signature))
                (fun error =>
                   throw (Error ("Invalid signature format: " ++ exn_message_text error)))
        | _ => ret signature
        end ;;
      prefix_ <- lift (get_prop parsedTransaction "prefix") ;;
      walletMessage <-
        (if strict_eq_string prefix_ "APTOS"
         then message <- lift (get_prop parsedTransaction "message") ;; ret (truthy message)
         else ret false) ;;
      if walletMessage : bool
      then throw (Error "Real mode requires actual blockchain transactions, not wallet message signatures. Please use X402Client to create proper Aptos transactions.")
      else
        rawTransaction <- lift (get_prop parsedTransaction "rawTransaction") ;;
        toSubmit <-
          (if truthy rawTransaction
           then
             authenticator <- lift (get_prop parsedSignature "authenticator") ;;
             ret (rawTransaction, js_or authenticator parsedSignature)
           else ret (parsedTransaction, parsedSignature)) ;;
        let transactionToSubmit := fst toSubmit in
        let signatureToSubmit := snd toSubmit in
        lift (get_prop transactionToSubmit "sender") ;;;
        payload <- lift (get_prop transactionToSubmit "payload") ;;
        lift (get_prop transactionToSubmit "max_gas_amount") ;;;
        entryFunction <- lift (opt_chain payload "entryFunction") ;;
        transactionHash <-
          (if truthy rawTransaction && is_object rawTransaction && truthy entryFunction
           then
             submissionPayload <-
               lift (E.(submissionPayload_of) parsedTransaction transactionToSubmit signatureToSubmit) ;;
             restResponse <- post_transaction submissionPayload ;;
             if negb restResponse.(rest_ok)
             then throw (Error ("Transaction submission failed: " ++
                                js_ToString (js_or restResponse.(rest_message)
                                                   (JStr restResponse.(rest_statusText)))))
             else ret restResponse.(rest_hash)
           else submit_sdk transactionToSubmit signatureToSubmit) ;;
        wait_confirmation transactionHash ;;;
        ret transactionHash ).

Definition submitTransaction (transaction signature : JValue) : M World string :=
  try_catch
    (submitTransaction_try transaction signature)
    (submitTransaction_catch transaction).

(** *** [createRealVerification] (lines 325-365) *)
Definition createRealVerification (paymentRequest : JValue) : M World PaymentVerification :=
  try_catch
    ( lift (get_prop paymentRequest "address") ;;;
      text <- lift (get_prop paymentRequest "transaction") ;;
      transaction <- lift (JSON_parse_value text) ;;
      signature <- lift (get_prop paymentRequest "signature") ;;
      publicKey <- lift (get_prop paymentRequest "publicKey") ;;
      address <- lift (get_prop paymentRequest "address") ;;
      isValidSignature <- verifySignature text signature publicKey address ;;
      if negb isValidSignature
      then
        t <- now ;;
        ret {| isValid := false; transactionHash := None;
               error := Some "Invalid signature"; verifiedAt := t |}
      else
        signature' <- lift (get_prop paymentRequest "signature") ;;
        transactionHash <- submitTransaction transaction signature' ;;
        t <- now ;;
        ret {| isValid := true; transactionHash := Some transactionHash;
               error := None; verifiedAt := t |} )
    (fun error =>
       t <- now ;;
       ret {| isValid := false; transactionHash := None;
              error := Some (message_or "Verification failed" error);
              verifiedAt := t |}).

(** *** [processPayment] (lines 36-92) *)
Definition processPayment (config : FacilitatorConfig) (paymentRequest : JValue)
  : M World PaymentVerification :=
  try_catch
    ( lift (get_prop paymentRequest "address") ;;;
      if negb (mock_enabled config)
      then createRealVerification paymentRequest
      else
        text <- lift (get_prop paymentRequest "transaction") ;;
        transaction <- lift (JSON_parse_value text) ;;
        signature <- lift (get_prop paymentRequest "signature") ;;
        publicKey <- lift (get_prop paymentRequest "publicKey") ;;
        address <- lift (get_prop paymentRequest "address") ;;
        isValidSignature <- verifySignature text signature publicKey address ;;
        if negb isValidSignature
        then
          t <- now ;;
          ret {| isValid := false; transactionHash := None;
                 error := Some "Invalid signature"; verifiedAt := t |}
        else
          address' <- lift (get_prop paymentRequest "address") ;;
          t <- now ;;
          buffer <- lift (Buffer_from_sum address' t) ;;
          let transactionHash := hash_of_text buffer in
          t' <- now ;;
          ret {| isValid := true; transactionHash := Some transactionHash;
                 error := None; verifiedAt := t' |} )
    (fun error =>
       t <- now ;;
       ret {| isValid := false; transactionHash := None;
              error := Some (message_or "Unknown error" error);
              verifiedAt := t |}).

(** ** [payment-middleware.ts] *)

(** *** [findMatchingRoute] (lines 100-118)

    The function is private to the module and is handed [req.path] only;
    [routes[path]] is then the own property of that name. *)
Definition findMatchingRoute (path : string) (routes : PaymentRoutes)
  : Res (option PaymentRoute) :=
  match lookup path routes with
  | Some routeConfig => Ok (Some routeConfig)
  | None => first_wildcard E.(RegExp_other) path routes
  end.

(** The configuration the middleware builds for its facilitator (lines 18-22). *)
Definition middleware_config : FacilitatorConfig :=
  {| aptosNetwork := testnet; port := 3000; mockMode := Some true |}.

Definition payment_required (payTo : string) (route : PaymentRoute) (message : string)
  : M World Outcome :=
  t <- now ;;
  ret (Respond 402
         (Body402 {| pay_amount := route.(price);
                     pay_token := APT;
                     pay_recipient := payTo;
                     pay_deadline := (t + WINDOW)%Z |}
                  message 5)).

(** *** [createPaymentMiddleware] (lines 13-95): the handler it returns.
    The third argument of the source, [options], is not read by it. *)
Definition createPaymentMiddleware (payTo : string) (routes : PaymentRoutes)
  (req : Request) : M World Outcome :=
  try_catch
    ( route <- lift (findMatchingRoute req.(path) routes) ;;
      match route with
      | None => ret (Next None)
      | Some route =>
          match req.(x_payment) with
          | None => payment_required payTo route "Payment required to access this resource"
          | Some paymentHeader =>
              if (paymentHeader =? EmptyString)%string
              then payment_required payTo route "Payment required to access this resource"
              else
                match E.(JSON_parse) paymentHeader with
                | SyntaxError _ =>
                    ret (Respond 400 (BodyError "Invalid payment header format"))
                | ParseOk paymentRequest =>
                    verification <- processPayment middleware_config paymentRequest ;;
                    if negb verification.(isValid)
                    then
                      payment_required payTo route
                        ("Payment verification failed: " ++
                         match verification.(error) with
                         | Some text => text
                         | None => "undefined"
                         end)
                    else ret (Next (Some verification))
                end
          end
      end )
    (fun error =>
       ret (Respond 500 (BodyError "Internal server error in payment processing"))).

End WithEnv.

End Facilitator.

(** * The server: the payment handler and [createX402Middleware] *)

Module Server.

(** ** Data model ([server/src/types.ts]) *)

Record PaymentPayload : Type := {
  amount : string;
  token : string;
  recipient : string;
  deadline : Z;
  nonce : option string
}.

Record X402Response : Type := {
  payment : PaymentPayload;
  message : option string;
  retryAfter : option Z
}.

Record ServerConfig : Type := {
  port : Z;
  facilitatorUrl : string;
  paymentAddress : string;
  mockMode : option bool
}.

Record PaymentRoute : Type := {
  price : Price;
  route_token : option string;
  description : option string
}.

Definition PaymentRoutes : Type := list (string * PaymentRoute).

(** What [paymentRoutes[route]] can be when it is truthy: a route of the
    table, or the member of [Object.prototype] of that name. *)
Inductive PaymentConfig : Type :=
| RouteConfig (c : PaymentRoute)
| PrototypeMember (name : string).

(** [req.method], [req.path] and [req.headers['x-payment']]. *)
Record Request : Type := {
  method : string;
  path : string;
  x_payment : option string
}.

Inductive Body : Type :=
| Body402 (x402Response : X402Response)
| BodyError (error : string).

Inductive Outcome : Type :=
| Next (paymentVerification : option PaymentVerification)
| Respond (status : Z) (body : Body).

(** ** The outside world *)

Record Env : Type := {
  (** [JSON.parse] of the runtime *)
  JSON_parse : string -> Parsed;
  (** the n-th reading of [Date.now()] *)
  Date_now : nat -> Z;
  (** the n-th [Math.random().toString(36).substring(2, 15)] *)
  random_token : nat -> string;
  (** the regular-expression engine outside the fragment of [RegExp_test] *)
  RegExp_other : string -> string -> Res bool;
  (** [axios.post(`${facilitatorUrl}/verify`, body)], giving [response.data] *)
  post_verify : nat -> string -> JValue -> Res PaymentVerification
}.

Record World : Type := {
  ticks : nat;                  (* readings of Date.now() so far *)
  randoms : nat;                (* calls of Math.random() so far *)
  posted : list JValue          (* bodies sent to the facilitator, latest first *)
}.

Section WithEnv.

Variable E : Env.
Variable config : ServerConfig.

Definition now : M World Z :=
  fun w => (Ok (E.(Date_now) w.(ticks)),
            {| ticks := S w.(ticks); randoms := w.(randoms); posted := w.(posted) |}).

Definition random : M World string :=
  fun w => (Ok (E.(random_token) w.(randoms)),
            {| ticks := w.(ticks); randoms := S w.(randoms); posted := w.(posted) |}).

Definition axios_post (body : JValue) : M World PaymentVerification :=
  fun w => (E.(post_verify) (List.length w.(posted))
              (config.(facilitatorUrl) ++ "/verify") body,
            {| ticks := w.(ticks); randoms := w.(randoms); posted := body :: w.(posted) |}).

(** *** [generateNonce] *)
Definition generateNonce : M World string :=
  a <- random ;;
  b <- random ;;
  ret (a ++ b).

(** *** [createPaymentRequired] *)
Definition createPaymentRequired (route : string) (price : Price) : M World X402Response :=
  let amount :=
    match price with
    | PriceString text => text
    | PriceObject amount _ => amount
    end in
  let token :=
    match price with
    | PriceString _ => APT
    | PriceObject _ None => APT
    | PriceObject _ (Some asset) =>
        if (asset.(asset_address) =? EmptyString)%string then APT
        else asset.(asset_address)
    end in
  t <- now ;;
  nonce <- generateNonce ;;
  ret {| payment := {| amount := amount;
                       token := token;
                       recipient := config.(paymentAddress);
                       deadline := (t + WINDOW)%Z;
                       nonce := Some nonce |};
         message := Some ("Payment required to access " ++ route);
         retryAfter := Some 5%Z |}.

(** *** [createMockVerification] *)
Definition createMockVerification : M World PaymentVerification :=
  t <- now ;;
  let mockHash := hash_of_text (string_of_Z t) in
  t' <- now ;;
  ret {| isValid := true; transactionHash := Some mockHash;
         error := None; verifiedAt := t' |}.

(** *** [verifyPayment] *)
Definition verifyPayment (paymentHeader : string) : M World PaymentVerification :=
  try_catch
    ( if match config.(mockMode) with Some b => b | None => false end
      then createMockVerification
      else
        paymentRequest <-
          lift (match E.(JSON_parse) paymentHeader with
                | ParseOk v => Ok v
                | SyntaxError m => Throw (ErrorInstance m None)
                end) ;;
        transaction <- lift (get_prop paymentRequest "transaction") ;;
        signature <- lift (get_prop paymentRequest "signature") ;;
        publicKey <- lift (get_prop paymentRequest "publicKey") ;;
        address <- lift (get_prop paymentRequest "address") ;;
        timestamp <- lift (get_prop paymentRequest "timestamp") ;;
        axios_post (JObj [ ("transaction", transaction);
                           ("signature", signature);
                           ("publicKey", publicKey);
                           ("address", address);
                           ("timestamp", timestamp) ]) )
    (fun error =>
       t <- now ;;
       ret {| isValid := false; transactionHash := None;
              error := Some (message_or "Payment verification failed" error);
              verifiedAt := t |}).

(** *** [isPaymentRequired] *)
Definition isPaymentRequired (route : string) (paymentRoutes : PaymentRoutes) : Res bool :=
  match lookup route paymentRoutes with
  | Some _ => Ok true
  | None =>
      if inherited route then Ok true
      else
        match first_wildcard E.(RegExp_other) route paymentRoutes with
        | Ok (Some _) => Ok true
        | Ok None => Ok false
        | Throw e => Throw e
        end
  end.

(** *** [getPaymentConfig] *)
Definition getPaymentConfig (route : string) (paymentRoutes : PaymentRoutes)
  : Res (option PaymentConfig) :=
  match lookup route paymentRoutes with
  | Some c => Ok (Some (RouteConfig c))
  | None =>
      if inherited route then Ok (Some (PrototypeMember route))
      else
        match first_wildcard E.(RegExp_other) route paymentRoutes with
        | Ok (Some c) => Ok (Some (RouteConfig c))
        | Ok None => Ok None
        | Throw e => Throw e
        end
  end.

(** [paymentConfig.price] on the result of [getPaymentConfig], as
    [createPaymentRequired] can use it.  A member of the prototype has no
    [price]: the argument is [undefined], and [createPaymentRequired]
    throws on reading its [amount] in its first statement. *)
Definition price_of (paymentConfig : option PaymentConfig) : Res Price :=
  match paymentConfig with
  | Some (RouteConfig c) => Ok c.(price)
  | Some (PrototypeMember _) =>
      Throw (TypeError "Cannot read properties of undefined (reading 'amount')")
  | None => Throw (TypeError "Cannot read properties of null (reading 'price')")
  end.

(** *** [createX402Middleware]: the handler it returns *)
Definition createX402Middleware (paymentRoutes : PaymentRoutes) (req : Request)
  : M World Outcome :=
  try_catch
    ( let route := req.(method) ++ " " ++ req.(path) in
      required <- lift (isPaymentRequired route paymentRoutes) ;;
      if negb required
      then ret (Next None)
      else
        let no_payment_header :=
          match req.(x_payment) with
          | None => true
          | Some text => (text =? EmptyString)%string
          end in
        if no_payment_header : bool
        then
          paymentConfig <- lift (getPaymentConfig route paymentRoutes) ;;
          price <- lift (price_of paymentConfig) ;;
          x402Response <- createPaymentRequired route price ;;
          ret (Respond 402 (Body402 x402Response))
        else
          let paymentHeader := match req.(x_payment) with Some text => text | None => EmptyString end in
          verification <- verifyPayment paymentHeader ;;
          if negb verification.(isValid)
          then
            paymentConfig <- lift (getPaymentConfig route paymentRoutes) ;;
            price <- lift (price_of paymentConfig) ;;
            x402Response <- createPaymentRequired route price ;;
            ret (Respond 402
                   (Body402 {| payment := x402Response.(payment);
                               message := Some ("Payment verification failed: " ++
                                                match verification.(error) with
                                                | Some text => text
                                                | None => "undefined"
                                                end);
                               retryAfter := x402Response.(retryAfter) |}))
          else ret (Next (Some verification)) )
    (fun error =>
       ret (Respond 500 (BodyError "Internal server error in payment processing"))).

End WithEnv.

End Server.

(** * The client driver: [X402Client] and [AptosUtils] *)

Module Client.

(** ** Data model (the client's [types.ts]) *)

Record AptosAccount : Type := {
  address : string;
  publicKey : string;
  privateKey : string
}.

Record SignedTransaction : Type := {
  rawTransaction : string;
  signature : string;
  signer_publicKey : string;
  signer_address : string
}.

Record X402ClientConfig : Type := {
  aptosNetwork : string;
  defaultTimeout : option Z;
  maxRetries : option Z
}.

Record RequestOptions : Type := {
  method : option string;
  headers : list (string * string);
  body : JValue;
  timeout : option Z
}.

(** The configuration handed to [axios]; [validateStatus] is the fixed
    function [status < 500] and is applied in [axios] below. *)
Record AxiosRequestConfig : Type := {
  cfg_method : string;
  cfg_url : string;
  cfg_headers : list (string * string);
  cfg_timeout : Z;
  cfg_data : option JValue
}.

(** ** The outside world *)

(** What the HTTP peer does with a request. *)
Inductive HttpResult : Type :=
| Replied (response : AxiosResponse)
| Failed (error : Exn).

Record Env : Type := {
  (** the peer's answer to the n-th request sent *)
  http : nat -> AxiosRequestConfig -> HttpResult;
  (** the n-th reading of [Date.now()] *)
  Date_now : nat -> Z;
  (** [JSON.stringify] *)
  JSON_stringify : JValue -> string;
  (** [BigInt(text)] and [Number(text)] on strings; [None] is [NaN] *)
  BigInt_of_string : string -> Res Z;
  Number_of_string : string -> option Z;
  (** [aptos.getAccountCoinAmount], n-th query *)
  getAccountCoinAmount : nat -> string -> JValue -> Res Z;
  (** [new Ed25519PrivateKey(key).publicKey().toString()] *)
  publicKey_of : string -> Res string;
  (** [aptos.transaction.build.simple] for a coin transfer, n-th build:
      sender, token, recipient, amount *)
  build_simple : nat -> string -> JValue -> JValue -> JValue -> Res JValue
}.

Record World : Type := {
  ticks : nat;                          (* readings of Date.now() so far *)
  requests : list AxiosRequestConfig;   (* requests sent, latest first *)
  queries : nat;                        (* balance queries so far *)
  built : nat                           (* payment transactions built so far *)
}.

Definition initial_world : World :=
  {| ticks := 0; requests := []; queries := 0; built := 0 |}.

Section WithEnv.

Variable E : Env.
Variable account : AptosAccount.
Variable config : X402ClientConfig.

Definition now : M World Z :=
  fun w => (Ok (E.(Date_now) w.(ticks)),
            {| ticks := S w.(ticks); requests := w.(requests);
               queries := w.(queries); built := w.(built) |}).

(** [axios(requestConfig)] with [validateStatus: status < 500]: a reply
    below 500 resolves, any other reply rejects with an error carrying it. *)
Definition axios (requestConfig : AxiosRequestConfig) : M World AxiosResponse :=
  fun w =>
    (match E.(http) (List.length w.(requests)) requestConfig with
     | Replied response =>
         if (response.(status) <? 500)%Z then Ok response
         else Throw (AxiosError ("Request failed with status code " ++
                                 string_of_Z response.(status))
                                (Some response))
     | Failed error => Throw error
     end,
     {| ticks := w.(ticks); requests := requestConfig :: w.(requests);
        queries := w.(queries); built := w.(built) |}).

Definition query_balance (address : string) (token : JValue) : M World Z :=
  fun w => (E.(getAccountCoinAmount) w.(queries) address token,
            {| ticks := w.(ticks); requests := w.(requests);
               queries := S w.(queries); built := w.(built) |}).

Definition build (sender : string) (token recipient amount : JValue) : M World JValue :=
  fun w => (E.(build_simple) w.(built) sender token recipient amount,
            {| ticks := w.(ticks); requests := w.(requests);
               queries := w.(queries); built := S w.(built) |}).

(** [BigInt(v)] *)
Definition js_BigInt (v : JValue) : Res Z :=
  match v with
  | JNum n => Ok n
  | JBool b => Ok (if b then 1 else 0)%Z
  | JStr text => E.(BigInt_of_string) text
  | JArr _ | JObj _ => E.(BigInt_of_string) (js_ToString v)
  | JUndefined => Throw (TypeError "Cannot convert undefined to a BigInt")
  | JNull => Throw (TypeError "Cannot convert null to a BigInt")
  end.

(** [Number(v)]; [None] is [NaN]. *)
Definition js_ToNumber (v : JValue) : option Z :=
  match v with
  | JNum n => Some n
  | JBool b => Some (if b then 1 else 0)%Z
  | JNull => Some 0%Z
  | JUndefined => None
  | JStr text => E.(Number_of_string) text
  | JArr _ | JObj _ => E.(Number_of_string) (js_ToString v)
  end.

(** [v <= t] for a number [t] *)
Definition js_le (v : JValue) (t : Z) : bool :=
  match js_ToNumber v with
  | Some n => (n <=? t)%Z
  | None => false
  end.

(** Object spread [{ ...base, ...extra }] on string-valued objects. *)
Fixpoint set_key (k v : string) (o : list (string * string)) : list (string * string) :=
  match o with
  | [] => [(k, v)]
  | (k', v') :: tl =>
      if (k =? k')%string then (k, v) :: tl else (k', v') :: set_key k v tl
  end.

Definition spread (base extra : list (string * string)) : list (string * string) :=
  fold_left (fun o kv => set_key (fst kv) (snd kv) o) extra base.

(** The request configuration built in [request] (lines 27-41 of the class)
    and again, with the proof header, in [retryWithPayment]. *)
Definition requestConfig_of (url : string) (options : RequestOptions)
  (proof : option string) : AxiosRequestConfig :=
  {| cfg_method := match options.(method) with Some m => m | None => "GET" end;
     cfg_url := url;
     cfg_headers :=
       spread
         ([("Content-Type", "application/json");
           ("User-Agent", "x402-aptos-client/1.0.0")] ++
          match proof with
          | Some text => [("X-Payment", text)]
          | None => []
          end)%list
         options.(headers);
     cfg_timeout :=
       match options.(timeout) with
       | Some t => t
       | None =>
           match config.(defaultTimeout) with
           | Some d => if (d =? 0)%Z then 30000%Z else d
           | None => 30000%Z
           end
       end;
     cfg_data := if truthy options.(body) then Some options.(body) else None |}.

(** ** [AptosUtils] *)

(** *** [validatePaymentPayload] *)
Definition validatePaymentPayload (payload : JValue) : M World bool :=
  try_catch
    ( amount <- lift (get_prop payload "amount") ;;
      token <- lift (get_prop payload "token") ;;
      recipient <- lift (get_prop payload "recipient") ;;
      deadline <- lift (get_prop payload "deadline") ;;
      if negb (truthy amount) || negb (truthy token) ||
         negb (truthy recipient) || negb (truthy deadline)
      then ret false
      else
        value <- lift (js_BigInt amount) ;;
        if (value <=? 0)%Z
        then ret false
        else
          t <- now ;;
          if js_le deadline t then ret false else ret true )
    (fun _ => ret false).

(** *** [checkBalance] *)
Definition checkBalance (address : string) (token requiredAmount : JValue) : M World bool :=
  try_catch
    ( balance <- query_balance address token ;;
      required <- lift (js_BigInt requiredAmount) ;;
      ret (balance >=? required)%Z )
    (fun _ => ret false).

(** *** [createPaymentTransaction] *)
Definition createPaymentTransaction (account : AptosAccount) (paymentPayload : JValue)
  : M World SignedTransaction :=
  publicKey <- lift (E.(publicKey_of) account.(privateKey)) ;;
  token <- lift (get_prop paymentPayload "token") ;;
  recipient <- lift (get_prop paymentPayload "recipient") ;;
  amount <- lift (get_prop paymentPayload "amount") ;;
  transaction <- build account.(address) token recipient amount ;;
  t <- now ;;
  let mockSignature := "0x" ++ toString_hex (account.(address) ++ string_of_Z t) in
  ret {| rawTransaction := E.(JSON_stringify) transaction;
         signature := mockSignature;
         signer_publicKey := publicKey;
         signer_address := account.(address) |}.

(** ** [X402Client] *)

(** *** [retryWithPayment] *)
Definition retryWithPayment (url : string) (originalOptions : RequestOptions)
  (signedTransaction : SignedTransaction) : M World JValue :=
  t <- now ;;
  let paymentProof :=
    JObj [ ("transaction", JStr signedTransaction.(rawTransaction));
           ("signature", JStr signedTransaction.(signature));
           ("publicKey", JStr signedTransaction.(signer_publicKey));
           ("address", JStr signedTransaction.(signer_address));
           ("timestamp", JNum t) ] in
  let requestConfig :=
    requestConfig_of url originalOptions (Some (E.(JSON_stringify) paymentProof)) in
  try_catch
    ( response <- axios requestConfig ;;
      if (response.(status) =? 402)%Z
      then throw (Error "Payment verification failed - server still requires payment")
      else if (response.(status) >=? 400)%Z
      then throw (Error ("Request failed with status " ++ string_of_Z response.(status) ++
                         ": " ++ response.(statusText)))
      else ret response.(data) )
    (fun error =>
       match error with
       | AxiosError m _ => throw (Error ("Payment retry failed: " ++ m))
       | _ => throw error
       end).

(** *** [handlePaymentRequired] *)
Definition handlePaymentRequired (response : AxiosResponse) (url : string)
  (originalOptions : RequestOptions) : M World JValue :=
  try_catch
    ( payment <- lift (get_prop response.(data) "payment") ;;
      valid <- validatePaymentPayload payment ;;
      if negb valid
      then throw (Error "Invalid payment payload received from server")
      else
        deadline <- lift (get_prop payment "deadline") ;;
        t <- now ;;
        if js_le deadline t
        then throw (Error "Payment deadline has passed")
        else
          token <- lift (get_prop payment "token") ;;
          amount <- lift (get_prop payment "amount") ;;
          hasBalance <- checkBalance account.(address) token amount ;;
          if negb hasBalance
          then throw (Error "Insufficient balance for payment")
          else
            signedTransaction <- createPaymentTransaction account payment ;;
            retryWithPayment url originalOptions signedTransaction )
    (fun error => throw error).

(** *** [request] *)
Definition request (url : string) (options : RequestOptions) : M World JValue :=
  let requestConfig := requestConfig_of url options None in
  try_catch
    ( response <- axios requestConfig ;;
      if (response.(status) =? 402)%Z
      then handlePaymentRequired response url options
      else ret response.(data) )
    (fun error =>
       match error with
       | AxiosError _ (Some response) =>
           if (response.(status) =? 402)%Z
           then handlePaymentRequired response url options
           else throw error
       | _ => throw error
       end).

End WithEnv.

End Client.

(** * The test server with live verification: [customPaymentMiddleware] *)

Module TestServer.

Section WithEnv.

Variable E : Facilitator.Env.

(** The configuration of the facilitator the middleware builds: mock mode
    is switched off. *)
Definition custom_config : Facilitator.FacilitatorConfig :=
  {| Facilitator.aptosNetwork := Facilitator.testnet;
     Facilitator.port := 4021;
     Facilitator.mockMode := Some false |}.

(** *** [findMatchingRoute], the server's own copy, handed [req.path] only *)
Definition findMatchingRoute (path : string) (routes : Facilitator.PaymentRoutes)
  : Res (option Facilitator.PaymentRoute) :=
  match lookup path routes with
  | Some routeConfig => Ok (Some routeConfig)
  | None => first_wildcard E.(Facilitator.RegExp_other) path routes
  end.

(** *** [customPaymentMiddleware]: the handler it returns *)
Definition customPaymentMiddleware (payTo : string) (routes : Facilitator.PaymentRoutes)
  (req : Facilitator.Request) : M Facilitator.World Facilitator.Outcome :=
  try_catch
    ( route <- lift (findMatchingRoute req.(Facilitator.path) routes) ;;
      match route with
      | None => ret (Facilitator.Next None)
      | Some route =>
          match req.(Facilitator.x_payment) with
          | None =>
              Facilitator.payment_required E payTo route
                "Payment required to access this resource"
          | Some paymentHeader =>
              if (paymentHeader =? EmptyString)%string
              then Facilitator.payment_required E payTo route
                     "Payment required to access this resource"
              else
                match E.(Facilitator.JSON_parse) paymentHeader with
                | SyntaxError _ =>
                    ret (Facilitator.Respond 400
                           (Facilitator.BodyError "Invalid payment header format"))
                | ParseOk paymentRequest =>
                    verification <- Facilitator.processPayment E custom_config paymentRequest ;;
                    if negb verification.(isValid)
                    then
                      Facilitator.payment_required E payTo route
                        ("Payment verification failed: " ++
                         match verification.(error) with
                         | Some text => text
                         | None => "undefined"
                         end)
                    else ret (Facilitator.Next (Some verification))
                end
          end
      end )
    (fun error =>
       ret (Facilitator.Respond 500
              (Facilitator.BodyError "Internal server error in payment processing"))).

End WithEnv.

End TestServer.

(** * The facilitator's HTTP server: [facilitator-server.ts] *)

Module FacilitatorServer.

(** The world of the server: that of its facilitator and the number of
    transaction look-ups made on the ledger. *)
Record World : Type := {
  facilitator : Facilitator.World;
  lookups : nat
}.

(** The body of a reply of [/transaction/:hash]. *)
Inductive TransactionBody : Type :=
| TransactionStatus (hash : string) (confirmed : bool) (details : JValue)
| TransactionError (error : string).

Section WithEnv.

Variable E : Facilitator.Env.

(** [aptos.getTransactionByHash], n-th look-up *)
Variable getTransactionByHash : nat -> string -> Res JValue.

(** The configuration of the facilitator instance. *)
Variable config : Facilitator.FacilitatorConfig.

(** A step of the facilitator, run in the world of the server. *)
Definition in_facilitator {A : Type} (m : M Facilitator.World A) : M World A :=
  fun w =>
    let (r, f) := m w.(facilitator) in
    (r, {| facilitator := f; lookups := w.(lookups) |}).

Definition lookup_transaction (transactionHash : string) : M World JValue :=
  fun w => (getTransactionByHash w.(lookups) transactionHash,
            {| facilitator := w.(facilitator); lookups := S w.(lookups) |}).

(** *** [isTransactionConfirmed] (lines 370-386 of the facilitator) *)
Definition isTransactionConfirmed (transactionHash : string) : M World bool :=
  try_catch
    ( if Facilitator.mock_enabled config
      then ret true
      else
        transaction <- lookup_transaction transactionHash ;;
        ret (match transaction with JNull => false | _ => true end) )
    (fun _ => ret false).

(** *** [getTransactionDetails] (lines 391-409 of the facilitator) *)
Definition getTransactionDetails (transactionHash : string) : M World JValue :=
  try_catch
    ( if Facilitator.mock_enabled config
      then
        t <- in_facilitator (Facilitator.now E) ;;
        ret (JObj [ ("hash", JStr transactionHash);
                    ("success", JBool true);
                    ("timestamp", JNum t);
                    ("mock", JBool true) ])
      else lookup_transaction transactionHash )
    (fun error => throw error).

(** *** [POST /verify] (lines 37-61 of the server) *)
Definition verify (body : JValue) : M World (Z * PaymentVerification) :=
  try_catch
    ( lift (get_prop body "address") ;;;
      lift (get_prop body "transaction") ;;;
      verification <- in_facilitator (Facilitator.processPayment E config body) ;;
      ret (200%Z, verification) )
    (fun error =>
       t <- in_facilitator (Facilitator.now E) ;;
       ret (500%Z,
            {| isValid := false; transactionHash := None;
               error := Some (message_or "Unknown error" error);
               verifiedAt := t |})).

(** *** [GET /transaction/:hash] (lines 64-81 of the server) *)
Definition transaction_status (hash : string) : M World (Z * TransactionBody) :=
  try_catch
    ( isConfirmed <- isTransactionConfirmed hash ;;
      details <- getTransactionDetails hash ;;
      ret (200%Z, TransactionStatus hash isConfirmed details) )
    (fun error =>
       ret (500%Z, TransactionError (message_or "Unknown error" error))).

End WithEnv.

End FacilitatorServer.

(** * The web application's client: [x402Request] *)

Module WebClient.

Record WalletAccount : Type := {
  address : string;
  publicKey : option string
}.

(** [RequestInit], as far as the client reads it. *)
Record RequestInit : Type := {
  init_method : option string;
  init_headers : list (string * string);
  init_body : option string
}.

(** A [Response]: its status and what [response.json()] gives. *)
Record FetchResponse : Type := {
  fetch_status : Z;
  fetch_statusText : string;
  fetch_json : Res JValue
}.

Record Env : Type := {
  (** the n-th [fetch] *)
  fetch : nat -> string -> RequestInit -> Res FetchResponse;
  (** the n-th reading of [Date.now()] *)
  Date_now : nat -> Z;
  (** [BigInt(text)] *)
  BigInt_of_string : string -> Res Z;
  (** [aptos.transaction.build.simple] for a coin transfer, n-th build:
      sender, recipient, amount *)
  build_simple : nat -> string -> JValue -> Z -> Res JValue;
  (** the signing function handed to the client, n-th call *)
  signTransaction : nat -> JValue -> Res JValue;
  (** [JSON.stringify] with the replacer that prints big integers *)
  stringify_with_bigint : JValue -> string;
  (** [JSON.stringify] *)
  JSON_stringify : JValue -> string
}.

Record World : Type := {
  ticks : nat;                             (* readings of Date.now() so far *)
  fetched : list (string * RequestInit);   (* requests sent, latest first *)
  built : list (string * JValue * Z);      (* transfers built, latest first *)
  signed : nat                             (* transactions signed so far *)
}.

Definition initial_world : World :=
  {| ticks := 0; fetched := []; built := []; signed := 0 |}.

Section WithEnv.

Variable E : Env.

Definition now : M World Z :=
  fun w => (Ok (E.(Date_now) w.(ticks)),
            {| ticks := S w.(ticks); fetched := w.(fetched);
               built := w.(built); signed := w.(signed) |}).

Definition do_fetch (url : string) (init : RequestInit) : M World FetchResponse :=
  fun w => (E.(fetch) (List.length w.(fetched)) url init,
            {| ticks := w.(ticks); fetched := (url, init) :: w.(fetched);
               built := w.(built); signed := w.(signed) |}).

Definition build (sender : string) (recipient : JValue) (amount : Z) : M World JValue :=
  fun w => (E.(build_simple) (List.length w.(built)) sender recipient amount,
            {| ticks := w.(ticks); fetched := w.(fetched);
               built := (sender, recipient, amount) :: w.(built);
               signed := w.(signed) |}).

Definition sign (transaction : JValue) : M World JValue :=
  fun w => (E.(signTransaction) w.(signed) transaction,
            {| ticks := w.(ticks); fetched := w.(fetched);
               built := w.(built); signed := S w.(signed) |}).

(** The payment details taken from the body of a 402 (lines 235-251). *)
Definition paymentDetails_of (responseData : JValue) : M World JValue :=
  payment <- lift (get_prop responseData "payment") ;;
  if truthy payment
  then ret payment
  else
    recipient <- lift (get_prop responseData "recipient") ;;
    amount <- lift (get_prop responseData "amount") ;;
    if truthy recipient && truthy amount
    then ret responseData
    else
      t <- now ;;
      t' <- now ;;
      ret (JObj [ ("recipient", JStr "0x1");
                  ("amount", JStr "1000000");
                  ("nonce", JStr (string_of_Z t));
                  ("timestamp", JNum t') ]).

(** [{ ...options, headers: { ...options.headers, 'X-Payment': proof } }] *)
Definition with_payment (options : RequestInit) (proof : string) : RequestInit :=
  {| init_method := options.(init_method);
     init_headers := Client.set_key "X-Payment" proof options.(init_headers);
     init_body := options.(init_body) |}.

(** *** [x402Request] (lines 215-315) *)
Definition x402Request (url : string) (options : RequestInit)
  (walletAccount : WalletAccount) : M World JValue :=
  try_catch
    ( response <- do_fetch url options ;;
      if (response.(fetch_status) =? 200)%Z
      then lift response.(fetch_json)
      else if (response.(fetch_status) =? 402)%Z
      then
        responseData <- lift response.(fetch_json) ;;
        paymentDetails <- paymentDetails_of responseData ;;
        amount_ <- lift (get_prop paymentDetails "amount") ;;
        let amount := if truthy amount_ then js_ToString amount_ else "1000000" in
        recipient_ <- lift (get_prop paymentDetails "recipient") ;;
        let recipient := js_or recipient_ (JStr "0x1") in
        value <- lift (E.(BigInt_of_string) amount) ;;
        transaction <- build walletAccount.(address) recipient value ;;
        senderAuthenticator <- sign transaction ;;
        t <- now ;;
        let payment :=
          JObj [ ("transaction", JStr (E.(stringify_with_bigint) transaction));
                 ("signature", JStr (E.(stringify_with_bigint) senderAuthenticator));
                 ("publicKey", JStr (match walletAccount.(publicKey) with
                                      | Some text => text
                                      | None => EmptyString
                                      end));
                 ("address", JStr walletAccount.(address));
                 ("timestamp", JNum t) ] in
        retryResponse <- do_fetch url (with_payment options (E.(JSON_stringify) payment)) ;;
        if (retryResponse.(fetch_status) =? 200)%Z
        then lift retryResponse.(fetch_json)
        else throw (Error ("Payment failed: " ++ string_of_Z retryResponse.(fetch_status) ++
                           " " ++ retryResponse.(fetch_statusText)))
      else throw (Error ("Request failed: " ++ string_of_Z response.(fetch_status) ++
                         " " ++ response.(fetch_statusText))) )
    (fun error => throw error).

End WithEnv.

End WebClient.

(** * The website agent: [agents/website/agent.ts] *)

Module WebsiteBuilder.

(** ** [determineStyle] (lines 346-424) *)

(** The keys of [WEBSITE_STYLES] (lines 16-37). *)
Definition WEBSITE_STYLES : list string :=
  [ "professional"; "creative"; "minimal"; "eco-friendly" ].

Definition styleKeywords : list (string * list string) :=
  [ ("professional",
     [ "business"; "corporate"; "professional"; "enterprise"; "company";
       "services"; "consulting"; "finance"; "legal"; "medical" ]);
    ("creative",
     [ "art"; "design"; "creative"; "portfolio"; "photography"; "music";
       "fashion"; "entertainment"; "media"; "digital" ]);
    ("minimal",
     [ "tech"; "startup"; "product"; "app"; "software"; "digital"; "modern";
       "clean"; "simple"; "minimalist"; "hackathon" ]);
    ("eco-friendly",
     [ "sustainable"; "eco"; "green"; "environment"; "nature"; "organic";
       "renewable"; "conservation"; "sustainability"; "eco-friendly";
       "hackathon" ]) ].

(** [keywords.reduce((count, keyword) => text.includes(keyword) ? count + 1 : count, 0)] *)
Definition score (text : string) (keywords : list string) : nat :=
  fold_left (fun count keyword => if includes keyword text then S count else count)
            keywords 0%nat.

(** The entries of [styleScores], in the order the styles were inserted. *)
Definition styleScores (text : string) : list (string * nat) :=
  map (fun entry => (fst entry, score text (snd entry))) styleKeywords.

Section WithRuntime.

(** [String.prototype.toLowerCase] of the runtime. *)
Variable toLowerCase : string -> string.

Definition determineStyle (topic description : string) : string :=
  let text := toLowerCase (topic ++ " " ++ description) in
  match styleScores text with
  | first :: rest =>
      fst (fold_left (fun max current =>
                        if (snd max <? snd current)%nat then current else max)
                     rest first)
  | [] => "professional"
  end.

End WithRuntime.

(** ** [cleanContent] (lines 164-169)

    The text is a sequence of UTF-16 code units, as the runtime has it. *)

(** The code units [\s] matches and [trim] strips: white space and line
    terminators. *)
Definition is_space (c : N) : bool :=
  ((c =? 9) || (c =? 10) || (c =? 11) || (c =? 12) || (c =? 13) || (c =? 32) ||
   (c =? 160) || (c =? 5760) || ((8192 <=? c) && (c <=? 8202)) ||
   (c =? 8232) || (c =? 8233) || (c =? 8239) || (c =? 8287) ||
   (c =? 12288) || (c =? 65279))%N.

(** [content.split("\n")] *)
Fixpoint split_newline (content : list N) : list (list N) :=
  match content with
  | [] => [[]]
  | c :: rest =>
      if (c =? 10)%N then [] :: split_newline rest
      else
        match split_newline rest with
        | line :: lines => (c :: line) :: lines
        | [] => [[c]]
        end
  end.

Fixpoint trimStart (text : list N) : list N :=
  match text with
  | [] => []
  | c :: rest => if is_space c then trimStart rest else text
  end.

Fixpoint trimEnd (text : list N) : list N :=
  match text with
  | [] => []
  | c :: rest =>
      match trimEnd rest with
      | [] => if is_space c then [] else [c]
      | kept => c :: kept
      end
  end.

Definition trim (text : list N) : list N := trimEnd (trimStart text).

(** [lines.join(" ")] *)
Fixpoint join_space (lines : list (list N)) : list N :=
  match lines with
  | [] => []
  | [line] => line
  | line :: rest => line ++ 32%N :: join_space rest
  end.

(** [text.replace(/\s+/g, " ")]: every maximal run of white space becomes
    one space; [in_run] tells that the run has begun. *)
Fixpoint replace_runs (in_run : bool) (text : list N) : list N :=
  match text with
  | [] => []
  | c :: rest =>
      if is_space c
      then if in_run then replace_runs true rest else 32%N :: replace_runs true rest
      else c :: replace_runs false rest
  end.

Definition cleanContent (content : list N) : list N :=
  let lines :=
    filter (fun line => match trim line with [] => false | _ => true end)
           (split_newline content) in
  trim (replace_runs false (join_space lines)).

End WebsiteBuilder.

(** * Concrete worlds for the examples *)

(** The double-quote character, for writing JSON texts. *)
Definition dq : string := String "034" EmptyString.

Definition quoted (text : string) : string := dq ++ text ++ dq.

(** The text of a string literal inside a JSON text: quotes and backslashes
    are escaped. *)
Fixpoint escaped (text : string) : string :=
  match text with
  | EmptyString => EmptyString
  | String c rest =>
      if Ascii.eqb c "034" || Ascii.eqb c "\"
      then String "\" (String c (escaped rest))
      else String c (escaped rest)
  end.

(** A coin transfer of 1 octa to [0xattacker], as a JSON text and as the
    value [JSON.parse] gives for it. *)
Definition transfer_text : string :=
  "{" ++ quoted "function" ++ ":" ++ quoted "0x1::coin::transfer" ++ "," ++
  quoted "arguments" ++ ":[" ++ quoted "0xattacker" ++ ",1]}".

Definition transfer_value : JValue :=
  JObj [ ("function", JStr "0x1::coin::transfer");
         ("arguments", JArr [JStr "0xattacker"; JNum 1]) ].

(** The recipient and the amount a coin-transfer payload names, in the shape
    [{ function, arguments: [recipient, amount] }] the facilitator itself
    hands to the ledger (lines 248-253 of [aptos-facilitator.ts]). *)
Definition transfer_arguments (transaction : JValue) : option (string * Z) :=
  match transaction with
  | JObj fields =>
      match lookup "arguments" fields with
      | Some (JArr [JStr recipient; JNum amount]) => Some (recipient, amount)
      | _ => None
      end
  | _ => None
  end.

(** A proof carrying that transfer, from an account with a short address. *)
Definition short_proof : Facilitator.PaymentRequest :=
  {| Facilitator.transaction := transfer_text;
     Facilitator.signature := "0xsig";
     Facilitator.publicKey := "0xpub";
     Facilitator.address := "0x1";
     Facilitator.timestamp := 1700000000000 |}.

(** The same proof as the text of an [X-Payment] header. *)
Definition short_proof_header : string :=
  "{" ++ quoted "transaction" ++ ":" ++ dq ++ escaped transfer_text ++ dq ++ "," ++
  quoted "signature" ++ ":" ++ quoted "0xsig" ++ "," ++
  quoted "publicKey" ++ ":" ++ quoted "0xpub" ++ "," ++
  quoted "address" ++ ":" ++ quoted "0x1" ++ "," ++
  quoted "timestamp" ++ ":1700000000000}".

(** [JSON.parse] on the texts the examples use; every other text of the
    examples is not JSON. *)
Definition sample_JSON_parse (text : string) : Parsed :=
  if (text =? "{}")%string then ParseOk (JObj [])
  else if (text =? transfer_text)%string then ParseOk transfer_value
  else if (text =? short_proof_header)%string then ParseOk (Facilitator.to_js short_proof)
  else SyntaxError "Unexpected token in JSON".

(** A clock that advances by one millisecond per reading. *)
Definition sample_clock (n : nat) : Z := (1700000000000 + Z.of_nat n)%Z.

(** A ledger that accepts every transaction and answers with the hash of
    the transfer. *)
Definition sample_hash : string := "0xledgerhash".

Definition accepting_ledger : Facilitator.Env :=
  {| Facilitator.JSON_parse := sample_JSON_parse;
     Facilitator.JSON_stringify := fun _ => "{}";
     Facilitator.Date_now := sample_clock;
     Facilitator.RegExp_other := fun _ _ => Throw (Error "Invalid regular expression");
     Facilitator.submissionPayload_of := fun _ tx _ => Ok tx;
     Facilitator.fetch_transactions := fun _ _ =>
       Ok {| Facilitator.rest_ok := true;
             Facilitator.rest_statusText := "Accepted";
             Facilitator.rest_message := JUndefined;
             Facilitator.rest_hash := sample_hash |};
     Facilitator.submit_simple := fun _ _ _ => Ok sample_hash;
     Facilitator.waitForTransaction := fun _ _ => Ok tt |}.

(** A ledger that takes the transaction but whose confirmation wait ends
    with an error mentioning a timeout. *)
Definition slow_ledger : Facilitator.Env :=
  {| Facilitator.JSON_parse := sample_JSON_parse;
     Facilitator.JSON_stringify := fun _ => "{}";
     Facilitator.Date_now := sample_clock;
     Facilitator.RegExp_other := fun _ _ => Throw (Error "Invalid regular expression");
     Facilitator.submissionPayload_of := fun _ tx _ => Ok tx;
     Facilitator.fetch_transactions := fun _ _ =>
       Ok {| Facilitator.rest_ok := true;
             Facilitator.rest_statusText := "Accepted";
             Facilitator.rest_message := JUndefined;
             Facilitator.rest_hash := sample_hash |};
     Facilitator.submit_simple := fun _ _ _ => Ok sample_hash;
     Facilitator.waitForTransaction := fun _ _ =>
       Throw (Error "timeout waiting for transaction") |}.

Definition mock_config : Facilitator.FacilitatorConfig :=
  {| Facilitator.aptosNetwork := Facilitator.testnet;
     Facilitator.port := 3001;
     Facilitator.mockMode := Some true |}.

Definition live_config : Facilitator.FacilitatorConfig :=
  {| Facilitator.aptosNetwork := Facilitator.testnet;
     Facilitator.port := 3001;
     Facilitator.mockMode := Some false |}.

(** A proof whose transaction text is not JSON. *)
Definition garbled_proof : Facilitator.PaymentRequest :=
  {| Facilitator.transaction := "not json";
     Facilitator.signature := "0xsig";
     Facilitator.publicKey := "0xpub";
     Facilitator.address := "0x1";
     Facilitator.timestamp := 1700000000000 |}.

(** The route table of the facilitator's example server, and the payment
    address it is given. *)
Definition sample_routes : Facilitator.PaymentRoutes :=
  [ ("/weather",
     {| Facilitator.price := PriceString "1000000";
        Facilitator.network := "aptos-testnet" |});
    ("/premium/*",
     {| Facilitator.price := PriceString "10000000";
        Facilitator.network := "aptos-testnet" |}) ].

Definition sample_payTo : string := "0xserver".

(** The route table of the test server ([server/src/test-server.ts]). *)
Definition server_routes : Server.PaymentRoutes :=
  [ ("GET /weather",
     {| Server.price := PriceString "1000000";
        Server.route_token := None;
        Server.description := Some "Weather data" |});
    ("GET /premium/*",
     {| Server.price := PriceString "10000000";
        Server.route_token := None;
        Server.description := Some "Premium content" |});
    ("GET /data/analytics",
     {| Server.price := PriceObject "2000000"
                          (Some {| asset_address := APT; asset_decimals := 8 |});
        Server.route_token := None;
        Server.description := Some "Analytics data" |}) ].

Definition server_config : Server.ServerConfig :=
  {| Server.port := 4021;
     Server.facilitatorUrl := "http://localhost:3001";
     Server.paymentAddress := "0xserver";
     Server.mockMode := Some false |}.

Definition server_env : Server.Env :=
  {| Server.JSON_parse := sample_JSON_parse;
     Server.Date_now := sample_clock;
     Server.random_token := fun n => "nonce" ++ string_of_Z (Z.of_nat n);
     Server.RegExp_other := fun _ _ => Throw (Error "Invalid regular expression");
     Server.post_verify := fun _ _ _ => Throw (AxiosError "connect ECONNREFUSED" None) |}.

Definition server_world : Server.World :=
  {| Server.ticks := 0; Server.randoms := 0; Server.posted := [] |}.

(** The client's account and a challenge for 1000000 octas. *)
Definition sample_account : Client.AptosAccount :=
  {| Client.address := "0xclient";
     Client.publicKey := "0xpub";
     Client.privateKey := "0xkey" |}.

Definition client_config : Client.X402ClientConfig :=
  {| Client.aptosNetwork := "testnet";
     Client.defaultTimeout := None;
     Client.maxRetries := None |}.

Definition plain_get : Client.RequestOptions :=
  {| Client.method := None; Client.headers := [];
     Client.body := JUndefined; Client.timeout := None |}.

Definition challenge_body (deadline : Z) : JValue :=
  JObj [ ("payment",
          JObj [ ("amount", JStr "1000000");
                 ("token", JStr APT);
                 ("recipient", JStr "0xserver");
                 ("deadline", JNum deadline) ]);
         ("message", JStr "Payment required to access GET /weather");
         ("retryAfter", JNum 5) ].

(** A client world in which every reply is the given one, the account holds
    5000000 octas and signing succeeds. *)
Definition client_env (reply : AxiosResponse) : Client.Env :=
  {| Client.http := fun _ _ => Client.Replied reply;
     Client.Date_now := sample_clock;
     Client.JSON_stringify := fun _ => "{}";
     Client.BigInt_of_string := fun text =>
       if (text =? "1000000")%string then Ok 1000000%Z
       else Throw (Error "Cannot convert to a BigInt");
     Client.Number_of_string := fun _ => None;
     Client.getAccountCoinAmount := fun _ _ _ => Ok 5000000%Z;
     Client.publicKey_of := fun _ => Ok "0xpub";
     Client.build_simple := fun _ _ _ _ _ => Ok (JObj []) |}.

(** A server that always asks for payment, with a deadline far ahead. *)
Definition insisting_reply : AxiosResponse :=
  {| status := 402; statusText := "Payment Required";
     data := challenge_body 1800000000000 |}.

(** A server whose challenge expired long ago. *)
Definition expired_reply : AxiosResponse :=
  {| status := 402; statusText := "Payment Required";
     data := challenge_body 1600000000000 |}.

(** A server in trouble. *)
Definition failing_reply : AxiosResponse :=
  {| status := 500; statusText := "Internal Server Error";
     data := JObj [("error", JStr "Internal server error in payment processing")] |}.

(** A server that grants the resource. *)
Definition granting_reply : AxiosResponse :=
  {| status := 200; statusText := "OK";
     data := JObj [("weather", JStr "sunny")] |}.

(** A proof from an account with a full-length address. *)
Definition long_proof : Facilitator.PaymentRequest :=
  {| Facilitator.transaction := transfer_text;
     Facilitator.signature := "0xsig";
     Facilitator.publicKey := "0xpub";
     Facilitator.address :=
       "0xbcfb4a60c030cb5dcab8adc7d723fcc6f2bbfa432f595ae8eb1bdc436b928cbd";
     Facilitator.timestamp := 1700000000000 |}.

(** A proof from an account whose address has 20 bytes. *)
Definition twenty_byte_proof : Facilitator.PaymentRequest :=
  {| Facilitator.transaction := transfer_text;
     Facilitator.signature := "0xsig";
     Facilitator.publicKey := "0xpub";
     Facilitator.address := "0x1234567890abcdef12";
     Facilitator.timestamp := 1700000000000 |}.

(** A table with overlapping keys: two wildcard keys and an exact one. *)
Definition basic_route : Facilitator.PaymentRoute :=
  {| Facilitator.price := PriceString "10000000"; Facilitator.network := "aptos-testnet" |}.

Definition vip_route : Facilitator.PaymentRoute :=
  {| Facilitator.price := PriceString "50000000"; Facilitator.network := "aptos-testnet" |}.

Definition gold_route : Facilitator.PaymentRoute :=
  {| Facilitator.price := PriceString "90000000"; Facilitator.network := "aptos-testnet" |}.

Definition overlapping_routes : Facilitator.PaymentRoutes :=
  [ ("/premium/*", basic_route);
    ("/premium/vip/*", vip_route);
    ("/premium/vip/gold", gold_route) ].

(** A message signed by a wallet, as a JSON text and as its value, and a
    proof that carries it instead of a transaction. *)
Definition wallet_message_text : string :=
  "{" ++ quoted "prefix" ++ ":" ++ quoted "APTOS" ++ "," ++
  quoted "message" ++ ":" ++ quoted "pay 1000000" ++ "}".

Definition wallet_message_value : JValue :=
  JObj [ ("prefix", JStr "APTOS"); ("message", JStr "pay 1000000") ].

Definition wallet_message_proof : Facilitator.PaymentRequest :=
  {| Facilitator.transaction := wallet_message_text;
     Facilitator.signature := "0xsig";
     Facilitator.publicKey := "0xpub";
     Facilitator.address := "0x1";
     Facilitator.timestamp := 1700000000000 |}.


(** A runtime whose [JSON.parse] quotes the text it rejects in its message,
    with a ledger that accepts everything. *)
Definition quoting_parse (text : string) : Parsed :=
  if (text =? transfer_text)%string then ParseOk transfer_value
  else if (text =? wallet_message_text)%string then ParseOk wallet_message_value
  else SyntaxError ("Unexpected token, " ++ quoted text ++ " is not valid JSON").

Definition quoting_runtime : Facilitator.Env :=
  {| Facilitator.JSON_parse := quoting_parse;
     Facilitator.JSON_stringify := fun _ => "{}";
     Facilitator.Date_now := sample_clock;
     Facilitator.RegExp_other := fun _ _ => Throw (Error "Invalid regular expression");
     Facilitator.submissionPayload_of := fun _ tx _ => Ok tx;
     Facilitator.fetch_transactions := fun _ _ =>
       Ok {| Facilitator.rest_ok := true;
             Facilitator.rest_statusText := "Accepted";
             Facilitator.rest_message := JUndefined;
             Facilitator.rest_hash := sample_hash |};
     Facilitator.submit_simple := fun _ _ _ => Ok sample_hash;
     Facilitator.waitForTransaction := fun _ _ => Ok tt |}.

(** A server that does not know the resource. *)
Definition missing_reply : AxiosResponse :=
  {| status := 404; statusText := "Not Found";
     data := JObj [("error", JStr "Not found")] |}.

(** A second proof whose address agrees with that of [long_proof] on its
    first 32 bytes only. *)
Definition lookalike_proof : Facilitator.PaymentRequest :=
  {| Facilitator.transaction := transfer_text;
     Facilitator.signature := "0xsig";
     Facilitator.publicKey := "0xpub";
     Facilitator.address :=
       "0xbcfb4a60c030cb5dcab8adc7d723fc00000000000000000000000000000000ff";
     Facilitator.timestamp := 1700000000000 |}.

(** A browser in which every request is answered with a bare 402 whose body
    names no payment, and a wallet that signs. *)
Definition bare_402 : WebClient.FetchResponse :=
  {| WebClient.fetch_status := 402;
     WebClient.fetch_statusText := "Payment Required";
     WebClient.fetch_json := Ok (JObj [("message", JStr "Payment required")]) |}.

Definition browser (reply : WebClient.FetchResponse) : WebClient.Env :=
  {| WebClient.fetch := fun _ _ _ => Ok reply;
     WebClient.Date_now := sample_clock;
     WebClient.BigInt_of_string := fun text =>
       if (text =? "1000000")%string then Ok 1000000%Z
       else Throw (Error "Cannot convert to a BigInt");
     WebClient.build_simple := fun _ _ _ _ => Ok (JObj []);
     WebClient.signTransaction := fun _ _ => Ok (JObj []);
     WebClient.stringify_with_bigint := fun _ => "{}";
     WebClient.JSON_stringify := fun _ => "{}" |}.

Definition wallet : WebClient.WalletAccount :=
  {| WebClient.address := "0xclient"; WebClient.publicKey := Some "0xpub" |}.

Definition bare_get : WebClient.RequestInit :=
  {| WebClient.init_method := None;
     WebClient.init_headers := [("X-Payment", "stale")];
     WebClient.init_body := None |}.

(** A reply that grants the resource. *)
Definition granted : WebClient.FetchResponse :=
  {| WebClient.fetch_status := 200;
     WebClient.fetch_statusText := "OK";
     WebClient.fetch_json := Ok (JObj [("weather", JStr "sunny")]) |}.

(** A client whose [JSON.stringify] prints the proof of [short_proof], and
    the signed transaction that proof is made from. *)
Definition printing_client : Client.Env :=
  {| Client.http := fun _ _ => Client.Replied granting_reply;
     Client.Date_now := fun _ => 1700000000000%Z;
     Client.JSON_stringify := fun _ => short_proof_header;
     Client.BigInt_of_string := fun _ => Ok 1000000%Z;
     Client.Number_of_string := fun _ => None;
     Client.getAccountCoinAmount := fun _ _ _ => Ok 5000000%Z;
     Client.publicKey_of := fun _ => Ok "0xpub";
     Client.build_simple := fun _ _ _ _ _ => Ok (JObj []) |}.

Definition signed_transfer : Client.SignedTransaction :=
  {| Client.rawTransaction := transfer_text;
     Client.signature := "0xsig";
     Client.signer_publicKey := "0xpub";
     Client.signer_address := "0x1" |}.

(** Options of a caller who sets the payment header. *)
Definition insisting_get : Client.RequestOptions :=
  {| Client.method := None;
     Client.headers := [("X-Payment", "stale")];
     Client.body := JUndefined;
     Client.timeout := None |}.

(** Options of a caller who sets the payment header in lower case. *)
Definition lower_case_get : Client.RequestOptions :=
  {| Client.method := None;
     Client.headers := [("x-payment", "stale")];
     Client.body := JUndefined;
     Client.timeout := None |}.

(** * Vocabulary of the properties *)

(** ** Computations *)

Section Computations.

Context {W : Type}.

(** Every value a computation returns satisfies [P]. *)
Definition returns {A : Type} (m : M W A) (P : A -> Prop) : Prop :=
  forall w a w', m w = (Ok a, w') -> P a.

(** A computation that neither reads nor changes the world. *)
Definition pure {A : Type} (m : M W A) : Prop :=
  exists r, forall w, m w = (r, w).

End Computations.

(** ** The facilitator and its gateway *)

(** A populated result: a valid one carries a transaction hash and no error,
    an invalid one carries an error text and no hash. *)
Definition populated (v : PaymentVerification) : Prop :=
  if v.(isValid)
  then (exists h, v.(transactionHash) = Some h) /\ v.(error) = None
  else (exists m, v.(error) = Some m) /\ v.(transactionHash) = None.

(** The number of transactions handed to the ledger so far. *)
Definition handed_over (w : Facilitator.World) : nat :=
  List.length w.(Facilitator.submitted).

(** A computation that hands exactly [d] transactions to the ledger,
    whatever the world it starts in. *)
Definition hands_over {A : Type} (d : nat) (m : M Facilitator.World A) : Prop :=
  forall w, handed_over (snd (m w)) = (handed_over w + d)%nat.

(** A computation that hands over the same number of transactions, none or
    one, in every world. *)
Definition counted {A : Type} (m : M Facilitator.World A) : Prop :=
  exists d, (d <= 1)%nat /\ hands_over d m.

(** A computation after which at least as many readings of the clock have
    been made. *)
Definition later {A : Type} (m : M Facilitator.World A) : Prop :=
  forall w, (w.(Facilitator.ticks) <= (snd (m w)).(Facilitator.ticks))%nat.

(** The world after one more reading of the clock. *)
Definition tick (w : Facilitator.World) : Facilitator.World :=
  {| Facilitator.ticks := S w.(Facilitator.ticks);
     Facilitator.submitted := w.(Facilitator.submitted);
     Facilitator.awaited := w.(Facilitator.awaited) |}.

(** The 402 response the gateway issues in world [w]. *)
Definition challenge (E : Facilitator.Env) (payTo : string)
  (route : Facilitator.PaymentRoute) (message : string) (w : Facilitator.World)
  : Facilitator.Outcome :=
  Facilitator.Respond 402
    (Facilitator.Body402
       {| Facilitator.pay_amount := route.(Facilitator.price);
          Facilitator.pay_token := APT;
          Facilitator.pay_recipient := payTo;
          Facilitator.pay_deadline :=
            (E.(Facilitator.Date_now) w.(Facilitator.ticks) + WINDOW)%Z |}
       message 5).

(** The text after ["Payment verification failed: "]. *)
Definition reason (v : PaymentVerification) : string :=
  match v.(error) with Some text => text | None => "undefined" end.

(** [!paymentHeader]: the header is absent or empty. *)
Definition absent (header : option string) : bool :=
  match header with
  | None => true
  | Some text => (text =? EmptyString)%string
  end.

(** The verification attached to the request when the handler calls
    [next()], if it does. *)
Definition admitted (run : Res Facilitator.Outcome * Facilitator.World)
  : option PaymentVerification :=
  match fst run with
  | Ok (Facilitator.Next v) => v
  | _ => None
  end.

(** ** The server's handler *)

(** [amount] and [token] as [createPaymentRequired] picks them. *)
Definition amount_of (price : Price) : string :=
  match price with
  | PriceString text => text
  | PriceObject amount _ => amount
  end.

Definition token_of (price : Price) : string :=
  match price with
  | PriceString _ | PriceObject _ None => APT
  | PriceObject _ (Some asset) =>
      if (asset.(asset_address) =? EmptyString)%string then APT else asset.(asset_address)
  end.

(** ** Route keys *)

(** Text without any character that has a role in a pattern. *)
Definition plain_char (c : ascii) : bool :=
  negb (is_meta c || Ascii.eqb c "*" || Ascii.eqb c ".").

Fixpoint plain (text : string) : bool :=
  match text with
  | EmptyString => true
  | String c rest => plain_char c && plain rest
  end.

(** Text without a line terminator. *)
Fixpoint single_line (text : string) : bool :=
  match text with
  | EmptyString => true
  | String c rest => negb (is_line_terminator c) && single_line rest
  end.

(** The pattern that matches exactly the given text. *)
Fixpoint literal (text : string) : list Item :=
  match text with
  | EmptyString => []
  | String c rest => One (Lit c) :: literal rest
  end.

(** ** The client driver *)

(** A computation that sends no request. *)
Definition quiet {A : Type} (m : M Client.World A) : Prop :=
  forall w, (snd (m w)).(Client.requests) = w.(Client.requests).


Section ClientVocabulary.

Import Client.

Variable E : Env.
Variable account : AptosAccount.

(** The steps of [handlePaymentRequired] that come before the retry: the
    payload is validated, the deadline and the balance are checked and the
    payment transaction is built and signed. *)
Definition payment_steps (response : AxiosResponse) : M World SignedTransaction :=
  payment <- lift (get_prop response.(data) "payment") ;;
  valid <- validatePaymentPayload E payment ;;
  if negb valid
  then throw (Error "Invalid payment payload received from server")
  else
    deadline <- lift (get_prop payment "deadline") ;;
    t <- now E ;;
    if js_le E deadline t
    then throw (Error "Payment deadline has passed")
    else
      token <- lift (get_prop payment "token") ;;
      amount <- lift (get_prop payment "amount") ;;
      hasBalance <- checkBalance E account.(address) token amount ;;
      if negb hasBalance
      then throw (Error "Insufficient balance for payment")
      else createPaymentTransaction E account payment.

(** The world after a request has been sent. *)
Definition sent (requestConfig : AxiosRequestConfig) (w : World) : World :=
  {| ticks := w.(ticks); requests := requestConfig :: w.(requests);
     queries := w.(queries); built := w.(built) |}.

(** The world after one more reading of the clock. *)
Definition ticked (w : World) : World :=
  {| ticks := S w.(ticks); requests := w.(requests);
     queries := w.(queries); built := w.(built) |}.

(** An error of the HTTP client that carries a 402 response. *)
Definition carries_402 (e : Exn) : bool :=
  match e with
  | AxiosError _ (Some response) => (response.(status) =? 402)%Z
  | _ => false
  end.

Definition is_axios_error (e : Exn) : bool :=
  match e with
  | AxiosError _ _ => true
  | _ => false
  end.

(** The proof object sent in the [X-Payment] header at time [t]. *)
Definition paymentProof_of (signedTransaction : SignedTransaction) (t : Z) : JValue :=
  JObj [ ("transaction", JStr signedTransaction.(rawTransaction));
         ("signature", JStr signedTransaction.(signature));
         ("publicKey", JStr signedTransaction.(signer_publicKey));
         ("address", JStr signedTransaction.(signer_address));
         ("timestamp", JNum t) ].

End ClientVocabulary.

(** ** Route tables *)

(** A table none of whose keys contains a [*]. *)
Definition starless {A : Type} (entries : list (string * A)) : bool :=
  forallb (fun entry => negb (includes "*" (fst entry))) entries.

(** An entry the wildcard loop passes over for the given path: its key has
    no [*], or its translation does not match the path. *)
Definition passed_over {A : Type} (other : string -> string -> Res bool) (path : string)
  (entry : string * A) : Prop :=
  includes "*" (fst entry) = false \/
  RegExp_test other (replace_star (fst entry)) path = Ok false.

(** A key with one [*] between two plain texts, either of which may be
    empty. *)
Definition single_star (key : string) : Prop :=
  exists pre post,
    key = pre ++ "*" ++ post /\ plain pre = true /\ plain post = true.

(** ** The ledger *)

(** A computation that leaves the ledger alone: nothing is handed over and
    no confirmation is waited for. *)
Definition untouched {A : Type} (m : M Facilitator.World A) : Prop :=
  forall w,
    (snd (m w)).(Facilitator.submitted) = w.(Facilitator.submitted) /\
    (snd (m w)).(Facilitator.awaited) = w.(Facilitator.awaited).

(** The statuses a gateway answers with. *)
Definition gateway_status (status : Z) : Prop :=
  status = 400%Z \/ status = 402%Z \/ status = 500%Z.

(** The ledger accepted the hand-over [s], its [n]-th, and named it [h]. *)
Definition accepted (E : Facilitator.Env) (n : nat) (s : Facilitator.Submission)
  (h : string) : Prop :=
  match s with
  | Facilitator.ViaRest payload =>
      exists r, E.(Facilitator.fetch_transactions) n payload = Ok r /\
                r.(Facilitator.rest_ok) = true /\
                r.(Facilitator.rest_hash) = h
  | Facilitator.ViaSdk transaction authenticator =>
      E.(Facilitator.submit_simple) n transaction authenticator = Ok h
  end.

(** Between [w] and [w'] one transaction was handed over, the ledger
    accepted it under the hash [h], and the confirmation of [h] was waited
    for and came. *)
Definition settled (E : Facilitator.Env) (w w' : Facilitator.World) (h : string) : Prop :=
  exists s,
    w'.(Facilitator.submitted) = s :: w.(Facilitator.submitted) /\
    accepted E (List.length w.(Facilitator.submitted)) s h /\
    w'.(Facilitator.awaited) = h :: w.(Facilitator.awaited) /\
    E.(Facilitator.waitForTransaction) (List.length w.(Facilitator.awaited)) h = Ok tt.

(** A computation that returns a hash only when a transaction was settled
    under it, and reads no clock on the way. *)
Definition settles (E : Facilitator.Env) (m : M Facilitator.World string) : Prop :=
  forall w h w', m w = (Ok h, w') ->
    settled E w w' h /\ w'.(Facilitator.ticks) = w.(Facilitator.ticks).

(** An error the [catch] block of [submitTransaction] takes for a
    confirmation timeout. *)
Definition timeout_like (error : Exn) : bool :=
  exn_message_includes "timeout" error || exn_message_includes "confirmation" error.

(** The hash the [catch] block of [submitTransaction] returns for such an
    error, thrown in the world [w0]: the hash the error carries, or else
    one made up from the transaction and the clock. *)
Definition timeout_hash (E : Facilitator.Env) (transaction : JValue) (error : Exn)
  (w0 : Facilitator.World) : string :=
  let made_up :=
    hash_of_text (E.(Facilitator.JSON_stringify) transaction ++
                  string_of_Z (E.(Facilitator.Date_now) w0.(Facilitator.ticks))) in
  match exn_transactionHash error with
  | Some h => if (h =? EmptyString)%string then made_up else h
  | None => made_up
  end.

(** Where the hash [h] of a valid result for [paymentRequest] comes from.
    Either a transaction was settled under it during the call; or the [try]
    block of [submitTransaction], run on the parsed transaction and the
    signature of this very request, threw an error that was taken for a
    confirmation timeout, and [h] is the hash the [catch] block returns for
    that error, the ledger being left as the [try] block left it. *)
Definition provenance (E : Facilitator.Env) (paymentRequest : JValue)
  (w w' : Facilitator.World) (h : string) : Prop :=
  settled E w w' h \/
  exists text transaction signature error w0,
    get_prop paymentRequest "transaction" = Ok text /\
    Facilitator.JSON_parse_value E text = Ok transaction /\
    get_prop paymentRequest "signature" = Ok signature /\
    Facilitator.submitTransaction_try E transaction signature w = (Throw error, w0) /\
    timeout_like error = true /\
    h = timeout_hash E transaction error w0 /\
    w'.(Facilitator.submitted) = w0.(Facilitator.submitted) /\
    w'.(Facilitator.awaited) = w0.(Facilitator.awaited).

(** A computation whose result is stamped with the last reading of the
    clock it made. *)
Definition stamped (E : Facilitator.Env) (m : M Facilitator.World PaymentVerification) : Prop :=
  forall w v w', m w = (Ok v, w') ->
    exists n, (w.(Facilitator.ticks) <= n)%nat /\
              w'.(Facilitator.ticks) = S n /\
              v.(verifiedAt) = E.(Facilitator.Date_now) n.

(** ** The server's handler and the facilitator *)

(** The body the handler sends to the facilitator for a parsed proof: its
    five fields, whatever else the proof holds. *)
Definition relayed_fields (paymentRequest : JValue) : option JValue :=
  match get_prop paymentRequest "transaction", get_prop paymentRequest "signature",
        get_prop paymentRequest "publicKey", get_prop paymentRequest "address",
        get_prop paymentRequest "timestamp" with
  | Ok transaction, Ok signature, Ok publicKey, Ok address, Ok timestamp =>
      Some (JObj [ ("transaction", transaction);
                   ("signature", signature);
                   ("publicKey", publicKey);
                   ("address", address);
                   ("timestamp", timestamp) ])
  | _, _, _, _, _ => None
  end.

(** The statuses the server's handler answers with. *)
Definition handler_status (status : Z) : Prop :=
  status = 402%Z \/ status = 500%Z.

(** ** The client's checks *)

(** What [validatePaymentPayload] requires of a payload at the clock
    reading [t]: the four fields are there and truthy, the amount converts
    to a positive integer, and the deadline is not at or before [t]. *)
Definition acceptable (E : Client.Env) (payload : JValue) (t : Z) : Prop :=
  exists amount token recipient deadline value,
    get_prop payload "amount" = Ok amount /\
    get_prop payload "token" = Ok token /\
    get_prop payload "recipient" = Ok recipient /\
    get_prop payload "deadline" = Ok deadline /\
    truthy amount = true /\ truthy token = true /\
    truthy recipient = true /\ truthy deadline = true /\
    Client.js_BigInt E amount = Ok value /\
    (0 < value)%Z /\
    Client.js_le E deadline t = false.

(** The ledger reports, at its [n]-th query, a balance of the payer that
    covers the amount of the payload. *)
Definition covered (E : Client.Env) (n : nat) (payer : string) (payload : JValue) : Prop :=
  exists token amount balance required,
    get_prop payload "token" = Ok token /\
    get_prop payload "amount" = Ok amount /\
    E.(Client.getAccountCoinAmount) n payer token = Ok balance /\
    Client.js_BigInt E amount = Ok required /\
    (required <= balance)%Z.

(** The world after one more balance query. *)
Definition queried (w : Client.World) : Client.World :=
  {| Client.ticks := w.(Client.ticks); Client.requests := w.(Client.requests);
     Client.queries := S w.(Client.queries); Client.built := w.(Client.built) |}.

(** ** Hexadecimal text, read back *)

(** The value of a hexadecimal digit. *)
Definition unhex_digit (c : ascii) : N :=
  match c with
  | "0" => 0 | "1" => 1 | "2" => 2 | "3" => 3
  | "4" => 4 | "5" => 5 | "6" => 6 | "7" => 7
  | "8" => 8 | "9" => 9 | "a" => 10 | "b" => 11
  | "c" => 12 | "d" => 13 | "e" => 14 | "f" => 15
  | _ => 0
  end%char%N.

(** [Buffer.from(text, 'hex')] on the digits [toString_hex] writes. *)
Fixpoint fromString_hex (text : string) : string :=
  match text with
  | String hi (String lo rest) =>
      String (ascii_of_N (16 * unhex_digit hi + unhex_digit lo)) (fromString_hex rest)
  | _ => EmptyString
  end.

(** ** The web client *)

(** A step of the web client that sends nothing, builds nothing and signs
    nothing. *)
Definition calm {A : Type} (m : M WebClient.World A) : Prop :=
  forall w,
    (snd (m w)).(WebClient.fetched) = w.(WebClient.fetched) /\
    (snd (m w)).(WebClient.built) = w.(WebClient.built) /\
    (snd (m w)).(WebClient.signed) = w.(WebClient.signed).

(** ** From the client to the gateway *)

(** Header names are compared without regard to case: the client library
    merges the names of its configuration that way, and the server reads
    the header under its lower-case name. *)
Definition lower_ascii (c : ascii) : ascii :=
  let n := N_of_ascii c in
  if ((65 <=? n) && (n <=? 90))%N then ascii_of_N (n + 32) else c.

Fixpoint lower (text : string) : string :=
  match text with
  | EmptyString => EmptyString
  | String c rest => String (lower_ascii c) (lower rest)
  end.

(** The value of the header [name] among the headers of a request
    configuration: of the entries whose name is [name] in some letter case,
    the one set last. *)
Fixpoint header_value (name : string) (headers : list (string * string)) : option string :=
  match headers with
  | [] => None
  | (k, v) :: rest =>
      match header_value name rest with
      | Some later => Some later
      | None => if (lower k =? lower name)%string then Some v else None
      end
  end.

(** A request of the client as it arrives at the gateway, for the path it
    is routed to: the gateway reads the path and [req.headers['x-payment']]. *)
Definition arriving (path : string) (requestConfig : Client.AxiosRequestConfig)
  : Facilitator.Request :=
  {| Facilitator.path := path;
     Facilitator.x_payment := header_value "x-payment" requestConfig.(Client.cfg_headers) |}.

(** The proof of a signed transaction, as the facilitator's type has it. *)
Definition proof_request (signedTransaction : Client.SignedTransaction) (t : Z)
  : Facilitator.PaymentRequest :=
  {| Facilitator.transaction := signedTransaction.(Client.rawTransaction);
     Facilitator.signature := signedTransaction.(Client.signature);
     Facilitator.publicKey := signedTransaction.(Client.signer_publicKey);
     Facilitator.address := signedTransaction.(Client.signer_address);
     Facilitator.timestamp := t |}.

(** ** Cleaned text *)

(** The code units of a text that are no white space, in order. *)
Definition ink (text : list N) : list N :=
  filter (fun c => negb (WebsiteBuilder.is_space c)) text.

(** Every white space of the text is a single space that follows a
    character ([after_space] tells whether the text follows a space). *)
Fixpoint squeezed_from (after_space : bool) (text : list N) : bool :=
  match text with
  | [] => true
  | c :: rest =>
      if WebsiteBuilder.is_space c
      then (c =? 32)%N && negb after_space && squeezed_from true rest
      else squeezed_from false rest
  end.

(** The same, and the text does not end with a space. *)
Fixpoint tidy_from (after_space : bool) (text : list N) : bool :=
  match text with
  | [] => negb after_space
  | c :: rest =>
      if WebsiteBuilder.is_space c
      then (c =? 32)%N && negb after_space && tidy_from true rest
      else tidy_from false rest
  end.

(** A tidy text: empty, or words separated by single spaces, with no white
    space at either end and no white space other than the space. *)
Definition tidy (text : list N) : bool :=
  match text with
  | [] => true
  | _ => tidy_from true text
  end.

(** * Properties *)

(** ** Sanity checks of the JavaScript layer *)

Example toString_hex_sample : toString_hex "0x1" = "307831".
Proof. reflexivity. Qed.

Example string_of_Z_sample : string_of_Z 1700000000000 = "1700000000000".
Proof. reflexivity. Qed.

Example js_ToString_array :
  js_ToString (JArr [JNum 1; JNull; JStr "a"]) = "1,,a".
Proof. reflexivity. Qed.

Example replace_star_premium : replace_star "/premium/*" = "/premium/.*".
Proof. reflexivity. Qed.

Example compile_premium :
  compile "/premium/.*" =
  Some [One (Lit "/"); One (Lit "p"); One (Lit "r"); One (Lit "e"); One (Lit "m");
        One (Lit "i"); One (Lit "u"); One (Lit "m"); One (Lit "/"); Star AnyChar]%char.
Proof. reflexivity. Qed.

Example sample_JSON_parse_transfer :
  sample_JSON_parse transfer_text = ParseOk transfer_value /\
  sample_JSON_parse short_proof_header = ParseOk (Facilitator.to_js short_proof) /\
  sample_JSON_parse "not json" = SyntaxError "Unexpected token in JSON".
Proof. repeat split; reflexivity. Qed.

Example string_of_Z_zero_negative : string_of_Z 0 = "0" /\ string_of_Z (-5) = "-5".
Proof. split; reflexivity. Qed.

(** ** The facilitator in mock mode *)

Section MockMode.

Import Facilitator.

Variable E : Env.
Variable config : FacilitatorConfig.
Hypothesis mock : mock_enabled config = true.

(** What [processPayment] computes, in mock mode, on a well-typed request. *)
Lemma processPayment_mock (p : PaymentRequest) (w : World) :
  processPayment E config (to_js p) w =
  match E.(JSON_parse) p.(transaction) with
  | ParseOk _ =>
      (Ok {| isValid := true;
             transactionHash :=
               Some (hash_of_text (p.(address) ++ string_of_Z (E.(Date_now) w.(ticks))));
             error := None;
             verifiedAt := E.(Date_now) (S w.(ticks)) |},
       {| ticks := S (S w.(ticks)); submitted := w.(submitted); awaited := w.(awaited) |})
  | SyntaxError m =>
      (Ok {| isValid := false; transactionHash := None; error := Some m;
             verifiedAt := E.(Date_now) w.(ticks) |},
       {| ticks := S w.(ticks); submitted := w.(submitted); awaited := w.(awaited) |})
  end.
Proof.
  unfold processPayment, try_catch, bind, lift. simpl.
  rewrite mock. simpl.
  unfold JSON_parse_value. simpl.
  destruct (E.(JSON_parse) p.(transaction)); reflexivity.
Qed.

(** C10 — In mock mode [processPayment] accepts a well-typed request exactly
    when its [transaction] text is parseable JSON: the signature, the public
    key, the address and the timestamp play no part, and on a parse error the
    result is invalid with the parser's message. *)
Theorem mock_accepts_iff_transaction_parses (p : PaymentRequest) (w : World) :
  exists v w',
    processPayment E config (to_js p) w = (Ok v, w') /\
    (v.(isValid) = true <-> exists t, E.(JSON_parse) p.(transaction) = ParseOk t) /\
    (forall m, E.(JSON_parse) p.(transaction) = SyntaxError m ->
               v.(isValid) = false /\ v.(error) = Some m).
Proof.
  rewrite processPayment_mock.
  destruct (E.(JSON_parse) p.(transaction)) as [t | m] eqn:parse.
  - eexists; eexists; split; [reflexivity | split].
    + simpl; split; [intros _; exists t; reflexivity | reflexivity].
    + intros m' H; discriminate H.
  - eexists; eexists; split; [reflexivity | split].
    + simpl; split; [discriminate | intros [t H]; discriminate H].
    + intros m' H; injection H as <-; simpl; split; reflexivity.
Qed.

End MockMode.

Lemma mock_accepts_iff_transaction_parses_witness :
  exists v w',
    Facilitator.processPayment accepting_ledger mock_config
      (Facilitator.to_js short_proof) Facilitator.initial_world = (Ok v, w') /\
    v.(isValid) = true.
Proof.
  destruct (@mock_accepts_iff_transaction_parses accepting_ledger mock_config eq_refl
              short_proof Facilitator.initial_world)
    as (v & w' & run & accepts & _).
  exists v, w'. split; [exact run |].
  apply accepts. exists transfer_value. reflexivity.
Defined.

(** ** Hexadecimal text and its first 64 characters *)

Lemma toString_hex_app (a b : string) :
  toString_hex (a ++ b) = toString_hex a ++ toString_hex b.
Proof.
  induction a as [| c a IH]; simpl; [reflexivity | now rewrite IH].
Qed.

Lemma toString_hex_length (a : string) :
  String.length (toString_hex a) = (2 * String.length a)%nat.
Proof.
  induction a as [| c a IH]; simpl; [reflexivity | rewrite IH; lia].
Qed.

Lemma slice0_app (n : nat) (a b : string) :
  (n <= String.length a)%nat -> slice0 n (a ++ b) = slice0 n a.
Proof.
  unfold slice0. revert a.
  induction n as [| n IH]; intros a Hlen.
  - destruct a; simpl; destruct b; reflexivity.
  - destruct a as [| c a]; simpl in *; [lia |].
    rewrite IH by lia. reflexivity.
Qed.

(** The hash of [address + Date.now()] is the hash of the address alone as
    soon as the address fills the 32 bytes the hash keeps. *)
Lemma hash_of_text_long (address rest : string) :
  (32 <= String.length address)%nat ->
  hash_of_text (address ++ rest) = hash_of_text address.
Proof.
  intros Hlen. unfold hash_of_text.
  rewrite toString_hex_app, slice0_app; [reflexivity |].
  rewrite toString_hex_length. lia.
Qed.

Lemma byte_of_hex_digits (c : ascii) :
  ascii_of_N (16 * unhex_digit (hex_digit (N.div (N_of_ascii c) 16)) +
              unhex_digit (hex_digit (N.modulo (N_of_ascii c) 16))) = c.
Proof. destruct c as [[] [] [] [] [] [] [] []]; reflexivity. Qed.

(** Reading the digits back gives the bytes. *)
Lemma fromString_hex_toString_hex (text : string) :
  fromString_hex (toString_hex text) = text.
Proof.
  induction text as [| c text IH]; [reflexivity |].
  cbn [toString_hex fromString_hex]. cbv zeta.
  now rewrite byte_of_hex_digits, IH.
Qed.

Lemma toString_hex_injective (a b : string) :
  toString_hex a = toString_hex b -> a = b.
Proof.
  intros H. rewrite <- (fromString_hex_toString_hex a), H.
  apply fromString_hex_toString_hex.
Qed.

(** Cutting the digits after [2 n] of them is cutting the bytes after [n]. *)
Lemma slice0_toString_hex (n : nat) (text : string) :
  slice0 (2 * n) (toString_hex text) = toString_hex (substring 0 n text).
Proof.
  unfold slice0. revert text.
  induction n as [| n IH]; intros text.
  - destruct text; reflexivity.
  - destruct text as [| c text]; [reflexivity |].
    replace (2 * S n)%nat with (S (S (2 * n))) by lia.
    cbn [toString_hex substring]. cbv zeta. now rewrite IH.
Qed.

Lemma length_substring_0 (n : nat) (text : string) :
  String.length (substring 0 n text) = Nat.min n (String.length text).
Proof.
  revert text. induction n as [| n IH]; intros text.
  - destruct text; reflexivity.
  - destruct text as [| c text]; [reflexivity |].
    cbn [substring String.length]. now rewrite IH.
Qed.

Lemma hash_of_text_eq (text : string) :
  hash_of_text text = "0x" ++ toString_hex (substring 0 32 text).
Proof.
  unfold hash_of_text. change 64%nat with (2 * 32)%nat.
  now rewrite slice0_toString_hex.
Qed.

Lemma hash_of_text_same (a b : string) :
  hash_of_text a = hash_of_text b <-> substring 0 32 a = substring 0 32 b.
Proof.
  rewrite !hash_of_text_eq. split.
  - intros [= H]. now apply toString_hex_injective.
  - now intros ->.
Qed.

Lemma substring_0_app (k : nat) (a s : string) :
  (String.length a <= k)%nat ->
  substring 0 k (a ++ s) = a ++ substring 0 (k - String.length a) s.
Proof.
  revert k. induction a as [| c a IH]; intros k short.
  - cbn [String.length append]. now rewrite Nat.sub_0_r.
  - destruct k as [| k]; [cbn [String.length] in short; lia |].
    cbn [String.length] in *. cbn [append substring Nat.sub].
    rewrite IH by lia. reflexivity.
Qed.

Lemma append_same_head (a x y : string) : a ++ x = a ++ y <-> x = y.
Proof.
  split; [| now intros ->].
  induction a as [| c a IH]; [auto |].
  cbn [append]. intros [= H]. auto.
Qed.

(** ** Determinism of the mock transaction hash *)

(** C4 (amended) — In mock mode the [transactionHash] is ["0x"] followed by
    the hexadecimal digits of the first 32 bytes of [address + Date.now()].
    Two successive calls of [processPayment] with the same proof return the
    same [transactionHash] whenever the address of the proof has at least
    32 bytes, whatever the clock reads.  With an address of [n] bytes, [n]
    at most 32, and a transaction that parses, the two hashes are equal
    exactly when the decimal texts of the two clock readings agree on their
    first [32 - n] characters. *)
Theorem mock_hash_repeats_iff_clock_digits_agree
  (E : Facilitator.Env) (config : Facilitator.FacilitatorConfig)
  (p : Facilitator.PaymentRequest) (w : Facilitator.World) :
  Facilitator.mock_enabled config = true ->
  exists v1 w1 v2 w2,
    Facilitator.processPayment E config (Facilitator.to_js p) w = (Ok v1, w1) /\
    Facilitator.processPayment E config (Facilitator.to_js p) w1 = (Ok v2, w2) /\
    ((32 <= String.length p.(Facilitator.address))%nat ->
     v1.(transactionHash) = v2.(transactionHash)) /\
    (forall t, E.(Facilitator.JSON_parse) p.(Facilitator.transaction) = ParseOk t ->
       let first := string_of_Z (E.(Facilitator.Date_now) w.(Facilitator.ticks)) in
       let second := string_of_Z (E.(Facilitator.Date_now) (S (S w.(Facilitator.ticks)))) in
       v1.(transactionHash) =
         Some ("0x" ++ toString_hex (substring 0 32 (p.(Facilitator.address) ++ first))) /\
       v2.(transactionHash) =
         Some ("0x" ++ toString_hex (substring 0 32 (p.(Facilitator.address) ++ second))) /\
       ((String.length p.(Facilitator.address) <= 32)%nat ->
        (v1.(transactionHash) = v2.(transactionHash) <->
         substring 0 (32 - String.length p.(Facilitator.address)) first =
         substring 0 (32 - String.length p.(Facilitator.address)) second))).
Proof.
  intros mock.
  destruct (Facilitator.JSON_parse E (Facilitator.transaction p)) eqn:parse;
    do 4 eexists;
    (split; [rewrite processPayment_mock by exact mock; rewrite parse; reflexivity |]);
    (split; [rewrite processPayment_mock by exact mock; rewrite parse; reflexivity |]).
  - cbn [transactionHash Facilitator.ticks]. split.
    + intros long. now rewrite !hash_of_text_long by assumption.
    + intros t _. cbv zeta. rewrite !hash_of_text_eq.
      split; [reflexivity |]. split; [reflexivity |].
      intros short. rewrite !substring_0_app by exact short. split.
      * intros [= H]. apply toString_hex_injective in H.
        now apply append_same_head in H.
      * now intros ->.
  - split; [reflexivity |]. intros t H. discriminate H.
Qed.

(** With an address of 20 bytes the first twelve digits of the reading
    enter the hash: two calls one after the other, at readings that differ
    in the last digit only, return the same hash. *)
Lemma mock_hash_repeats_iff_clock_digits_agree_witness :
  exists v1 w1 v2 w2,
    Facilitator.processPayment accepting_ledger mock_config
      (Facilitator.to_js twenty_byte_proof) Facilitator.initial_world = (Ok v1, w1) /\
    Facilitator.processPayment accepting_ledger mock_config
      (Facilitator.to_js twenty_byte_proof) w1 = (Ok v2, w2) /\
    v1.(transactionHash) = v2.(transactionHash).
Proof.
  destruct (@mock_hash_repeats_iff_clock_digits_agree accepting_ledger mock_config
              twenty_byte_proof Facilitator.initial_world eq_refl)
    as (v1 & w1 & v2 & w2 & first & second & _ & digits).
  exists v1, w1, v2, w2. split; [exact first |]. split; [exact second |].
  destruct (digits transfer_value eq_refl) as (_ & _ & short).
  apply short; [cbn; lia | reflexivity].
Defined.

(** C4 (as stated) fails: with the address [0x1] and a clock that advances
    between the calls, the two hashes differ. *)
Lemma mock_hash_depends_on_clock :
  exists v1 w1 v2 w2,
    Facilitator.processPayment accepting_ledger mock_config
      (Facilitator.to_js short_proof) Facilitator.initial_world = (Ok v1, w1) /\
    Facilitator.processPayment accepting_ledger mock_config
      (Facilitator.to_js short_proof) w1 = (Ok v2, w2) /\
    v1.(transactionHash) = Some "0x30783131373030303030303030303030" /\
    v2.(transactionHash) = Some "0x30783131373030303030303030303032" /\
    v1.(transactionHash) <> v2.(transactionHash).
Proof.
  do 4 eexists.
  split; [vm_compute; reflexivity |].
  split; [vm_compute; reflexivity |].
  split; [reflexivity |]. split; [reflexivity |]. discriminate.
Qed.

(** ** Reasoning about computations *)

Section Computations.

Context {W : Type}.

Lemma returns_ret {A : Type} (a : A) (P : A -> Prop) : P a -> returns (@ret W A a) P.
Proof. intros H w a' w' [= <- _]. exact H. Qed.

Lemma returns_throw {A : Type} (e : Exn) (P : A -> Prop) : returns (@throw W A e) P.
Proof. intros w a w' H. discriminate H. Qed.

Lemma returns_bind {A B : Type} (m : M W A) (k : A -> M W B) (P : B -> Prop) :
  (forall a, returns (k a) P) -> returns (bind m k) P.
Proof.
  intros H w b w'. unfold bind.
  destruct (m w) as [[a | e] w0]; [apply H | discriminate].
Qed.

Lemma returns_try_catch {A : Type} (m : M W A) (h : Exn -> M W A) (P : A -> Prop) :
  returns m P -> (forall e, returns (h e) P) -> returns (try_catch m h) P.
Proof.
  intros Hm Hh w a w'. unfold try_catch.
  destruct (m w) as [[a0 | e] w0] eqn:run.
  - intros [= <- <-]. exact (Hm _ _ _ run).
  - apply Hh.
Qed.

Lemma returns_if {A : Type} (c : bool) (m1 m2 : M W A) (P : A -> Prop) :
  returns m1 P -> returns m2 P -> returns (if c then m1 else m2) P.
Proof. destruct c; auto. Qed.

(** A [try]/[catch] whose handler always returns never throws. *)
Lemma try_catch_total {A : Type} (m : M W A) (h : Exn -> M W A) (P : A -> Prop) :
  returns m P ->
  (forall e w, exists a w', h e w = (Ok a, w') /\ P a) ->
  forall w, exists a w', try_catch m h w = (Ok a, w') /\ P a.
Proof.
  intros Hm Hh w. unfold try_catch.
  destruct (m w) as [[a | e] w0] eqn:run.
  - exists a, w0. split; [reflexivity | exact (Hm _ _ _ run)].
  - apply Hh.
Qed.

Lemma pure_ret {A : Type} (a : A) : pure (@ret W A a).
Proof. exists (Ok a). reflexivity. Qed.

Lemma pure_throw {A : Type} (e : Exn) : pure (@throw W A e).
Proof. exists (Throw e). reflexivity. Qed.

Lemma pure_lift {A : Type} (r : Res A) : pure (@lift W A r).
Proof. exists r. reflexivity. Qed.

Lemma pure_bind {A B : Type} (m : M W A) (k : A -> M W B) :
  pure m -> (forall a, pure (k a)) -> pure (bind m k).
Proof.
  intros [r Hm] Hk. destruct r as [a | e].
  - destruct (Hk a) as [r' Hr']. exists r'. intros w. unfold bind.
    rewrite Hm. apply Hr'.
  - exists (Throw e). intros w. unfold bind. now rewrite Hm.
Qed.

Lemma pure_try_catch {A : Type} (m : M W A) (h : Exn -> M W A) :
  pure m -> (forall e, pure (h e)) -> pure (try_catch m h).
Proof.
  intros [r Hm] Hh. destruct r as [a | e].
  - exists (Ok a). intros w. unfold try_catch. now rewrite Hm.
  - destruct (Hh e) as [r' Hr']. exists r'. intros w. unfold try_catch.
    rewrite Hm. apply Hr'.
Qed.

Lemma pure_if {A : Type} (c : bool) (m1 m2 : M W A) :
  pure m1 -> pure m2 -> pure (if c then m1 else m2).
Proof. destruct c; auto. Qed.

End Computations.

(** ** Hand-overs to the ledger *)

Section LedgerCount.

Import Facilitator.

Variable E : Env.

Lemma silent_ret {A : Type} (a : A) : hands_over 0 (@ret World A a).
Proof. intros w. simpl. lia. Qed.

Lemma silent_throw {A : Type} (e : Exn) : hands_over 0 (@throw World A e).
Proof. intros w. simpl. lia. Qed.

Lemma silent_lift {A : Type} (r : Res A) : hands_over 0 (@lift World A r).
Proof. intros w. simpl. lia. Qed.

Lemma silent_now : hands_over 0 (now E).
Proof. intros w. unfold handed_over. simpl. lia. Qed.

Lemma silent_wait (h : string) : hands_over 0 (wait_confirmation E h).
Proof. intros w. unfold handed_over. simpl. lia. Qed.

Lemma once_post (payload : JValue) : hands_over 1 (post_transaction E payload).
Proof. intros w. unfold handed_over. simpl. lia. Qed.

Lemma once_sdk (tx auth : JValue) : hands_over 1 (submit_sdk E tx auth).
Proof. intros w. unfold handed_over. simpl. lia. Qed.

Lemma hands_over_bind {A B : Type} (a : nat) (m : M World A) (k : A -> M World B) :
  hands_over a m -> (forall x, hands_over 0 (k x)) -> hands_over a (bind m k).
Proof.
  intros Hm Hk w. unfold bind. specialize (Hm w).
  destruct (m w) as [[x | e] w0]; simpl in *.
  - rewrite Hk. lia.
  - exact Hm.
Qed.

Lemma hands_over_try_catch {A : Type} (a : nat) (m : M World A) (h : Exn -> M World A) :
  hands_over a m -> (forall e, hands_over 0 (h e)) -> hands_over a (try_catch m h).
Proof.
  intros Hm Hh w. unfold try_catch. specialize (Hm w).
  destruct (m w) as [[x | e] w0]; simpl in *.
  - exact Hm.
  - rewrite Hh. lia.
Qed.

Lemma hands_over_if {A : Type} (d : nat) (c : bool) (m1 m2 : M World A) :
  hands_over d m1 -> hands_over d m2 -> hands_over d (if c then m1 else m2).
Proof. destruct c; auto. Qed.

Lemma hands_over_pure {A : Type} (m : M World A) : pure m -> hands_over 0 m.
Proof. intros [r H] w. rewrite H. simpl. lia. Qed.

Lemma counted_of {A : Type} (d : nat) (m : M World A) :
  (d <= 1)%nat -> hands_over d m -> counted m.
Proof. intros Hd H. exists d. auto. Qed.

Lemma counted_bind_pure {A B : Type} (m : M World A) (k : A -> M World B) :
  pure m -> (forall x, counted (k x)) -> counted (bind m k).
Proof.
  intros [r Hm] Hk. destruct r as [x | e].
  - destruct (Hk x) as (d & Hd & H). exists d. split; [exact Hd |].
    intros w. unfold bind. rewrite Hm. apply H.
  - exists 0%nat. split; [lia |]. intros w. unfold bind. rewrite Hm. simpl. lia.
Qed.

Lemma counted_bind_silent {A B : Type} (m : M World A) (k : A -> M World B) :
  counted m -> (forall x, hands_over 0 (k x)) -> counted (bind m k).
Proof.
  intros (d & Hd & Hm) Hk. exists d. split; [exact Hd |].
  now apply hands_over_bind.
Qed.

Lemma counted_try_catch {A : Type} (m : M World A) (h : Exn -> M World A) :
  counted m -> (forall e, hands_over 0 (h e)) -> counted (try_catch m h).
Proof.
  intros (d & Hd & Hm) Hh. exists d. split; [exact Hd |].
  now apply hands_over_try_catch.
Qed.

Lemma counted_if {A : Type} (c : bool) (m1 m2 : M World A) :
  counted m1 -> counted m2 -> counted (if c then m1 else m2).
Proof. destruct c; auto. Qed.

Lemma pure_verifySignature (a b c d : JValue) : pure (verifySignature a b c d).
Proof. apply pure_try_catch; [apply pure_ret | intros; apply pure_ret]. Qed.

(** Steps that hand nothing over. *)
Ltac silent :=
  repeat first
    [ apply silent_ret | apply silent_throw | apply silent_lift
    | apply silent_now | apply silent_wait
    | apply hands_over_if
    | apply hands_over_bind; [| intros ?]
    | apply hands_over_try_catch; [| intros ?]
    | match goal with
      | |- hands_over 0 (match ?x with _ => _ end) => destruct x
      end ].

(** Steps that depend on nothing. *)
Ltac purity :=
  repeat first
    [ apply pure_ret | apply pure_throw | apply pure_lift
    | apply pure_verifySignature
    | apply pure_if
    | apply pure_bind; [| intros ?]
    | apply pure_try_catch; [| intros ?]
    | match goal with
      | |- pure (match ?x with _ => _ end) => destruct x
      end ].

Lemma silent_submitTransaction_catch (transaction : JValue) (error : Exn) :
  hands_over 0 (submitTransaction_catch E transaction error).
Proof. unfold submitTransaction_catch. silent. Qed.

Lemma counted_submitTransaction_try (transaction signature : JValue) :
  counted (submitTransaction_try E transaction signature).
Proof.
  unfold submitTransaction_try.
  apply counted_bind_pure; [purity | intros parsedTransaction].
  apply counted_bind_pure; [purity | intros parsedSignature].
  apply counted_bind_pure; [purity | intros prefix_].
  apply counted_bind_pure; [purity | intros walletMessage].
  destruct walletMessage; [apply (counted_of (d := 0)); [lia | silent] |].
  apply counted_bind_pure; [purity | intros rawTransaction].
  apply counted_bind_pure; [purity | intros toSubmit].
  cbv zeta.
  apply counted_bind_pure; [purity | intros _].
  apply counted_bind_pure; [purity | intros payload].
  apply counted_bind_pure; [purity | intros _].
  apply counted_bind_pure; [purity | intros entryFunction].
  apply counted_bind_silent; [| intros transactionHash; silent].
  apply counted_if.
  - apply counted_bind_pure; [purity | intros submissionPayload].
    apply (counted_of (d := 1)); [lia |].
    apply hands_over_bind; [apply once_post | intros restResponse; silent].
  - apply (counted_of (d := 1)); [lia | apply once_sdk].
Qed.

Lemma counted_submitTransaction (transaction signature : JValue) :
  counted (submitTransaction E transaction signature).
Proof.
  apply counted_try_catch.
  - apply counted_submitTransaction_try.
  - apply silent_submitTransaction_catch.
Qed.

Lemma counted_createRealVerification (paymentRequest : JValue) :
  counted (createRealVerification E paymentRequest).
Proof.
  unfold createRealVerification.
  apply counted_try_catch; [| intros error; silent].
  apply counted_bind_pure; [purity | intros _].
  apply counted_bind_pure; [purity | intros text].
  apply counted_bind_pure; [purity | intros transaction].
  apply counted_bind_pure; [purity | intros signature].
  apply counted_bind_pure; [purity | intros publicKey].
  apply counted_bind_pure; [purity | intros address].
  apply counted_bind_pure; [purity | intros isValidSignature].
  apply counted_if; [apply (counted_of (d := 0)); [lia | silent] |].
  apply counted_bind_pure; [purity | intros signature'].
  apply counted_bind_silent; [apply counted_submitTransaction | intros h; silent].
Qed.

(** In mock mode nothing is handed to the ledger. *)
Lemma silent_processPayment_mock (config : FacilitatorConfig) (paymentRequest : JValue) :
  mock_enabled config = true ->
  hands_over 0 (processPayment E config paymentRequest).
Proof.
  intros mock. unfold processPayment. rewrite mock. simpl negb. cbv iota.
  unfold verifySignature. silent.
Qed.

Lemma counted_processPayment (config : FacilitatorConfig) (paymentRequest : JValue) :
  counted (processPayment E config paymentRequest).
Proof.
  destruct (mock_enabled config) eqn:mock.
  - apply (counted_of (d := 0)); [lia | now apply silent_processPayment_mock].
  - unfold processPayment. rewrite mock. simpl negb. cbv iota.
    apply counted_try_catch; [| intros error; silent].
    apply counted_bind_pure; [purity | intros _].
    apply counted_createRealVerification.
Qed.

End LedgerCount.

(** ** The facilitator never throws *)

Section ProcessPayment.

Import Facilitator.

Variable E : Env.

Lemma returns_populated_createRealVerification (paymentRequest : JValue) :
  returns (createRealVerification E paymentRequest) populated.
Proof.
  unfold createRealVerification.
  apply returns_try_catch.
  - repeat (apply returns_bind; intros ?).
    apply returns_if.
    + apply returns_bind; intros t. apply returns_ret.
      split; [eexists |]; reflexivity.
    + repeat (apply returns_bind; intros ?). apply returns_ret.
      split; [eexists |]; reflexivity.
  - intros error. apply returns_bind; intros t. apply returns_ret.
    split; [eexists |]; reflexivity.
Qed.

Lemma returns_populated_processPayment (config : FacilitatorConfig) (paymentRequest : JValue) :
  returns (processPayment E config paymentRequest) populated.
Proof.
  unfold processPayment.
  apply returns_try_catch.
  - apply returns_bind; intros _. apply returns_if.
    + apply returns_populated_createRealVerification.
    + repeat (apply returns_bind; intros ?). apply returns_if.
      * apply returns_bind; intros t. apply returns_ret.
        split; [eexists |]; reflexivity.
      * repeat (apply returns_bind; intros ?). apply returns_ret.
        split; [eexists |]; reflexivity.
  - intros error. apply returns_bind; intros t. apply returns_ret.
    split; [eexists |]; reflexivity.
Qed.

(** What [processPayment] computes, in live mode, on a well-typed request
    whose transaction parses: the outcome of [submitTransaction] decides. *)
Lemma processPayment_live (config : FacilitatorConfig) (p : PaymentRequest)
  (tx : JValue) (w : World) :
  mock_enabled config = false ->
  E.(JSON_parse) p.(transaction) = ParseOk tx ->
  processPayment E config (to_js p) w =
  match submitTransaction E tx (JStr p.(signature)) w with
  | (Ok h, w1) =>
      (Ok {| isValid := true; transactionHash := Some h; error := None;
             verifiedAt := E.(Date_now) w1.(ticks) |},
       {| ticks := S w1.(ticks); submitted := w1.(submitted); awaited := w1.(awaited) |})
  | (Throw e, w1) =>
      (Ok {| isValid := false; transactionHash := None;
             error := Some (message_or "Verification failed" e);
             verifiedAt := E.(Date_now) w1.(ticks) |},
       {| ticks := S w1.(ticks); submitted := w1.(submitted); awaited := w1.(awaited) |})
  end.
Proof.
  intros live parse.
  unfold processPayment, createRealVerification, try_catch at 1 2, bind, lift. simpl.
  rewrite live. simpl.
  unfold JSON_parse_value. simpl. rewrite parse.
  destruct (submitTransaction E tx (JStr p.(signature)) w) as [[h | e] w1]; reflexivity.
Qed.

(** A transaction text that does not parse is rejected, in both modes, with
    the message of the parser. *)
Lemma processPayment_unparseable (config : FacilitatorConfig) (p : PaymentRequest)
  (m : string) (w : World) :
  E.(JSON_parse) p.(transaction) = SyntaxError m ->
  processPayment E config (to_js p) w =
  (Ok {| isValid := false; transactionHash := None; error := Some m;
         verifiedAt := E.(Date_now) w.(ticks) |},
   {| ticks := S w.(ticks); submitted := w.(submitted); awaited := w.(awaited) |}).
Proof.
  intros parse.
  destruct (mock_enabled config) eqn:mode.
  - rewrite processPayment_mock by exact mode. now rewrite parse.
  - unfold processPayment, createRealVerification, try_catch, bind, lift. simpl.
    rewrite mode. simpl. unfold JSON_parse_value. simpl. rewrite parse. reflexivity.
Qed.

End ProcessPayment.

(** C5 (amended) — [processPayment] never throws: for every input and every
    behaviour of the ledger it returns a populated result.  A transaction
    text that does not parse gives an invalid result with the parser's
    message.  In live mode, when the [try] block of [submitTransaction]
    returns a hash the result is valid with that hash; when it throws, the
    result is invalid with the text ["Failed to submit transaction: ..."],
    unless the message of the error contains ["timeout"] or
    ["confirmation"]: then the result is valid. *)
Theorem processPayment_always_returns
  (E : Facilitator.Env) (config : Facilitator.FacilitatorConfig)
  (paymentRequest : JValue) (w : Facilitator.World) :
  exists v w',
    Facilitator.processPayment E config paymentRequest w = (Ok v, w') /\
    populated v /\
    (forall p m,
        paymentRequest = Facilitator.to_js p ->
        E.(Facilitator.JSON_parse) p.(Facilitator.transaction) = SyntaxError m ->
        v.(isValid) = false /\ v.(error) = Some m) /\
    (forall p tx,
        paymentRequest = Facilitator.to_js p ->
        Facilitator.mock_enabled config = false ->
        E.(Facilitator.JSON_parse) p.(Facilitator.transaction) = ParseOk tx ->
        match Facilitator.submitTransaction_try E tx (JStr p.(Facilitator.signature)) w with
        | (Ok h, _) => v.(isValid) = true /\ v.(transactionHash) = Some h
        | (Throw e, _) =>
            if exn_message_includes "timeout" e || exn_message_includes "confirmation" e
            then v.(isValid) = true
            else v.(isValid) = false /\
                 v.(error) = Some ("Failed to submit transaction: " ++ exn_message_text e)
        end).
Proof.
  assert (total : exists v w',
             Facilitator.processPayment E config paymentRequest w = (Ok v, w')).
  { unfold Facilitator.processPayment, try_catch.
    match goal with |- context [match ?body w with _ => _ end] =>
      destruct (body w) as [[a | e] w0] end.
    - exists a, w0. reflexivity.
    - eexists; eexists. reflexivity. }
  destruct total as (v & w' & run).
  exists v, w'. split; [exact run |].
  split; [eapply returns_populated_processPayment; exact run |].
  split.
  - intros p m -> parse.
    rewrite processPayment_unparseable with (m := m) in run by exact parse.
    injection run as <- _. split; reflexivity.
  - intros p tx -> live parse.
    rewrite processPayment_live with (tx := tx) in run by assumption.
    unfold Facilitator.submitTransaction, try_catch in run.
    destruct (Facilitator.submitTransaction_try E tx (JStr (Facilitator.signature p)) w)
      as [[h | e] w1].
    + injection run as <- _. split; reflexivity.
    + unfold Facilitator.submitTransaction_catch in run.
      destruct (exn_message_includes "timeout" e || exn_message_includes "confirmation" e).
      * destruct (exn_transactionHash e) as [h |];
          [destruct (h =? EmptyString)%string |];
          simpl in run; injection run as <- _; reflexivity.
      * simpl in run. injection run as <- _. split; reflexivity.
Qed.

Lemma processPayment_always_returns_witness :
  exists v w',
    Facilitator.processPayment accepting_ledger live_config
      (Facilitator.to_js garbled_proof) Facilitator.initial_world = (Ok v, w') /\
    populated v /\
    v.(isValid) = false /\
    v.(error) = Some "Unexpected token in JSON".
Proof.
  destruct (processPayment_always_returns accepting_ledger live_config
              (Facilitator.to_js garbled_proof) Facilitator.initial_world)
    as (v & w' & run & shape & unparseable & _).
  exists v, w'.
  destruct (unparseable garbled_proof "Unexpected token in JSON" eq_refl eq_refl).
  auto.
Defined.

(** C5 (as stated) fails for a confirmation timeout: the wait for the
    confirmation throws an error whose message mentions a timeout, and the
    facilitator answers with a valid result carrying a hash of its own
    making. *)
Lemma confirmation_timeout_reported_valid :
  Facilitator.waitForTransaction slow_ledger 0 sample_hash =
    Throw (Error "timeout waiting for transaction") /\
  exists v w',
    Facilitator.processPayment slow_ledger live_config
      (Facilitator.to_js short_proof) Facilitator.initial_world = (Ok v, w') /\
    v.(isValid) = true /\
    v.(error) = None /\
    v.(transactionHash) = Some "0x7b7d31373030303030303030303030" /\
    Facilitator.awaited w' = [sample_hash].
Proof.
  split; [reflexivity |].
  do 2 eexists. split; [vm_compute; reflexivity |].
  repeat split; reflexivity.
Qed.

(** ** No record of earlier proofs *)

(** C1 (amended) — [processPayment] keeps no record of the proofs it has
    seen.  Each call hands the transaction to the ledger at most once, never
    in mock mode, and a second call with the same proof hands it over exactly
    as often as the first did: a proof that was submitted is submitted
    again. *)
Theorem repeated_call_submits_again
  (E : Facilitator.Env) (config : Facilitator.FacilitatorConfig)
  (paymentRequest : JValue) (w : Facilitator.World) :
  exists d r1 w1 r2 w2,
    (d <= 1)%nat /\
    Facilitator.processPayment E config paymentRequest w = (r1, w1) /\
    Facilitator.processPayment E config paymentRequest w1 = (r2, w2) /\
    handed_over w1 = (handed_over w + d)%nat /\
    handed_over w2 = (handed_over w + d + d)%nat /\
    (Facilitator.mock_enabled config = true -> d = 0%nat).
Proof.
  destruct (counted_processPayment E config paymentRequest) as (d & Hd & count).
  destruct (Facilitator.processPayment E config paymentRequest w) as [r1 w1] eqn:first.
  destruct (Facilitator.processPayment E config paymentRequest w1) as [r2 w2] eqn:second.
  exists d, r1, w1, r2, w2.
  pose proof (count w) as H1. rewrite first in H1. simpl in H1.
  pose proof (count w1) as H2. rewrite second in H2. simpl in H2.
  repeat split; try assumption; try lia.
  intros mock.
  pose proof (silent_processPayment_mock E config paymentRequest mock w) as H0.
  rewrite first in H0. simpl in H0. lia.
Qed.

Lemma repeated_call_submits_again_witness :
  exists r1 w1 r2 w2,
    Facilitator.processPayment accepting_ledger mock_config
      (Facilitator.to_js short_proof) Facilitator.initial_world = (r1, w1) /\
    Facilitator.processPayment accepting_ledger mock_config
      (Facilitator.to_js short_proof) w1 = (r2, w2) /\
    handed_over w2 = 0%nat.
Proof.
  destruct (repeated_call_submits_again accepting_ledger mock_config
              (Facilitator.to_js short_proof) Facilitator.initial_world)
    as (d & r1 & w1 & r2 & w2 & _ & first & second & _ & total & mock).
  exists r1, w1, r2, w2.
  rewrite (mock eq_refl) in total. auto.
Defined.

(** C1 (as stated) fails in live mode: the same proof, verified twice against
    a ledger that accepts it, is handed to the ledger twice, and the two
    results differ in their time of verification. *)
Lemma repeated_live_call_resubmits :
  exists v1 w1 v2 w2,
    Facilitator.processPayment accepting_ledger live_config
      (Facilitator.to_js short_proof) Facilitator.initial_world = (Ok v1, w1) /\
    Facilitator.processPayment accepting_ledger live_config
      (Facilitator.to_js short_proof) w1 = (Ok v2, w2) /\
    v1.(isValid) = true /\
    v2.(isValid) = true /\
    v1 <> v2 /\
    handed_over w1 = 1%nat /\
    handed_over w2 = 2%nat /\
    Facilitator.submitted w2 =
      [ Facilitator.ViaSdk transfer_value
          (JObj [ ("type", JStr "ed25519_signature");
                  ("public_key", JUndefined);
                  ("signature", JStr "0xsig") ]);
        Facilitator.ViaSdk transfer_value
          (JObj [ ("type", JStr "ed25519_signature");
                  ("public_key", JUndefined);
                  ("signature", JStr "0xsig") ]) ].
Proof.
  do 4 eexists.
  split; [vm_compute; reflexivity |].
  split; [vm_compute; reflexivity |].
  repeat split; try reflexivity. discriminate.
Qed.

(** ** The gateway of [payment-middleware.ts] *)

Section Gateway.

Import Facilitator.

Variable E : Env.

Lemma payment_required_eq (payTo : string) (route : PaymentRoute) (message : string)
  (w : World) :
  payment_required E payTo route message w = (Ok (challenge E payTo route message w), tick w).
Proof. reflexivity. Qed.

Lemma processPayment_total (config : FacilitatorConfig) (paymentRequest : JValue) (w : World) :
  exists v w', processPayment E config paymentRequest w = (Ok v, w').
Proof.
  unfold processPayment, try_catch.
  match goal with |- context [match ?body w with _ => _ end] =>
    destruct (body w) as [[a | e] w0] end.
  - exists a, w0. reflexivity.
  - eexists; eexists. reflexivity.
Qed.

(** What the handler does on a priced route. *)
Lemma middleware_priced (payTo : string) (routes : PaymentRoutes) (req : Request)
  (route : PaymentRoute) (w : World) :
  findMatchingRoute E req.(path) routes = Ok (Some route) ->
  createPaymentMiddleware E payTo routes req w =
  match req.(x_payment) with
  | None =>
      (Ok (challenge E payTo route "Payment required to access this resource" w), tick w)
  | Some paymentHeader =>
      if (paymentHeader =? EmptyString)%string
      then (Ok (challenge E payTo route "Payment required to access this resource" w), tick w)
      else
        match E.(JSON_parse) paymentHeader with
        | SyntaxError _ => (Ok (Respond 400 (BodyError "Invalid payment header format")), w)
        | ParseOk paymentRequest =>
            let (r, w1) := processPayment E middleware_config paymentRequest w in
            match r with
            | Ok v =>
                if v.(isValid)
                then (Ok (Next (Some v)), w1)
                else (Ok (challenge E payTo route
                            ("Payment verification failed: " ++ reason v) w1), tick w1)
            | Throw _ =>
                (Ok (Respond 500 (BodyError "Internal server error in payment processing")), w1)
            end
        end
  end.
Proof.
  intros found.
  unfold createPaymentMiddleware, try_catch, bind at 1, lift. rewrite found.
  destruct req.(x_payment) as [paymentHeader |]; [| reflexivity].
  destruct (paymentHeader =? EmptyString)%string; [reflexivity |].
  destruct (E.(JSON_parse) paymentHeader) as [paymentRequest | m]; [| reflexivity].
  unfold bind.
  destruct (processPayment E middleware_config paymentRequest w) as [[v | e] w1];
    [| reflexivity].
  destruct v.(isValid); reflexivity.
Qed.

End Gateway.

(** ** The clock only advances *)

Section Clock.

Import Facilitator.

Variable E : Env.

Lemma later_ret {A : Type} (a : A) : later (@ret World A a).
Proof. intros w. simpl. lia. Qed.

Lemma later_throw {A : Type} (e : Exn) : later (@throw World A e).
Proof. intros w. simpl. lia. Qed.

Lemma later_lift {A : Type} (r : Res A) : later (@lift World A r).
Proof. intros w. simpl. lia. Qed.

Lemma later_now : later (now E).
Proof. intros w. simpl. lia. Qed.

Lemma later_wait (h : string) : later (wait_confirmation E h).
Proof. intros w. simpl. lia. Qed.

Lemma later_post (payload : JValue) : later (post_transaction E payload).
Proof. intros w. simpl. lia. Qed.

Lemma later_sdk (tx auth : JValue) : later (submit_sdk E tx auth).
Proof. intros w. simpl. lia. Qed.

Lemma later_bind {A B : Type} (m : M World A) (k : A -> M World B) :
  later m -> (forall x, later (k x)) -> later (bind m k).
Proof.
  intros Hm Hk w. unfold bind. specialize (Hm w).
  destruct (m w) as [[x | e] w0]; simpl in *.
  - specialize (Hk x w0). lia.
  - exact Hm.
Qed.

Lemma later_try_catch {A : Type} (m : M World A) (h : Exn -> M World A) :
  later m -> (forall e, later (h e)) -> later (try_catch m h).
Proof.
  intros Hm Hh w. unfold try_catch. specialize (Hm w).
  destruct (m w) as [[x | e] w0]; simpl in *.
  - exact Hm.
  - specialize (Hh e w0). lia.
Qed.

Lemma later_if {A : Type} (c : bool) (m1 m2 : M World A) :
  later m1 -> later m2 -> later (if c then m1 else m2).
Proof. destruct c; auto. Qed.

Ltac clock :=
  repeat first
    [ apply later_ret | apply later_throw | apply later_lift
    | apply later_now | apply later_wait | apply later_post | apply later_sdk
    | apply later_if
    | apply later_bind; [| intros ?]
    | apply later_try_catch; [| intros ?]
    | match goal with
      | |- later (match ?x with _ => _ end) => destruct x
      | |- later (let _ := _ in _) => cbv zeta
      end ].

Lemma later_processPayment (config : FacilitatorConfig) (paymentRequest : JValue) :
  later (processPayment E config paymentRequest).
Proof.
  unfold processPayment, createRealVerification, submitTransaction,
    submitTransaction_try, submitTransaction_catch, verifySignature.
  clock.
Qed.

End Clock.

(** ** The server's payment handler *)

Lemma includes_app_r (needle a b : string) :
  includes needle b = true -> includes needle (a ++ b) = true.
Proof.
  intros H. induction a as [| c a IH]; [exact H |].
  change (String c a ++ b) with (String c (a ++ b)).
  cbn [includes]. rewrite IH. apply orb_true_r.
Qed.

(** The names of the inherited members hold no space and do not begin with
    a slash, so neither a route of the handler nor a request path is one. *)
Lemma inherited_no_space (k : string) : inherited k = true -> includes " " k = false.
Proof.
  unfold inherited, Object_prototype. cbn [existsb]. intros H.
  repeat match type of H with
         | (_ || _)%bool = true => apply orb_true_iff in H as [H | H]
         end;
    try discriminate H;
    apply String.eqb_eq in H; subst k; reflexivity.
Qed.

Lemma route_not_inherited (method path : string) :
  inherited (method ++ " " ++ path) = false.
Proof.
  destruct (inherited (method ++ " " ++ path)) eqn:named; [| reflexivity].
  apply inherited_no_space in named.
  rewrite includes_app_r in named; [discriminate named |].
  cbn [append includes prefix]. destruct (ascii_dec " " " "); [| contradiction].
  now destruct path.
Qed.

Lemma slash_not_inherited (path : string) :
  prefix "/" path = true -> inherited path = false.
Proof.
  destruct path as [| c rest]; [discriminate |].
  cbn [prefix]. destruct (ascii_dec "/" c) as [<- | ]; [| discriminate].
  intros _. unfold inherited, Object_prototype. reflexivity.
Qed.

Section Handler.

Import Server.

Variable E : Env.
Variable config : ServerConfig.

Lemma createPaymentRequired_eq (route : string) (price : Price) (w : World) :
  createPaymentRequired E config route price w =
  (Ok {| payment :=
           {| amount := amount_of price;
              token := token_of price;
              recipient := config.(paymentAddress);
              deadline := (E.(Date_now) w.(ticks) + WINDOW)%Z;
              nonce := Some (E.(random_token) w.(randoms) ++
                             E.(random_token) (S w.(randoms))) |};
         message := Some ("Payment required to access " ++ route);
         retryAfter := Some 5%Z |},
   {| ticks := S w.(ticks); randoms := S (S w.(randoms)); posted := w.(posted) |}).
Proof. destruct price as [text | amount [asset |]]; reflexivity. Qed.

(** A route that requires payment has a payment configuration. *)
Lemma isPaymentRequired_config (route : string) (paymentRoutes : PaymentRoutes) :
  inherited route = false ->
  isPaymentRequired E route paymentRoutes = Ok true ->
  exists c, getPaymentConfig E route paymentRoutes = Ok (Some (RouteConfig c)).
Proof.
  intros own. unfold isPaymentRequired, getPaymentConfig. rewrite own.
  destruct (lookup route paymentRoutes) as [c |]; [intros _; now exists c |].
  destruct (first_wildcard E.(RegExp_other) route paymentRoutes) as [[c |] | e];
    [intros _; now exists c | discriminate | discriminate].
Qed.

Lemma createX402Middleware_no_header (paymentRoutes : PaymentRoutes) (req : Request)
  (c : PaymentRoute) (w : World) :
  isPaymentRequired E (req.(method) ++ " " ++ req.(path)) paymentRoutes = Ok true ->
  getPaymentConfig E (req.(method) ++ " " ++ req.(path)) paymentRoutes
    = Ok (Some (RouteConfig c)) ->
  absent req.(x_payment) = true ->
  createX402Middleware E config paymentRoutes req w =
  (Ok (Respond 402
         (Body402
            {| payment :=
                 {| amount := amount_of c.(price);
                    token := token_of c.(price);
                    recipient := config.(paymentAddress);
                    deadline := (E.(Date_now) w.(ticks) + WINDOW)%Z;
                    nonce := Some (E.(random_token) w.(randoms) ++
                                   E.(random_token) (S w.(randoms))) |};
               message := Some ("Payment required to access " ++
                                (req.(method) ++ " " ++ req.(path)));
               retryAfter := Some 5%Z |})),
   {| ticks := S w.(ticks); randoms := S (S w.(randoms)); posted := w.(posted) |}).
Proof.
  intros required found no_header.
  unfold createX402Middleware, try_catch, bind at 1, lift.
  rewrite required. simpl negb. cbv iota.
  unfold absent in no_header. rewrite no_header.
  unfold bind, lift. rewrite found. cbn [negb price_of].
  rewrite createPaymentRequired_eq. reflexivity.
Qed.

(** The handler on a request that carries a header. *)
Lemma createX402Middleware_header (paymentRoutes : PaymentRoutes) (req : Request)
  (c : PaymentRoute) (header : string) (w : World) :
  isPaymentRequired E (req.(method) ++ " " ++ req.(path)) paymentRoutes = Ok true ->
  getPaymentConfig E (req.(method) ++ " " ++ req.(path)) paymentRoutes
    = Ok (Some (RouteConfig c)) ->
  req.(x_payment) = Some header ->
  header <> EmptyString ->
  createX402Middleware E config paymentRoutes req w =
  match verifyPayment E config header w with
  | (Ok verification, w1) =>
      if verification.(isValid)
      then (Ok (Next (Some verification)), w1)
      else
        (Ok (Respond 402
               (Body402
                  {| payment :=
                       {| amount := amount_of c.(price);
                          token := token_of c.(price);
                          recipient := config.(paymentAddress);
                          deadline := (E.(Date_now) w1.(ticks) + WINDOW)%Z;
                          nonce := Some (E.(random_token) w1.(randoms) ++
                                         E.(random_token) (S w1.(randoms))) |};
                     message := Some ("Payment verification failed: " ++ reason verification);
                     retryAfter := Some 5%Z |})),
         {| ticks := S w1.(ticks); randoms := S (S w1.(randoms)); posted := w1.(posted) |})
  | (Throw _, w1) =>
      (Ok (Respond 500 (BodyError "Internal server error in payment processing")), w1)
  end.
Proof.
  intros required found Hheader nonempty.
  apply String.eqb_neq in nonempty.
  unfold createX402Middleware, try_catch at 1, bind at 1, lift.
  rewrite required, Hheader, nonempty. cbn [negb].
  unfold bind at 1.
  destruct (verifyPayment E config header w) as [[verification | e] w1]; [| reflexivity].
  destruct verification.(isValid); [reflexivity |]. cbn [negb].
  unfold bind, lift. rewrite found. cbn [price_of].
  rewrite createPaymentRequired_eq. reflexivity.
Qed.

(** [verifyPayment] in mock mode looks at nothing. *)
Lemma verifyPayment_mock (header : string) (w : World) :
  config.(mockMode) = Some true ->
  verifyPayment E config header w =
  (Ok {| isValid := true;
         transactionHash := Some (hash_of_text (string_of_Z (E.(Date_now) w.(ticks))));
         error := None;
         verifiedAt := E.(Date_now) (S w.(ticks)) |},
   {| ticks := S (S w.(ticks)); randoms := w.(randoms); posted := w.(posted) |}).
Proof. intros mock. unfold verifyPayment. rewrite mock. reflexivity. Qed.

(** [verifyPayment] outside mock mode, on a header that is not JSON. *)
Lemma verifyPayment_unparseable (header m : string) (w : World) :
  config.(mockMode) <> Some true ->
  E.(JSON_parse) header = SyntaxError m ->
  verifyPayment E config header w =
  (Ok {| isValid := false; transactionHash := None; error := Some m;
         verifiedAt := E.(Date_now) w.(ticks) |},
   {| ticks := S w.(ticks); randoms := w.(randoms); posted := w.(posted) |}).
Proof.
  intros live parse. unfold verifyPayment, try_catch, bind, lift.
  destruct config.(mockMode) as [[] |]; [contradiction | |]; rewrite parse; reflexivity.
Qed.

End Handler.

(** ** Requests without a proof *)

(** C7 — A request to a priced route that carries no [X-Payment] header (or
    an empty one) is answered with status 402, and the [amount] of the
    payment is the price configured for the route, as it is: the gateway of
    [payment-middleware.ts] copies [route.price], the server's handler copies
    the price text (or the [amount] of a price object).  No error response
    is produced. *)
Theorem no_header_gives_402 :
  (forall (E : Facilitator.Env) (payTo : string) (routes : Facilitator.PaymentRoutes)
          (req : Facilitator.Request) (route : Facilitator.PaymentRoute)
          (w : Facilitator.World),
      Facilitator.findMatchingRoute E req.(Facilitator.path) routes = Ok (Some route) ->
      absent req.(Facilitator.x_payment) = true ->
      exists payment message retryAfter w',
        Facilitator.createPaymentMiddleware E payTo routes req w =
          (Ok (Facilitator.Respond 402 (Facilitator.Body402 payment message retryAfter)), w') /\
        payment.(Facilitator.pay_amount) = route.(Facilitator.price) /\
        payment.(Facilitator.pay_recipient) = payTo) /\
  (forall (E : Server.Env) (config : Server.ServerConfig) (routes : Server.PaymentRoutes)
          (req : Server.Request) (w : Server.World),
      Server.isPaymentRequired E (req.(Server.method) ++ " " ++ req.(Server.path)) routes
        = Ok true ->
      absent req.(Server.x_payment) = true ->
      exists c x w',
        Server.getPaymentConfig E (req.(Server.method) ++ " " ++ req.(Server.path)) routes
          = Ok (Some (Server.RouteConfig c)) /\
        Server.createX402Middleware E config routes req w =
          (Ok (Server.Respond 402 (Server.Body402 x)), w') /\
        x.(Server.payment).(Server.amount) = amount_of c.(Server.price) /\
        (forall text, c.(Server.price) = PriceString text ->
                      x.(Server.payment).(Server.amount) = text)).
Proof.
  split.
  - intros E payTo routes req route w found no_header.
    rewrite (middleware_priced E payTo routes req w found).
    unfold absent in no_header.
    destruct (Facilitator.x_payment req) as [text |].
    + rewrite no_header. do 4 eexists. split; [reflexivity | split; reflexivity].
    + do 4 eexists. split; [reflexivity | split; reflexivity].
  - intros E config routes req w required no_header.
    destruct (isPaymentRequired_config E _ _ (route_not_inherited _ _) required) as [c found].
    exists c. do 2 eexists. split; [exact found |].
    split; [apply createX402Middleware_no_header; eassumption |].
    split; [reflexivity |].
    intros text Hprice. simpl. now rewrite Hprice.
Qed.

(** The scenario of the specification: the route ["GET /weather"] is priced
    at ["1000000"], and a request without a proof gets a 402 whose amount is
    ["1000000"]. *)
Lemma no_header_gives_402_witness :
  exists x w',
    Server.createX402Middleware server_env server_config server_routes
      {| Server.method := "GET"; Server.path := "/weather"; Server.x_payment := None |}
      server_world = (Ok (Server.Respond 402 (Server.Body402 x)), w') /\
    x.(Server.payment).(Server.amount) = "1000000".
Proof.
  destruct no_header_gives_402 as [_ handler].
  destruct (handler server_env server_config server_routes
              {| Server.method := "GET"; Server.path := "/weather"; Server.x_payment := None |}
              server_world eq_refl eq_refl)
    as (c & x & w' & found & run & _ & verbatim).
  exists x, w'. split; [exact run |].
  injection found as <-. apply verbatim. reflexivity.
Defined.

(** ** Deadlines of challenges *)

(** C8 — The window is five minutes (300000 ms).  Every 402 response of the
    gateway carries a deadline equal to a reading of the clock made while the
    request was handled (the last one) plus the window, hence strictly later
    than that reading; and the response built by the handler's
    [createPaymentRequired] carries the reading it makes plus the window. *)
Theorem challenge_deadline_is_issuance_plus_window :
  WINDOW = 300000%Z /\
  (forall (E : Facilitator.Env) (payTo : string) (routes : Facilitator.PaymentRoutes)
          (req : Facilitator.Request) (w w' : Facilitator.World) (status : Z)
          (payment : Facilitator.Payment402) (message : string) (retryAfter : Z),
      Facilitator.createPaymentMiddleware E payTo routes req w =
        (Ok (Facilitator.Respond status (Facilitator.Body402 payment message retryAfter)), w') ->
      exists n,
        (w.(Facilitator.ticks) <= n)%nat /\
        w'.(Facilitator.ticks) = S n /\
        payment.(Facilitator.pay_deadline) = (E.(Facilitator.Date_now) n + WINDOW)%Z /\
        (E.(Facilitator.Date_now) n < payment.(Facilitator.pay_deadline))%Z) /\
  (forall (E : Server.Env) (config : Server.ServerConfig) (route : string) (price : Price)
          (w : Server.World),
      exists x w',
        Server.createPaymentRequired E config route price w = (Ok x, w') /\
        x.(Server.payment).(Server.deadline) =
          (E.(Server.Date_now) w.(Server.ticks) + WINDOW)%Z /\
        (E.(Server.Date_now) w.(Server.ticks) < x.(Server.payment).(Server.deadline))%Z).
Proof.
  split; [reflexivity |]. split.
  - intros E payTo routes req w w' status payment message retryAfter run.
    destruct (Facilitator.findMatchingRoute E (Facilitator.path req) routes)
      as [[route |] | e] eqn:found.
    + rewrite (middleware_priced E payTo routes req w found) in run.
      assert (fresh : forall text w0,
                 (Ok (challenge E payTo route text w0), tick w0) =
                 (Ok (Facilitator.Respond status
                        (Facilitator.Body402 payment message retryAfter)), w') ->
                 (Facilitator.ticks w <= Facilitator.ticks w0)%nat ->
                 exists n,
                   (Facilitator.ticks w <= n)%nat /\
                   Facilitator.ticks w' = S n /\
                   Facilitator.pay_deadline payment =
                     (Facilitator.Date_now E n + WINDOW)%Z /\
                   (Facilitator.Date_now E n < Facilitator.pay_deadline payment)%Z).
      { intros text w0 H Hle. unfold challenge in H.
        injection H as _ <- _ _ <-. exists (Facilitator.ticks w0).
        simpl. unfold WINDOW. repeat split; lia. }
      destruct (Facilitator.x_payment req) as [header |].
      * destruct (header =? EmptyString)%string; [eapply fresh; [exact run | lia] |].
        destruct (Facilitator.JSON_parse E header) as [paymentRequest | m];
          [| discriminate run].
        pose proof (later_processPayment E Facilitator.middleware_config paymentRequest w)
          as Hlater.
        destruct (Facilitator.processPayment E Facilitator.middleware_config paymentRequest w)
          as [[v | e] w1]; [| discriminate run].
        destruct (isValid v); [discriminate run |].
        eapply fresh; [exact run | exact Hlater].
      * eapply fresh; [exact run | lia].
    + unfold Facilitator.createPaymentMiddleware, try_catch, bind, lift in run.
      rewrite found in run. discriminate run.
    + unfold Facilitator.createPaymentMiddleware, try_catch, bind, lift in run.
      rewrite found in run. discriminate run.
  - intros E config route price w.
    rewrite createPaymentRequired_eq. do 2 eexists.
    split; [reflexivity |]. simpl. unfold WINDOW. split; lia.
Qed.

Lemma challenge_deadline_is_issuance_plus_window_witness :
  exists payment message retryAfter w',
    Facilitator.createPaymentMiddleware accepting_ledger sample_payTo sample_routes
      {| Facilitator.path := "/weather"; Facilitator.x_payment := None |}
      Facilitator.initial_world =
      (Ok (Facilitator.Respond 402 (Facilitator.Body402 payment message retryAfter)), w') /\
    payment.(Facilitator.pay_deadline) = (1700000000000 + 300000)%Z.
Proof.
  do 4 eexists. split; [reflexivity |].
  destruct challenge_deadline_is_issuance_plus_window as (_ & gateway & _).
  destruct (gateway accepting_ledger sample_payTo sample_routes
              {| Facilitator.path := "/weather"; Facilitator.x_payment := None |}
              Facilitator.initial_world _ _ _ _ _ eq_refl)
    as (n & _ & Hn & Hdeadline & _).
  injection Hn as <-. exact Hdeadline.
Defined.

(** ** Requests with a proof *)

(** C6 (amended) — On a priced route of the gateway of
    [payment-middleware.ts], a non-empty [X-Payment] header that is not
    parseable JSON is answered with status 400 and the error text
    ["Invalid payment header format"], without consulting the verifier.  A
    header that is parseable JSON goes to the verifier: if the verifier
    rejects it the answer is a 402 whose message is ["Payment verification
    failed: "] followed by the reason; otherwise the request is admitted.
    The server's own handler [createX402Middleware] answers a header that is
    not JSON with such a 402, except in its mock mode, where every header is
    admitted unread.  No 5xx arises in any of these cases. *)
Theorem malformed_header_response :
  (forall (E : Facilitator.Env) (payTo : string) (routes : Facilitator.PaymentRoutes)
          (req : Facilitator.Request) (route : Facilitator.PaymentRoute) (header : string)
          (w : Facilitator.World),
      Facilitator.findMatchingRoute E req.(Facilitator.path) routes = Ok (Some route) ->
      req.(Facilitator.x_payment) = Some header ->
      header <> EmptyString ->
      match E.(Facilitator.JSON_parse) header with
      | SyntaxError _ =>
          Facilitator.createPaymentMiddleware E payTo routes req w =
            (Ok (Facilitator.Respond 400
                   (Facilitator.BodyError "Invalid payment header format")), w)
      | ParseOk paymentRequest =>
          exists v w1,
            Facilitator.processPayment E Facilitator.middleware_config paymentRequest w
              = (Ok v, w1) /\
            if v.(isValid)
            then Facilitator.createPaymentMiddleware E payTo routes req w
                   = (Ok (Facilitator.Next (Some v)), w1)
            else exists payment w',
                   Facilitator.createPaymentMiddleware E payTo routes req w =
                     (Ok (Facilitator.Respond 402
                            (Facilitator.Body402 payment
                               ("Payment verification failed: " ++ reason v) 5)), w') /\
                   payment.(Facilitator.pay_amount) = route.(Facilitator.price)
      end) /\
  (forall (E : Server.Env) (config : Server.ServerConfig) (routes : Server.PaymentRoutes)
          (req : Server.Request) (header : string) (w : Server.World),
      Server.isPaymentRequired E (req.(Server.method) ++ " " ++ req.(Server.path)) routes
        = Ok true ->
      req.(Server.x_payment) = Some header ->
      header <> EmptyString ->
      (config.(Server.mockMode) = Some true ->
       exists v w',
         Server.createX402Middleware E config routes req w
           = (Ok (Server.Next (Some v)), w') /\
         v.(isValid) = true) /\
      (config.(Server.mockMode) <> Some true ->
       forall m,
         E.(Server.JSON_parse) header = SyntaxError m ->
         exists x w',
           Server.createX402Middleware E config routes req w
             = (Ok (Server.Respond 402 (Server.Body402 x)), w') /\
           x.(Server.message) = Some ("Payment verification failed: " ++ m))).
Proof.
  split.
  - intros E payTo routes req route header w found Hheader nonempty.
    rewrite (middleware_priced E payTo routes req w found), Hheader.
    apply String.eqb_neq in nonempty. rewrite nonempty.
    destruct (Facilitator.JSON_parse E header) as [paymentRequest | m]; [| reflexivity].
    destruct (processPayment_total E Facilitator.middleware_config paymentRequest w)
      as (v & w1 & run).
    exists v, w1. split; [exact run |]. rewrite run.
    destruct (isValid v); [reflexivity |].
    do 2 eexists. split; reflexivity.
  - intros E config routes req header w required Hheader nonempty.
    destruct (isPaymentRequired_config E _ _ (route_not_inherited _ _) required) as [c found].
    rewrite (createX402Middleware_header E config routes req w required found Hheader nonempty).
    split.
    + intros mock. rewrite verifyPayment_mock by exact mock. cbn [isValid].
      do 2 eexists. split; reflexivity.
    + intros live m parse.
      rewrite verifyPayment_unparseable with (m := m) by assumption. cbn [isValid].
      do 2 eexists. split; reflexivity.
Qed.

Lemma malformed_header_response_witness :
  (exists v w1,
      Facilitator.processPayment accepting_ledger Facilitator.middleware_config
        (JObj []) Facilitator.initial_world = (Ok v, w1) /\
      v.(isValid) = false /\
      exists payment w',
        Facilitator.createPaymentMiddleware accepting_ledger sample_payTo sample_routes
          {| Facilitator.path := "/weather"; Facilitator.x_payment := Some "{}" |}
          Facilitator.initial_world =
          (Ok (Facilitator.Respond 402
                 (Facilitator.Body402 payment
                    ("Payment verification failed: " ++ reason v) 5)), w') /\
        payment.(Facilitator.pay_amount) = PriceString "1000000") /\
  (exists x w',
      Server.createX402Middleware server_env server_config server_routes
        {| Server.method := "GET"; Server.path := "/weather";
           Server.x_payment := Some "not json" |}
        server_world = (Ok (Server.Respond 402 (Server.Body402 x)), w') /\
      x.(Server.message) =
        Some "Payment verification failed: Unexpected token in JSON").
Proof.
  destruct malformed_header_response as [gateway handler].
  split.
  - pose proof (gateway accepting_ledger sample_payTo sample_routes
                  {| Facilitator.path := "/weather"; Facilitator.x_payment := Some "{}" |}
                  _ "{}" Facilitator.initial_world eq_refl eq_refl) as H.
    assert (nonempty : "{}" <> EmptyString) by discriminate.
    specialize (H nonempty).
    change (Facilitator.JSON_parse accepting_ledger "{}") with (ParseOk (JObj [])) in H.
    cbv beta iota in H.
    destruct H as (v & w1 & run & H).
    exists v, w1. split; [exact run |].
    assert (invalid : isValid v = false).
    { vm_compute in run. injection run as <- _. reflexivity. }
    rewrite invalid in H. split; [exact invalid | exact H].
  - assert (nonempty : "not json" <> EmptyString) by discriminate.
    destruct (handler server_env server_config server_routes
                {| Server.method := "GET"; Server.path := "/weather";
                   Server.x_payment := Some "not json" |}
                "not json" server_world eq_refl eq_refl nonempty) as [_ live].
    assert (no_mock : Server.mockMode server_config <> Some true) by discriminate.
    exact (live no_mock "Unexpected token in JSON" eq_refl).
Defined.

(** C6 (as stated) fails: a header that is not JSON is answered with status
    400, not 402. *)
Lemma unparseable_header_gets_400 :
  Facilitator.JSON_parse accepting_ledger "not json" = SyntaxError "Unexpected token in JSON" /\
  Facilitator.findMatchingRoute accepting_ledger "/weather" sample_routes =
    Ok (Some {| Facilitator.price := PriceString "1000000";
                Facilitator.network := "aptos-testnet" |}) /\
  Facilitator.createPaymentMiddleware accepting_ledger sample_payTo sample_routes
    {| Facilitator.path := "/weather"; Facilitator.x_payment := Some "not json" |}
    Facilitator.initial_world =
  (Ok (Facilitator.Respond 400 (Facilitator.BodyError "Invalid payment header format")),
   Facilitator.initial_world).
Proof. repeat split; reflexivity. Qed.

(** C2 (amended) — The gateway checks neither the amount nor the recipient of
    a proof.  Whether a request with a proof is admitted, and with which
    verification, is the same for every price of the route and every payment
    address; and a well-typed proof whose transaction text parses is
    admitted as valid, whatever transaction that text denotes. *)
Theorem admission_ignores_price_and_recipient
  (E : Facilitator.Env) (payTo payTo' : string)
  (routes routes' : Facilitator.PaymentRoutes) (req : Facilitator.Request)
  (route route' : Facilitator.PaymentRoute) (header : string) (w : Facilitator.World) :
  Facilitator.findMatchingRoute E req.(Facilitator.path) routes = Ok (Some route) ->
  Facilitator.findMatchingRoute E req.(Facilitator.path) routes' = Ok (Some route') ->
  req.(Facilitator.x_payment) = Some header ->
  header <> EmptyString ->
  admitted (Facilitator.createPaymentMiddleware E payTo routes req w) =
  admitted (Facilitator.createPaymentMiddleware E payTo' routes' req w) /\
  (forall p tx,
      E.(Facilitator.JSON_parse) header = ParseOk (Facilitator.to_js p) ->
      E.(Facilitator.JSON_parse) p.(Facilitator.transaction) = ParseOk tx ->
      exists v,
        admitted (Facilitator.createPaymentMiddleware E payTo routes req w) = Some v /\
        v.(isValid) = true).
Proof.
  intros found found' Hheader nonempty.
  rewrite (middleware_priced E payTo routes req w found).
  rewrite (middleware_priced E payTo' routes' req w found').
  rewrite Hheader.
  apply String.eqb_neq in nonempty. rewrite nonempty.
  split.
  - destruct (Facilitator.JSON_parse E header) as [paymentRequest | m]; [| reflexivity].
    destruct (Facilitator.processPayment E Facilitator.middleware_config paymentRequest w)
      as [[v | e] w1]; [| reflexivity].
    destruct (isValid v); reflexivity.
  - intros p tx parse_header parse_tx. rewrite parse_header.
    rewrite processPayment_mock by reflexivity. rewrite parse_tx.
    eexists. split; reflexivity.
Qed.

Lemma admission_ignores_price_and_recipient_witness :
  admitted (Facilitator.createPaymentMiddleware accepting_ledger "0xserver" sample_routes
              {| Facilitator.path := "/weather";
                 Facilitator.x_payment := Some short_proof_header |}
              Facilitator.initial_world) =
  admitted (Facilitator.createPaymentMiddleware accepting_ledger "0xother"
              [("/weather", {| Facilitator.price := PriceString "5";
                               Facilitator.network := "aptos-testnet" |})]
              {| Facilitator.path := "/weather";
                 Facilitator.x_payment := Some short_proof_header |}
              Facilitator.initial_world) /\
  exists v,
    admitted (Facilitator.createPaymentMiddleware accepting_ledger "0xserver" sample_routes
                {| Facilitator.path := "/weather";
                   Facilitator.x_payment := Some short_proof_header |}
                Facilitator.initial_world) = Some v /\
    v.(isValid) = true.
Proof.
  assert (nonempty : short_proof_header <> EmptyString) by discriminate.
  destruct (@admission_ignores_price_and_recipient accepting_ledger "0xserver" "0xother"
              sample_routes
              [("/weather", {| Facilitator.price := PriceString "5";
                               Facilitator.network := "aptos-testnet" |})]
              {| Facilitator.path := "/weather";
                 Facilitator.x_payment := Some short_proof_header |}
              _ _ short_proof_header Facilitator.initial_world
              eq_refl eq_refl eq_refl nonempty) as [same accepts].
  split; [exact same |].
  exact (accepts short_proof transfer_value eq_refl eq_refl).
Defined.

(** C2 (as stated) fails: the route ["/weather"] costs 1000000 octas payable
    to [0xserver]; a proof whose transaction transfers 1 octa to
    [0xattacker] is admitted as valid. *)
Lemma underpaying_misdirected_proof_admitted :
  Facilitator.JSON_parse accepting_ledger short_proof_header =
    ParseOk (Facilitator.to_js short_proof) /\
  Facilitator.JSON_parse accepting_ledger short_proof.(Facilitator.transaction) =
    ParseOk transfer_value /\
  transfer_arguments transfer_value = Some ("0xattacker", 1%Z) /\
  (1 < 1000000)%Z /\
  "0xattacker" <> sample_payTo /\
  Facilitator.findMatchingRoute accepting_ledger "/weather" sample_routes =
    Ok (Some {| Facilitator.price := PriceString "1000000";
                Facilitator.network := "aptos-testnet" |}) /\
  exists v w',
    Facilitator.createPaymentMiddleware accepting_ledger sample_payTo sample_routes
      {| Facilitator.path := "/weather";
         Facilitator.x_payment := Some short_proof_header |}
      Facilitator.initial_world = (Ok (Facilitator.Next (Some v)), w') /\
    v.(isValid) = true /\
    v.(error) = None.
Proof.
  repeat (split; [first [reflexivity | discriminate | lia] |]).
  do 2 eexists. split; [vm_compute; reflexivity | split; reflexivity].
Qed.

(** ** Wildcard routes *)

Lemma plain_char_atom (c : ascii) : plain_char c = true -> atom_of c = Lit c.
Proof.
  unfold plain_char, atom_of. intros H.
  destruct (Ascii.eqb c "."); [| reflexivity].
  rewrite orb_true_r in H. discriminate H.
Qed.

Lemma plain_char_not_special (c : ascii) :
  plain_char c = true -> is_meta c || Ascii.eqb c "*" = false.
Proof.
  unfold plain_char. intros H.
  destruct (is_meta c || Ascii.eqb c "*"); [discriminate H | reflexivity].
Qed.

Lemma plain_char_not_star (c : ascii) : plain_char c = true -> Ascii.eqb c "*" = false.
Proof.
  intros H. apply plain_char_not_special in H.
  apply orb_false_iff in H. tauto.
Qed.

Lemma replace_star_trailing (pre : string) :
  plain pre = true -> replace_star (pre ++ "*") = pre ++ ".*".
Proof.
  induction pre as [| c pre IH]; simpl; [reflexivity |].
  intros H. apply andb_prop in H as [Hc Hpre].
  rewrite (plain_char_not_star c Hc), IH by exact Hpre. reflexivity.
Qed.

Lemma compile_trailing (pre : string) :
  plain pre = true -> compile (pre ++ ".*") = Some (literal pre ++ [Star AnyChar])%list.
Proof.
  induction pre as [| c pre IH]; [reflexivity |].
  intros H. simpl in H. apply andb_prop in H as [Hc Hpre].
  specialize (IH Hpre).
  change (String c pre ++ ".*") with (String c (pre ++ ".*")).
  cbn [compile]. rewrite (plain_char_not_special c Hc), (plain_char_atom c Hc).
  destruct pre as [| d pre'].
  - reflexivity.
  - change (String d pre' ++ ".*") with (String d (pre' ++ ".*")) in *.
    simpl in Hpre. apply andb_prop in Hpre as [Hd _].
    apply plain_char_not_star in Hd.
    assert (Hne : d <> "*"%char) by (apply Ascii.eqb_neq; exact Hd).
    destruct d as [[] [] [] [] [] [] [] []]; try (rewrite IH; reflexivity).
    exfalso. apply Hne. reflexivity.
Qed.

Lemma matches_literal (pre : string) (r : list Item) (s : string) :
  matches (literal pre ++ r)%list s = true <->
  exists rest, s = pre ++ rest /\ matches r rest = true.
Proof.
  revert s. induction pre as [| c pre IH]; intros s.
  - simpl. split; [intros H; now exists s | now intros (rest & -> & H)].
  - cbn [literal List.app matches]. split.
    + destruct s as [| d s']; [discriminate |].
      intros H. apply andb_prop in H as [Hd Hrest].
      apply Ascii.eqb_eq in Hd. subst d.
      apply IH in Hrest as (rest & -> & Hrest).
      exists rest. split; [reflexivity | exact Hrest].
    + intros (rest & -> & Hrest). simpl.
      rewrite Ascii.eqb_refl. simpl. apply IH. now exists rest.
Qed.

Lemma matches_any_star (s : string) : matches [Star AnyChar] s = single_line s.
Proof.
  induction s as [| c s IH]; [reflexivity |].
  simpl in *. rewrite IH. reflexivity.
Qed.

(** A route key made of plain text and a final [*] matches the paths that
    continue the text with anything short of a line break. *)
Lemma trailing_wildcard_test (other : string -> string -> Res bool) (pre path : string) :
  plain pre = true ->
  exists b,
    RegExp_test other (replace_star (pre ++ "*")) path = Ok b /\
    (b = true <-> exists rest, path = pre ++ rest /\ single_line rest = true).
Proof.
  intros Hpre. unfold RegExp_test.
  rewrite replace_star_trailing, compile_trailing by exact Hpre.
  eexists. split; [reflexivity |].
  rewrite matches_literal.
  split; intros (rest & -> & H); exists rest; (split; [reflexivity |]);
    [rewrite <- matches_any_star | rewrite matches_any_star]; exact H.
Qed.

Lemma includes_trailing_star (pre : string) : includes "*" (pre ++ "*") = true.
Proof.
  induction pre as [| c pre IH]; [reflexivity |].
  change (String c pre ++ "*") with (String c (pre ++ "*")).
  cbn [includes]. rewrite IH. apply orb_true_r.
Qed.

Lemma first_wildcard_hit {A : Type} (other : string -> string -> Res bool)
  (path key : string) (config : A) (entries : list (string * A)) :
  In (key, config) entries ->
  includes "*" key = true ->
  RegExp_test other (replace_star key) path = Ok true ->
  first_wildcard other path entries <> Ok None.
Proof.
  intros Hin Hstar Hmatch.
  induction entries as [| [k c] tl IH]; [destruct Hin |].
  cbn [first_wildcard].
  destruct Hin as [[= -> ->] | Hin].
  - rewrite Hstar, Hmatch. discriminate.
  - destruct (includes "*" k); [| auto].
    destruct (RegExp_test other (replace_star k) path) as [[] | e];
      [discriminate | auto | discriminate].
Qed.

(** C3 (amended) — A [*] in a route key is translated to [.*] and matches any
    run of characters without a line break, slashes included.  A key made of
    plain text and a final [*] matches exactly the paths that continue the
    text by such a run; so in every route table that holds such a key, every
    path that continues the text, by one segment or by several, is treated
    as priced (never as free), by [findMatchingRoute] and by
    [isPaymentRequired] alike. *)
Theorem trailing_wildcard_matches_any_suffix :
  (forall (other : string -> string -> Res bool) (pre path : string),
      plain pre = true ->
      exists b,
        RegExp_test other (replace_star (pre ++ "*")) path = Ok b /\
        (b = true <-> exists rest, path = pre ++ rest /\ single_line rest = true)) /\
  (forall (E : Facilitator.Env) (routes : Facilitator.PaymentRoutes)
          (pre rest : string) (route : Facilitator.PaymentRoute),
      In (pre ++ "*", route) routes ->
      plain pre = true ->
      single_line rest = true ->
      Facilitator.findMatchingRoute E (pre ++ rest) routes <> Ok None) /\
  (forall (E : Server.Env) (routes : Server.PaymentRoutes)
          (pre rest : string) (route : Server.PaymentRoute),
      In (pre ++ "*", route) routes ->
      plain pre = true ->
      single_line rest = true ->
      Server.isPaymentRequired E (pre ++ rest) routes <> Ok false).
Proof.
  split; [exact trailing_wildcard_test |].
  assert (hit : forall (A : Type) (other : string -> string -> Res bool)
                       (entries : list (string * A)) (pre rest : string) (config : A),
             In (pre ++ "*", config) entries ->
             plain pre = true ->
             single_line rest = true ->
             first_wildcard other (pre ++ rest) entries <> Ok None).
  { intros A other entries pre rest config Hin Hpre Hrest.
    apply (first_wildcard_hit other (pre ++ rest) (pre ++ "*") config entries Hin).
    - apply includes_trailing_star.
    - destruct (trailing_wildcard_test other pre (pre ++ rest) Hpre) as (b & -> & Hb).
      f_equal. apply Hb. now exists rest. }
  split.
  - intros E routes pre rest route Hin Hpre Hrest.
    unfold Facilitator.findMatchingRoute.
    destruct (lookup (pre ++ rest) routes); [discriminate |].
    now apply (hit _ _ routes pre rest route).
  - intros E routes pre rest route Hin Hpre Hrest.
    unfold Server.isPaymentRequired.
    destruct (lookup (pre ++ rest) routes); [discriminate |].
    destruct (inherited (pre ++ rest)); [discriminate |].
    pose proof (hit _ (Server.RegExp_other E) routes pre rest route Hin Hpre Hrest) as H.
    destruct (first_wildcard (Server.RegExp_other E) (pre ++ rest) routes) as [[c |] | e];
      [discriminate | contradiction | discriminate].
Qed.

Lemma trailing_wildcard_matches_any_suffix_witness :
  Facilitator.findMatchingRoute accepting_ledger "/premium/a/b" sample_routes <> Ok None.
Proof.
  destruct trailing_wildcard_matches_any_suffix as (_ & gateway & _).
  apply (gateway accepting_ledger sample_routes "/premium/" "a/b"
           {| Facilitator.price := PriceString "10000000";
              Facilitator.network := "aptos-testnet" |}).
  - simpl. right. left. reflexivity.
  - reflexivity.
  - reflexivity.
Defined.

(** C3 (as stated) fails: the path ["/premium/a/b"], two segments after the
    prefix, matches the key ["/premium/*"]. *)
Lemma wildcard_spans_segments :
  lookup "/premium/a/b" sample_routes = None /\
  RegExp_test (Facilitator.RegExp_other accepting_ledger)
    (replace_star "/premium/*") "/premium/a/b" = Ok true /\
  Facilitator.findMatchingRoute accepting_ledger "/premium/a/b" sample_routes =
    Ok (Some {| Facilitator.price := PriceString "10000000";
                Facilitator.network := "aptos-testnet" |}) /\
  Server.isPaymentRequired server_env "GET /premium/a/b" server_routes = Ok true.
Proof. repeat split; reflexivity. Qed.

(** ** The client driver *)

Section Driver.

Import Client.

Variable E : Env.
Variable account : AptosAccount.
Variable config : X402ClientConfig.

Lemma quiet_ret {A : Type} (a : A) : quiet (@ret World A a).
Proof. intros w. reflexivity. Qed.

Lemma quiet_throw {A : Type} (e : Exn) : quiet (@throw World A e).
Proof. intros w. reflexivity. Qed.

Lemma quiet_lift {A : Type} (r : Res A) : quiet (@lift World A r).
Proof. intros w. reflexivity. Qed.

Lemma quiet_now : quiet (now E).
Proof. intros w. reflexivity. Qed.

Lemma quiet_query (a : string) (t : JValue) : quiet (query_balance E a t).
Proof. intros w. reflexivity. Qed.

Lemma quiet_build (s : string) (t r a : JValue) : quiet (build E s t r a).
Proof. intros w. reflexivity. Qed.

Lemma quiet_bind {A B : Type} (m : M World A) (k : A -> M World B) :
  quiet m -> (forall x, quiet (k x)) -> quiet (bind m k).
Proof.
  intros Hm Hk w. unfold bind. specialize (Hm w).
  destruct (m w) as [[x | e] w0]; simpl in *.
  - rewrite Hk. exact Hm.
  - exact Hm.
Qed.

Lemma quiet_try_catch {A : Type} (m : M World A) (h : Exn -> M World A) :
  quiet m -> (forall e, quiet (h e)) -> quiet (try_catch m h).
Proof.
  intros Hm Hh w. unfold try_catch. specialize (Hm w).
  destruct (m w) as [[x | e] w0]; simpl in *.
  - exact Hm.
  - rewrite Hh. exact Hm.
Qed.

Lemma quiet_if {A : Type} (c : bool) (m1 m2 : M World A) :
  quiet m1 -> quiet m2 -> quiet (if c then m1 else m2).
Proof. destruct c; auto. Qed.

Ltac hush :=
  repeat first
    [ apply quiet_ret | apply quiet_throw | apply quiet_lift
    | apply quiet_now | apply quiet_query | apply quiet_build
    | apply quiet_if
    | apply quiet_bind; [| intros ?]
    | apply quiet_try_catch; [| intros ?] ].

Lemma quiet_payment_steps (response : AxiosResponse) :
  quiet (payment_steps E account response).
Proof.
  unfold payment_steps, validatePaymentPayload, checkBalance, createPaymentTransaction.
  hush.
Qed.

Lemma try_catch_rethrow {A : Type} (m : M World A) (w : World) :
  try_catch m (fun error => throw error) w = m w.
Proof. unfold try_catch, throw. destruct (m w) as [[a | e] w0]; reflexivity. Qed.

Lemma bind_assoc {A B C : Type} (m : M World A) (k : A -> M World B) (k' : B -> M World C)
  (w : World) :
  bind (bind m k) k' w = bind m (fun a => bind (k a) k') w.
Proof. unfold bind. destruct (m w) as [[a | e] w0]; reflexivity. Qed.

Lemma bind_ext {A B : Type} (m : M World A) (k k' : A -> M World B) (w : World) :
  (forall a w0, k a w0 = k' a w0) -> bind m k w = bind m k' w.
Proof. intros H. unfold bind. destruct (m w) as [[a | e] w0]; [apply H | reflexivity]. Qed.

Lemma bind_if {A B : Type} (c : bool) (m1 m2 : M World A) (k : A -> M World B) (w : World) :
  bind (if c then m1 else m2) k w = (if c then bind m1 k else bind m2 k) w.
Proof. destruct c; reflexivity. Qed.

(** [handlePaymentRequired] is the steps above followed by the retry. *)
Lemma handlePaymentRequired_steps (response : AxiosResponse) (url : string)
  (options : RequestOptions) (w : World) :
  handlePaymentRequired E account config response url options w =
  bind (payment_steps E account response)
       (retryWithPayment E config url options) w.
Proof.
  unfold handlePaymentRequired. rewrite try_catch_rethrow.
  unfold payment_steps.
  rewrite bind_assoc. apply bind_ext. intros payment w0.
  rewrite bind_assoc. apply bind_ext. intros valid w1.
  rewrite bind_if. destruct (negb valid); [reflexivity |].
  rewrite bind_assoc. apply bind_ext. intros deadline w2.
  rewrite bind_assoc. apply bind_ext. intros t w3.
  rewrite bind_if. destruct (js_le E deadline t); [reflexivity |].
  rewrite bind_assoc. apply bind_ext. intros token w4.
  rewrite bind_assoc. apply bind_ext. intros amount w5.
  rewrite bind_assoc. apply bind_ext. intros hasBalance w6.
  rewrite bind_if. destruct (negb hasBalance); reflexivity.
Qed.

(** What [retryWithPayment] does: one request, carrying the proof, and the
    reply decides the result. *)
Lemma retryWithPayment_eq (url : string) (options : RequestOptions)
  (signedTransaction : SignedTransaction) (w : World) :
  let second :=
    requestConfig_of config url options
      (Some (E.(JSON_stringify)
               (paymentProof_of signedTransaction (E.(Date_now) w.(ticks))))) in
  retryWithPayment E config url options signedTransaction w =
  (match E.(http) (List.length w.(requests)) second with
   | Replied response =>
       if (response.(status) <? 500)%Z
       then
         if (response.(status) =? 402)%Z
         then Throw (Error "Payment verification failed - server still requires payment")
         else if (response.(status) >=? 400)%Z
         then Throw (Error ("Request failed with status " ++
                            string_of_Z response.(status) ++ ": " ++ response.(statusText)))
         else Ok response.(data)
       else Throw (Error ("Payment retry failed: " ++
                          ("Request failed with status code " ++
                           string_of_Z response.(status))))
   | Failed (AxiosError m _) => Throw (Error ("Payment retry failed: " ++ m))
   | Failed error => Throw error
   end,
   sent second (ticked w)).
Proof.
  intros second. subst second.
  unfold retryWithPayment, bind at 1, now.
  unfold try_catch, bind, axios, throw, ret, sent, ticked.
  cbn [ticks requests queries built].
  fold (paymentProof_of signedTransaction (E.(Date_now) w.(ticks))).
  match goal with |- context [E.(http) ?n ?c] => destruct (E.(http) n c) as [response | error] end.
  - destruct (response.(status) <? 500)%Z; [| reflexivity].
    destruct (response.(status) =? 402)%Z; [reflexivity |].
    destruct (response.(status) >=? 400)%Z; reflexivity.
  - destruct error; reflexivity.
Qed.

Lemma retryWithPayment_no_axios_error (url : string) (options : RequestOptions)
  (signedTransaction : SignedTransaction) (w : World) (e : Exn) :
  fst (retryWithPayment E config url options signedTransaction w) = Throw e ->
  is_axios_error e = false.
Proof.
  rewrite retryWithPayment_eq. cbv zeta. cbn [fst].
  match goal with |- context [E.(http) ?n ?c] => destruct (E.(http) n c) as [response | error] end.
  - destruct (response.(status) <? 500)%Z;
      [destruct (response.(status) =? 402)%Z;
         [| destruct (response.(status) >=? 400)%Z] |];
      intros [= <-]; reflexivity.
  - destruct error; intros [= <-]; reflexivity.
Qed.

(** [handlePaymentRequired] either sends nothing, or sends one request and
    then throws no error of the HTTP client. *)
Lemma handlePaymentRequired_requests (response : AxiosResponse) (url : string)
  (options : RequestOptions) (w : World) :
  let out := handlePaymentRequired E account config response url options w in
  (snd out).(requests) = w.(requests) \/
  (exists second, (snd out).(requests) = second :: w.(requests) /\
                  forall e, fst out = Throw e -> is_axios_error e = false).
Proof.
  cbv zeta. rewrite handlePaymentRequired_steps. unfold bind.
  pose proof (quiet_payment_steps response w) as Hquiet.
  destruct (payment_steps E account response w) as [[signedTransaction | e] w1];
    simpl in Hquiet.
  - right. eexists. split.
    + rewrite retryWithPayment_eq. cbv zeta. cbn [snd sent ticked requests].
      rewrite Hquiet. reflexivity.
    + intros e. apply retryWithPayment_no_axios_error.
  - left. exact Hquiet.
Qed.

Lemma lookup_set_key (k k' v : string) (o : list (string * string)) :
  lookup k (set_key k' v o) = if (k =? k')%string then Some v else lookup k o.
Proof.
  induction o as [| [k0 v0] tl IH]; simpl.
  - destruct (k =? k')%string; reflexivity.
  - destruct (k' =? k0)%string eqn:same; simpl.
    + apply String.eqb_eq in same. subst k0.
      destruct (k =? k')%string; reflexivity.
    + rewrite IH. destruct (k =? k0)%string eqn:hit; [| reflexivity].
      apply String.eqb_eq in hit. subst k0.
      rewrite String.eqb_sym, same. reflexivity.
Qed.

Lemma lookup_spread_present (k : string) (extra base : list (string * string)) :
  lookup k base <> None -> lookup k (spread base extra) <> None.
Proof.
  unfold spread. revert base.
  induction extra as [| [k' v'] tl IH]; intros base H; simpl; [exact H |].
  apply IH. rewrite lookup_set_key. destruct (k =? k')%string; [discriminate | exact H].
Qed.

Lemma lookup_spread_absent (k : string) (extra base : list (string * string)) :
  lookup k extra = None -> lookup k (spread base extra) = lookup k base.
Proof.
  unfold spread. revert base.
  induction extra as [| [k' v'] tl IH]; intros base H; simpl in *; [reflexivity |].
  destruct (k =? k')%string eqn:same; [discriminate H |].
  rewrite IH by exact H. rewrite lookup_set_key, same. reflexivity.
Qed.

(** What [request] does when the first reply is not a 402. *)
Lemma request_other_status (url : string) (options : RequestOptions)
  (response : AxiosResponse) (w : World) :
  E.(http) (List.length w.(requests)) (requestConfig_of config url options None)
    = Replied response ->
  response.(status) <> 402%Z ->
  request E account config url options w =
  (if (response.(status) <? 500)%Z
   then Ok response.(data)
   else Throw (AxiosError ("Request failed with status code " ++
                           string_of_Z response.(status)) (Some response)),
   sent (requestConfig_of config url options None) w).
Proof.
  intros reply other. apply Z.eqb_neq in other.
  unfold request, try_catch, bind, axios. rewrite reply.
  destruct (response.(status) <? 500)%Z; cbn [status]; rewrite other; reflexivity.
Qed.

(** What [request] does when the first reply is a 402. *)
Lemma request_402 (url : string) (options : RequestOptions)
  (response : AxiosResponse) (w : World) :
  E.(http) (List.length w.(requests)) (requestConfig_of config url options None)
    = Replied response ->
  response.(status) = 402%Z ->
  request E account config url options w =
  match handlePaymentRequired E account config response url options
          (sent (requestConfig_of config url options None) w) with
  | (Throw e, w1) =>
      match e with
      | AxiosError _ (Some response') =>
          if (response'.(status) =? 402)%Z
          then handlePaymentRequired E account config response' url options w1
          else (Throw e, w1)
      | _ => (Throw e, w1)
      end
  | (Ok a, w1) => (Ok a, w1)
  end.
Proof.
  intros reply is402.
  unfold request, try_catch, bind at 1, axios. rewrite reply.
  rewrite is402. change (402 <? 500)%Z with true. cbv beta iota.
  rewrite is402. change (402 =? 402)%Z with true. cbv beta iota.
  unfold sent.
  match goal with |- context [handlePaymentRequired E account config response url options ?w0] =>
    destruct (handlePaymentRequired E account config response url options w0)
      as [[a | e] w1] end.
  - reflexivity.
  - destruct e as [m h | m [response' |] | m h]; try reflexivity.
    destruct (response'.(status) =? 402)%Z; reflexivity.
Qed.

End Driver.

(** [request] sends its first request and at most one more. *)
Lemma request_requests (E : Client.Env) (account : Client.AptosAccount)
  (config : Client.X402ClientConfig) (url : string) (options : Client.RequestOptions)
  (w : Client.World) :
  exists more,
    (snd (Client.request E account config url options w)).(Client.requests) =
      (more ++ Client.requestConfig_of config url options None :: w.(Client.requests))%list /\
    (List.length more <= 1)%nat.
Proof.
  set (first := Client.requestConfig_of config url options None).
  assert (handled : forall response w0,
             Client.requests w0 = first :: Client.requests w ->
             exists more,
               Client.requests
                 (snd (Client.handlePaymentRequired E account config response url options w0))
               = (more ++ first :: Client.requests w)%list /\
               (List.length more <= 1)%nat).
  { intros response w0 Hw0.
    destruct (handlePaymentRequired_requests E account config response url options w0)
      as [same | (second & one & _)].
    - exists []. rewrite same, Hw0. split; [reflexivity | simpl; lia].
    - exists [second]. rewrite one, Hw0. split; [reflexivity | simpl; lia]. }
  unfold Client.request, try_catch, bind at 1, Client.axios. fold first.
  set (w0 := {| Client.ticks := Client.ticks w;
                Client.requests := first :: Client.requests w;
                Client.queries := Client.queries w;
                Client.built := Client.built w |}).
  assert (Hw0 : Client.requests w0 = first :: Client.requests w) by reflexivity.
  assert (nothing : exists more,
             Client.requests w0 = (more ++ first :: Client.requests w)%list /\
             (List.length more <= 1)%nat).
  { exists []. split; [reflexivity | simpl; lia]. }
  destruct (Client.http E (List.length (Client.requests w)) first) as [response | error].
  - destruct (status response <? 500)%Z.
    + destruct (status response =? 402)%Z; [| exact nothing].
      pose proof (handlePaymentRequired_requests E account config response url options w0)
        as shape.
      cbv zeta in shape.
      destruct (Client.handlePaymentRequired E account config response url options w0)
        as [[a | e] w1] eqn:run; cbn [fst snd] in shape.
      * destruct shape as [same | (second & one & _)].
        -- exists []. cbn [snd]. rewrite same. split; [reflexivity | simpl; lia].
        -- exists [second]. cbn [snd]. rewrite one. split; [reflexivity | simpl; lia].
      * destruct shape as [same | (second & one & no_axios)].
        -- assert (Hw1 : Client.requests w1 = first :: Client.requests w)
             by (rewrite same; exact Hw0).
           destruct e as [m h | m [response' |] | m h];
             try (exists []; unfold throw; cbn [snd]; rewrite Hw1;
                  split; [reflexivity | simpl; lia]).
           destruct (status response' =? 402)%Z;
             [apply handled; exact Hw1
             | exists []; unfold throw; cbn [snd]; rewrite Hw1;
               split; [reflexivity | simpl; lia]].
        -- specialize (no_axios e eq_refl).
           destruct e as [m h | m r | m h]; [| discriminate no_axios |];
             exists [second]; unfold throw; cbn [snd]; rewrite one;
             (split; [reflexivity | simpl; lia]).
    + destruct (status response =? 402)%Z; [apply handled; exact Hw0 | exact nothing].
  - destruct error as [m h | m [response' |] | m h]; try exact nothing.
    destruct (status response' =? 402)%Z; [apply handled; exact Hw0 | exact nothing].
Qed.

(** C9 (amended) — The driver sends its request and at most one more.  A
    first reply with a status other than 402 ends the call at once, with
    nothing signed: its body is returned when the status is below 500, and
    an error carrying the reply is thrown otherwise.  On a first 402, the
    payload is validated and the deadline and the balance are checked; if a
    step fails the error is thrown and nothing is sent again; if they pass,
    the call is what [retryWithPayment] does: exactly one more request, with
    an [X-Payment] header (the proof, unless the caller's own headers
    override it), and a 402 in reply to it is thrown as the error ["Payment
    verification failed - server still requires payment"]. *)
Theorem driver_retries_at_most_once
  (E : Client.Env) (account : Client.AptosAccount) (config : Client.X402ClientConfig)
  (url : string) (options : Client.RequestOptions) (w : Client.World) :
  let first := Client.requestConfig_of config url options None in
  (exists more,
      (snd (Client.request E account config url options w)).(Client.requests) =
        (more ++ first :: w.(Client.requests))%list /\
      (List.length more <= 1)%nat) /\
  (forall response,
      E.(Client.http) (List.length w.(Client.requests)) first = Client.Replied response ->
      response.(status) <> 402%Z ->
      Client.request E account config url options w =
        (if (response.(status) <? 500)%Z
         then Ok response.(data)
         else Throw (AxiosError ("Request failed with status code " ++
                                 string_of_Z response.(status)) (Some response)),
         sent first w)) /\
  (forall response,
      E.(Client.http) (List.length w.(Client.requests)) first = Client.Replied response ->
      response.(status) = 402%Z ->
      match payment_steps E account response (sent first w) with
      | (Ok signedTransaction, w1) =>
          Client.request E account config url options w =
          Client.retryWithPayment E config url options signedTransaction w1
      | (Throw e, w1) =>
          carries_402 e = false ->
          Client.request E account config url options w = (Throw e, w1) /\
          w1.(Client.requests) = first :: w.(Client.requests)
      end) /\
  (forall signedTransaction w1,
      let proof :=
        E.(Client.JSON_stringify)
          (paymentProof_of signedTransaction (E.(Client.Date_now) w1.(Client.ticks))) in
      let second := Client.requestConfig_of config url options (Some proof) in
      snd (Client.retryWithPayment E config url options signedTransaction w1) =
        sent second (ticked w1) /\
      lookup "X-Payment" second.(Client.cfg_headers) <> None /\
      (lookup "X-Payment" options.(Client.headers) = None ->
       lookup "X-Payment" second.(Client.cfg_headers) = Some proof) /\
      (forall response',
          E.(Client.http) (List.length w1.(Client.requests)) second = Client.Replied response' ->
          response'.(status) = 402%Z ->
          fst (Client.retryWithPayment E config url options signedTransaction w1) =
          Throw (Error "Payment verification failed - server still requires payment"))).
Proof.
  intros first. split; [apply request_requests |].
  split; [intros response reply other; now apply request_other_status |].
  split.
  - intros response reply is402.
    rewrite (request_402 E account config url options w reply is402).
    rewrite handlePaymentRequired_steps. unfold bind. fold first.
    pose proof (quiet_payment_steps E account response (sent first w)) as Hquiet.
    destruct (payment_steps E account response (sent first w))
      as [[signedTransaction | e] w1]; cbn [snd] in Hquiet.
    + destruct (Client.retryWithPayment E config url options signedTransaction w1)
        as [[a | e] w2] eqn:retry; [reflexivity |].
      pose proof (retryWithPayment_no_axios_error E config url options signedTransaction w1)
        as no_axios.
      rewrite retry in no_axios. specialize (no_axios e eq_refl).
      destruct e as [m h | m r | m h]; [reflexivity | discriminate no_axios | reflexivity].
    + intros not402. split; [| exact Hquiet].
      destruct e as [m h | m [response' |] | m h]; try reflexivity.
      unfold carries_402 in not402. rewrite not402. reflexivity.
  - intros signedTransaction w1 proof second.
    rewrite retryWithPayment_eq. cbv zeta. fold proof. fold second. cbn [fst snd].
    split; [reflexivity |].
    split; [| split].
    + apply lookup_spread_present. discriminate.
    + intros absent_key. unfold second, Client.requestConfig_of. cbn [Client.cfg_headers].
      rewrite lookup_spread_absent by exact absent_key. reflexivity.
    + intros response' reply is402. rewrite reply, is402. reflexivity.
Qed.

Lemma driver_retries_at_most_once_witness :
  exists w',
    Client.request (client_env insisting_reply) sample_account client_config
      "http://localhost:4021/weather" plain_get Client.initial_world =
      (Throw (Error "Payment verification failed - server still requires payment"), w') /\
    List.length w'.(Client.requests) = 2%nat.
Proof.
  destruct (driver_retries_at_most_once (client_env insisting_reply) sample_account
              client_config "http://localhost:4021/weather" plain_get Client.initial_world)
    as (_ & _ & on402 & retry).
  specialize (on402 insisting_reply eq_refl eq_refl).
  eassert (steps : payment_steps (client_env insisting_reply) sample_account insisting_reply
                     (sent (Client.requestConfig_of client_config
                              "http://localhost:4021/weather" plain_get None)
                           Client.initial_world) = (Ok _, _))
    by (vm_compute; reflexivity).
  rewrite steps in on402. rewrite on402.
  match goal with
  | |- context [Client.retryWithPayment _ _ _ _ ?signedTransaction ?w1] =>
      destruct (retry signedTransaction w1) as (world & _ & _ & rejected)
  end.
  specialize (rejected insisting_reply eq_refl eq_refl).
  eexists. split.
  - rewrite (surjective_pairing (Client.retryWithPayment _ _ _ _ _ _)).
    rewrite rejected, world. reflexivity.
  - reflexivity.
Defined.

(** C9 (as stated) fails in two ways.  A first reply with status 500 is not
    returned: an error is thrown.  And a first 402 whose deadline has passed
    is not followed by a second request: the driver throws at once, having
    signed nothing. *)
Lemma driver_may_throw_without_retry :
  (exists w',
      Client.request (client_env failing_reply) sample_account client_config
        "http://localhost:4021/weather" plain_get Client.initial_world =
        (Throw (AxiosError "Request failed with status code 500" (Some failing_reply)), w') /\
      List.length w'.(Client.requests) = 1%nat) /\
  (exists w',
      Client.request (client_env expired_reply) sample_account client_config
        "http://localhost:4021/weather" plain_get Client.initial_world =
        (Throw (Error "Invalid payment payload received from server"), w') /\
      List.length w'.(Client.requests) = 1%nat /\
      w'.(Client.built) = 0%nat).
Proof.
  split; eexists; (split; [vm_compute; reflexivity |]); repeat split; reflexivity.
Qed.

(** * Further properties *)

(** ** Route matching *)

Lemma first_wildcard_starless {A : Type} (other : string -> string -> Res bool)
  (path : string) (entries : list (string * A)) :
  starless entries = true -> first_wildcard other path entries = Ok None.
Proof.
  induction entries as [| [k c] tl IH]; [reflexivity |].
  cbn [starless forallb fst]. intros H. apply andb_prop in H as [Hk Htl].
  cbn [first_wildcard]. apply negb_true_iff in Hk. rewrite Hk. now apply IH.
Qed.

(** X1 — Keys without a [*] are compared literally.  In a table none of
    whose keys contains a [*] the regular-expression engine is never
    consulted, so a [.] in a key stands for itself.  The route the gateway
    finds for a request path is the entry stored under exactly that path,
    or none.  The public look-ups of the server's handler find that entry
    too; for a route without an entry they answer by the object members
    every table inherits: [isPaymentRequired] is [true] for such a name
    (["constructor"], ["toString"], ...) and [getPaymentConfig] returns the
    member, which is no route, and for every other name they answer
    [false] and [null]. *)
Theorem starless_table_matches_exactly :
  (forall (E : Facilitator.Env) (routes : Facilitator.PaymentRoutes) (path : string),
      starless routes = true ->
      prefix "/" path = true ->
      Facilitator.findMatchingRoute E path routes = Ok (lookup path routes)) /\
  (forall (E : Server.Env) (routes : Server.PaymentRoutes) (route : string),
      starless routes = true ->
      Server.getPaymentConfig E route routes =
        Ok (match lookup route routes with
            | Some c => Some (Server.RouteConfig c)
            | None =>
                if inherited route then Some (Server.PrototypeMember route) else None
            end) /\
      Server.isPaymentRequired E route routes =
        Ok (match lookup route routes with
            | Some _ => true
            | None => inherited route
            end)).
Proof.
  split.
  - intros E routes path H _. unfold Facilitator.findMatchingRoute.
    destruct (lookup path routes); [reflexivity |].
    now apply first_wildcard_starless.
  - intros E routes route H.
    unfold Server.getPaymentConfig, Server.isPaymentRequired.
    destruct (lookup route routes); [split; reflexivity |].
    destruct (inherited route); [split; reflexivity |].
    rewrite first_wildcard_starless by exact H. split; reflexivity.
Qed.

Lemma starless_table_matches_exactly_witness :
  Facilitator.findMatchingRoute accepting_ledger "/v1x0"
    [("/v1.0", {| Facilitator.price := PriceString "7";
                  Facilitator.network := "aptos-testnet" |})] = Ok None /\
  Server.isPaymentRequired server_env "constructor" [] = Ok true /\
  Server.isPaymentRequired server_env "GET /v1x0"
    [("GET /v1.0", {| Server.price := PriceString "7";
                      Server.route_token := None;
                      Server.description := None |})] = Ok false.
Proof.
  destruct starless_table_matches_exactly as [gateway handler].
  split; [| split].
  - exact (gateway accepting_ledger
             [("/v1.0", {| Facilitator.price := PriceString "7";
                           Facilitator.network := "aptos-testnet" |})]
             "/v1x0" eq_refl eq_refl).
  - exact (proj2 (handler server_env [] "constructor" eq_refl)).
  - exact (proj2 (handler server_env
                    [("GET /v1.0", {| Server.price := PriceString "7";
                                      Server.route_token := None;
                                      Server.description := None |})]
                    "GET /v1x0" eq_refl)).
Defined.

(** X2 — The two look-ups of the server's handler agree: [isPaymentRequired]
    answers [true] exactly when [getPaymentConfig] finds a configuration,
    [false] exactly when it finds none, and they throw the same error.  So
    the handler never reads the price of a missing configuration. *)
Theorem isPaymentRequired_agrees_with_getPaymentConfig
  (E : Server.Env) (route : string) (routes : Server.PaymentRoutes) :
  Server.isPaymentRequired E route routes =
  match Server.getPaymentConfig E route routes with
  | Ok (Some _) => Ok true
  | Ok None => Ok false
  | Throw e => Throw e
  end.
Proof.
  unfold Server.isPaymentRequired, Server.getPaymentConfig.
  destruct (lookup route routes); [reflexivity |].
  destruct (inherited route); [reflexivity |].
  destruct (first_wildcard (Server.RegExp_other E) route routes) as [[c |] | e];
    reflexivity.
Qed.

Lemma first_wildcard_first_match {A : Type} (other : string -> string -> Res bool)
  (path key : string) (config : A) (before after : list (string * A)) :
  Forall (passed_over other path) before ->
  includes "*" key = true ->
  RegExp_test other (replace_star key) path = Ok true ->
  first_wildcard other path (before ++ (key, config) :: after)%list = Ok (Some config).
Proof.
  intros Hbefore Hstar Hmatch.
  induction Hbefore as [| [k c] tl Hk _ IH].
  - cbn [List.app first_wildcard]. now rewrite Hstar, Hmatch.
  - cbn [List.app first_wildcard]. destruct Hk as [Hk | Hk]; cbn [fst] in Hk.
    + rewrite Hk. exact IH.
    + rewrite Hk. destruct (includes "*" k); exact IH.
Qed.

(** X3 — Precedence of routes.  An entry stored under exactly the request
    path is the route, whatever wildcard keys the table holds.  Otherwise the
    route is the first entry, in table order, whose key has a [*] and matches:
    every earlier entry was passed over, later ones are not looked at. *)
Theorem route_precedence
  (E : Facilitator.Env) (path : string) (routes : Facilitator.PaymentRoutes) :
  (forall route, lookup path routes = Some route ->
                 Facilitator.findMatchingRoute E path routes = Ok (Some route)) /\
  (forall before key route after,
      lookup path routes = None ->
      routes = (before ++ (key, route) :: after)%list ->
      Forall (passed_over E.(Facilitator.RegExp_other) path) before ->
      includes "*" key = true ->
      RegExp_test E.(Facilitator.RegExp_other) (replace_star key) path = Ok true ->
      Facilitator.findMatchingRoute E path routes = Ok (Some route)).
Proof.
  split.
  - intros route H. unfold Facilitator.findMatchingRoute. now rewrite H.
  - intros before key route after Hnone -> Hbefore Hstar Hmatch.
    unfold Facilitator.findMatchingRoute. rewrite Hnone.
    now apply first_wildcard_first_match.
Qed.

Lemma route_precedence_witness :
  Facilitator.findMatchingRoute accepting_ledger "/premium/vip/gold" overlapping_routes
    = Ok (Some gold_route) /\
  Facilitator.findMatchingRoute accepting_ledger "/premium/vip/silver" overlapping_routes
    = Ok (Some basic_route).
Proof.
  split.
  - destruct (route_precedence accepting_ledger "/premium/vip/gold" overlapping_routes)
      as [exact _].
    apply exact. reflexivity.
  - destruct (route_precedence accepting_ledger "/premium/vip/silver" overlapping_routes)
      as [_ first].
    apply (first [] "/premium/*" basic_route
             [("/premium/vip/*", vip_route); ("/premium/vip/gold", gold_route)]).
    + reflexivity.
    + reflexivity.
    + constructor.
    + reflexivity.
    + reflexivity.
Defined.

(** *** A [*] inside a key *)

Lemma replace_star_plain (text : string) : plain text = true -> replace_star text = text.
Proof.
  induction text as [| c text IH]; [reflexivity |].
  cbn [plain replace_star]. intros H. apply andb_prop in H as [Hc Htext].
  rewrite (plain_char_not_star c Hc), IH by exact Htext. reflexivity.
Qed.

Lemma replace_star_app (a b : string) :
  replace_star (a ++ b) = replace_star a ++ replace_star b.
Proof.
  induction a as [| c a IH]; [reflexivity |].
  cbn [append replace_star]. rewrite IH. destruct (Ascii.eqb c "*"); reflexivity.
Qed.

(** Reading of a pattern that starts with a plain character not followed by
    a [*]. *)
Lemma compile_plain_cons (c : ascii) (rest : string) :
  plain_char c = true ->
  (forall rest', rest <> String "*" rest') ->
  compile (String c rest) = option_map (cons (One (Lit c))) (compile rest).
Proof.
  intros Hc Hrest. cbn [compile].
  rewrite (plain_char_not_special c Hc), (plain_char_atom c Hc).
  destruct rest as [| d rest']; [reflexivity |].
  destruct d as [[] [] [] [] [] [] [] []]; try reflexivity.
  exfalso. exact (Hrest rest' eq_refl).
Qed.

Lemma compile_plain (text : string) : plain text = true -> compile text = Some (literal text).
Proof.
  induction text as [| c text IH]; [reflexivity |].
  cbn [plain]. intros H. apply andb_prop in H as [Hc Htext].
  rewrite compile_plain_cons; [rewrite IH by exact Htext; reflexivity | exact Hc |].
  intros rest' ->. cbn [plain] in Htext. apply andb_prop in Htext as [Hstar _].
  discriminate Hstar.
Qed.

Lemma compile_middle (pre post : string) :
  plain pre = true -> plain post = true ->
  compile (pre ++ ".*" ++ post) = Some (literal pre ++ Star AnyChar :: literal post)%list.
Proof.
  intros Hpre Hpost.
  induction pre as [| c pre IH].
  - cbn [append literal List.app compile]. cbn.
    rewrite compile_plain by exact Hpost. reflexivity.
  - cbn [plain] in Hpre. apply andb_prop in Hpre as [Hc Hpre].
    change (String c pre ++ ".*" ++ post) with (String c (pre ++ ".*" ++ post)).
    rewrite compile_plain_cons; [rewrite IH by exact Hpre; reflexivity | exact Hc |].
    intros rest' H. destruct pre as [| d pre']; [discriminate H |].
    cbn [append] in H. injection H as -> _.
    cbn [plain] in Hpre. apply andb_prop in Hpre as [Hstar _]. discriminate Hstar.
Qed.

Lemma matches_star_any (r : list Item) (s : string) :
  matches (Star AnyChar :: r) s = true <->
  exists mid rest, s = mid ++ rest /\ single_line mid = true /\ matches r rest = true.
Proof.
  induction s as [| c s IH].
  - cbn [matches]. rewrite orb_false_r. split.
    + intros H. exists EmptyString, EmptyString. auto.
    + intros (mid & rest & Hs & _ & Hr).
      destruct mid; [| discriminate Hs]. cbn [append] in Hs. now subst rest.
  - change (matches (Star AnyChar :: r) (String c s))
      with (matches r (String c s) ||
            (atom_matches AnyChar c && matches (Star AnyChar :: r) s)).
    split.
    + intros H. apply orb_prop in H as [H | H].
      * exists EmptyString, (String c s). auto.
      * apply andb_prop in H as [Hc Hs]. apply IH in Hs as (mid & rest & -> & Hmid & Hr).
        exists (String c mid), rest. cbn [append single_line].
        cbn [atom_matches] in Hc. rewrite Hc, Hmid. auto.
    + intros (mid & rest & Hs & Hmid & Hr). destruct mid as [| d mid].
      * cbn [append] in Hs. subst rest. rewrite Hr. reflexivity.
      * cbn [append] in Hs. injection Hs as <- ->.
        cbn [single_line] in Hmid. apply andb_prop in Hmid as [Hd Hmid].
        cbn [atom_matches]. rewrite Hd. cbn [andb].
        apply orb_true_iff. right. apply IH. now exists mid, rest.
Qed.

Lemma matches_literal_only (text s : string) :
  matches (literal text) s = true <-> s = text.
Proof.
  rewrite <- (app_nil_r (literal text)), matches_literal. split.
  - intros (rest & -> & H). destruct rest; [| discriminate H].
    clear H. induction text as [| c text IH]; [reflexivity |].
    cbn [append]. now rewrite IH.
  - intros ->. exists EmptyString. split; [| reflexivity].
    induction text as [| c text IH]; [reflexivity |]. cbn [append]. now rewrite <- IH.
Qed.

Lemma includes_inner_star (pre post : string) : includes "*" (pre ++ "*" ++ post) = true.
Proof.
  induction pre as [| c pre IH].
  - cbn [append includes prefix].
    destruct (ascii_dec "*" "*") as [_ | ne]; [now destruct post | now elim ne].
  - change (String c pre ++ "*" ++ post) with (String c (pre ++ "*" ++ post)).
    cbn [includes]. rewrite IH. apply orb_true_r.
Qed.

(** A wildcard key that matches is found, unless the engine rejects a
    wildcard key of the table. *)
Lemma first_wildcard_hit_or_throw {A : Type} (other : string -> string -> Res bool)
  (path key : string) (config : A) (entries : list (string * A)) :
  In (key, config) entries ->
  includes "*" key = true ->
  RegExp_test other (replace_star key) path = Ok true ->
  (exists r, first_wildcard other path entries = Ok (Some r)) \/
  (exists k c e,
      In (k, c) entries /\ includes "*" k = true /\
      RegExp_test other (replace_star k) path = Throw e /\
      first_wildcard other path entries = Throw e).
Proof.
  intros Hin Hstar Hmatch.
  induction entries as [| [k c] tl IH]; [destruct Hin |].
  cbn [first_wildcard].
  destruct (includes "*" k) eqn:star.
  - destruct (RegExp_test other (replace_star k) path) as [[] | e] eqn:tested.
    + left. now exists c.
    + destruct Hin as [[= -> ->] | Hin]; [rewrite Hmatch in tested; discriminate tested |].
      destruct (IH Hin) as [found | (k' & c' & e & Hin' & star' & thrown & run)];
        [now left | right].
      exists k', c', e. repeat split; try assumption. now right.
    + right. exists k, c, e. repeat split; try assumption. now left.
  - destruct Hin as [[= -> ->] | Hin]; [rewrite Hstar in star; discriminate star |].
    destruct (IH Hin) as [found | (k' & c' & e & Hin' & star' & thrown & run)];
      [now left | right].
    exists k', c', e. repeat split; try assumption. now right.
Qed.

Lemma inner_wildcard_test (other : string -> string -> Res bool) (pre post path : string) :
  plain pre = true ->
  plain post = true ->
  exists b,
    RegExp_test other (replace_star (pre ++ "*" ++ post)) path = Ok b /\
    (b = true <->
     exists mid, path = pre ++ mid ++ post /\ single_line mid = true).
Proof.
  intros Hpre Hpost. unfold RegExp_test.
  rewrite !replace_star_app, (replace_star_plain pre Hpre), (replace_star_plain post Hpost).
  change (replace_star "*") with ".*".
  rewrite compile_middle by assumption.
  eexists. split; [reflexivity |].
  rewrite matches_literal. split.
  - intros (rest & -> & H). apply matches_star_any in H as (mid & tail & -> & Hmid & Htail).
    apply matches_literal_only in Htail. subst tail. now exists mid.
  - intros (mid & -> & Hmid). exists (mid ++ post). split; [reflexivity |].
    apply matches_star_any. exists mid, post. repeat split; try assumption.
    now apply matches_literal_only.
Qed.

(** X4 — A [*] inside a key.  A key made of plain text, a [*] and more plain
    text matches exactly the paths that put any run of characters without a
    line break, empty or spanning several segments, in the place of the
    [*].  In a table holding such a key, the look-up of such a path never
    answers that the path is free: it returns a route, or it throws because
    the engine rejects a wildcard key of the table (the gateway then
    answers 500).  In a table all of whose wildcard keys have this shape, the
    look-up returns a route, and a request for such a path that carries no
    proof is answered with a 402. *)
Theorem inner_wildcard_matches_any_infix :
  (forall (other : string -> string -> Res bool) (pre post path : string),
      plain pre = true ->
      plain post = true ->
      exists b,
        RegExp_test other (replace_star (pre ++ "*" ++ post)) path = Ok b /\
        (b = true <->
         exists mid, path = pre ++ mid ++ post /\ single_line mid = true)) /\
  (forall (E : Facilitator.Env) (routes : Facilitator.PaymentRoutes)
          (pre mid post : string) (route : Facilitator.PaymentRoute),
      In (pre ++ "*" ++ post, route) routes ->
      plain pre = true ->
      plain post = true ->
      single_line mid = true ->
      (exists r,
          Facilitator.findMatchingRoute E (pre ++ mid ++ post) routes = Ok (Some r)) \/
      (exists key config e,
          In (key, config) routes /\ includes "*" key = true /\
          RegExp_test E.(Facilitator.RegExp_other) (replace_star key) (pre ++ mid ++ post)
            = Throw e /\
          Facilitator.findMatchingRoute E (pre ++ mid ++ post) routes = Throw e)) /\
  (forall (E : Facilitator.Env) (payTo : string) (routes : Facilitator.PaymentRoutes)
          (req : Facilitator.Request) (pre mid post : string)
          (route : Facilitator.PaymentRoute) (w : Facilitator.World),
      In (pre ++ "*" ++ post, route) routes ->
      plain pre = true ->
      plain post = true ->
      single_line mid = true ->
      (forall key config,
          In (key, config) routes -> includes "*" key = true -> single_star key) ->
      req.(Facilitator.path) = pre ++ mid ++ post ->
      (exists r, Facilitator.findMatchingRoute E req.(Facilitator.path) routes = Ok (Some r)) /\
      (absent req.(Facilitator.x_payment) = true ->
       exists payment message retryAfter w',
         Facilitator.createPaymentMiddleware E payTo routes req w =
         (Ok (Facilitator.Respond 402 (Facilitator.Body402 payment message retryAfter)),
          w'))).
Proof.
  assert (never_free :
            forall (E : Facilitator.Env) (routes : Facilitator.PaymentRoutes)
                   (pre mid post : string) (route : Facilitator.PaymentRoute),
              In (pre ++ "*" ++ post, route) routes ->
              plain pre = true ->
              plain post = true ->
              single_line mid = true ->
              (exists r,
                  Facilitator.findMatchingRoute E (pre ++ mid ++ post) routes
                  = Ok (Some r)) \/
              (exists key config e,
                  In (key, config) routes /\ includes "*" key = true /\
                  RegExp_test E.(Facilitator.RegExp_other) (replace_star key)
                    (pre ++ mid ++ post) = Throw e /\
                  Facilitator.findMatchingRoute E (pre ++ mid ++ post) routes = Throw e)).
  { intros E routes pre mid post route Hin Hpre Hpost Hmid.
    unfold Facilitator.findMatchingRoute.
    destruct (lookup (pre ++ mid ++ post) routes) as [r |]; [left; now exists r |].
    apply (first_wildcard_hit_or_throw _ (pre ++ mid ++ post) (pre ++ "*" ++ post)
             route routes Hin).
    - apply includes_inner_star.
    - destruct (inner_wildcard_test (Facilitator.RegExp_other E) pre post
                  (pre ++ mid ++ post) Hpre Hpost) as (b & -> & Hb).
      f_equal. apply Hb. now exists mid. }
  split; [exact inner_wildcard_test |].
  split; [exact never_free |].
  intros E payTo routes req pre mid post route w Hin Hpre Hpost Hmid shape Hpath.
  assert (found : exists r,
             Facilitator.findMatchingRoute E req.(Facilitator.path) routes = Ok (Some r)).
  { rewrite Hpath.
    destruct (never_free E routes pre mid post route Hin Hpre Hpost Hmid)
      as [found | (key & config & e & Hkey & star & thrown & _)]; [exact found |].
    destruct (shape key config Hkey star) as (pre' & post' & -> & Hpre' & Hpost').
    destruct (inner_wildcard_test (Facilitator.RegExp_other E) pre' post'
                (pre ++ mid ++ post) Hpre' Hpost') as (b & tested & _).
    rewrite tested in thrown. discriminate thrown. }
  split; [exact found |].
  intros no_header. destruct found as [r found].
  rewrite (middleware_priced E payTo routes req w found).
  unfold absent in no_header.
  destruct (Facilitator.x_payment req) as [text |].
  - rewrite no_header. do 4 eexists. reflexivity.
  - do 4 eexists. reflexivity.
Qed.

Lemma inner_wildcard_matches_any_infix_witness :
  (exists r,
      Facilitator.findMatchingRoute accepting_ledger "/api/v1/a/b/users"
        [("/premium/*", vip_route); ("/api/*/users", basic_route)] = Ok (Some r)) /\
  exists payment message retryAfter w',
    Facilitator.createPaymentMiddleware accepting_ledger sample_payTo
      [("/premium/*", vip_route); ("/api/*/users", basic_route)]
      {| Facilitator.path := "/api/v1/a/b/users"; Facilitator.x_payment := None |}
      Facilitator.initial_world =
    (Ok (Facilitator.Respond 402 (Facilitator.Body402 payment message retryAfter)), w').
Proof.
  destruct inner_wildcard_matches_any_infix as (_ & _ & gateway).
  destruct (gateway accepting_ledger sample_payTo
              [("/premium/*", vip_route); ("/api/*/users", basic_route)]
              {| Facilitator.path := "/api/v1/a/b/users"; Facilitator.x_payment := None |}
              "/api/" "v1/a/b" "/users" basic_route Facilitator.initial_world)
    as [[r found] challenged].
  - right. left. reflexivity.
  - reflexivity.
  - reflexivity.
  - reflexivity.
  - intros key config [[= <- <-] | [[= <- <-] | []]] _.
    + exists "/premium/", EmptyString. repeat split.
    + exists "/api/", "/users". repeat split.
  - reflexivity.
  - split; [exists r; exact found | exact (challenged eq_refl)].
Defined.

(** ** The gateways *)

Section Untouched.

Import Facilitator.

Variable E : Env.

Lemma untouched_ret {A : Type} (a : A) : untouched (@ret World A a).
Proof. intros w. split; reflexivity. Qed.

Lemma untouched_throw {A : Type} (e : Exn) : untouched (@throw World A e).
Proof. intros w. split; reflexivity. Qed.

Lemma untouched_lift {A : Type} (r : Res A) : untouched (@lift World A r).
Proof. intros w. split; reflexivity. Qed.

Lemma untouched_now : untouched (now E).
Proof. intros w. split; reflexivity. Qed.

Lemma untouched_bind {A B : Type} (m : M World A) (k : A -> M World B) :
  untouched m -> (forall x, untouched (k x)) -> untouched (bind m k).
Proof.
  intros Hm Hk w. unfold bind. specialize (Hm w).
  destruct (m w) as [[x | e] w0]; cbn [snd] in *.
  - destruct (Hk x w0) as [H1 H2]. rewrite H1, H2. exact Hm.
  - exact Hm.
Qed.

Lemma untouched_try_catch {A : Type} (m : M World A) (h : Exn -> M World A) :
  untouched m -> (forall e, untouched (h e)) -> untouched (try_catch m h).
Proof.
  intros Hm Hh w. unfold try_catch. specialize (Hm w).
  destruct (m w) as [[x | e] w0]; cbn [snd] in *.
  - exact Hm.
  - destruct (Hh e w0) as [H1 H2]. rewrite H1, H2. exact Hm.
Qed.

Lemma untouched_if {A : Type} (c : bool) (m1 m2 : M World A) :
  untouched m1 -> untouched m2 -> untouched (if c then m1 else m2).
Proof. destruct c; auto. Qed.

Ltac leave_alone :=
  repeat first
    [ apply untouched_ret | apply untouched_throw | apply untouched_lift
    | apply untouched_now
    | apply untouched_if
    | apply untouched_bind; [| intros ?]
    | apply untouched_try_catch; [| intros ?]
    | match goal with
      | |- untouched (match ?x with _ => _ end) => destruct x
      end ].

Lemma untouched_processPayment_mock (config : FacilitatorConfig) (paymentRequest : JValue) :
  mock_enabled config = true ->
  untouched (processPayment E config paymentRequest).
Proof.
  intros mock. unfold processPayment. rewrite mock. cbn [negb].
  unfold verifySignature. leave_alone.
Qed.

Lemma untouched_createPaymentMiddleware (payTo : string) (routes : PaymentRoutes)
  (req : Request) :
  untouched (createPaymentMiddleware E payTo routes req).
Proof.
  unfold createPaymentMiddleware, payment_required.
  apply untouched_try_catch; [| intros e; apply untouched_ret].
  apply untouched_bind; [apply untouched_lift | intros [route |]];
    [| apply untouched_ret].
  destruct (x_payment req) as [paymentHeader |]; [| leave_alone].
  destruct (paymentHeader =? EmptyString)%string; [leave_alone |].
  destruct (JSON_parse E paymentHeader) as [paymentRequest | m]; [| apply untouched_ret].
  apply untouched_bind; [now apply untouched_processPayment_mock | intros v].
  leave_alone.
Qed.

End Untouched.

(** X5 — The outcomes of the gateway of [payment-middleware.ts].  The handler
    never throws.  It calls [next()] without a verification exactly when no
    route matches the path; it calls [next()] with a verification only when
    that verification is valid; it answers with status 400, 402 or 500 and
    nothing else, and with 500 exactly when the route look-up itself throws
    (the regular-expression engine rejects a key). *)
Theorem gateway_outcomes
  (E : Facilitator.Env) (payTo : string) (routes : Facilitator.PaymentRoutes)
  (req : Facilitator.Request) (w : Facilitator.World) :
  exists outcome w',
    Facilitator.createPaymentMiddleware E payTo routes req w = (Ok outcome, w') /\
    (outcome = Facilitator.Next None <->
     Facilitator.findMatchingRoute E req.(Facilitator.path) routes = Ok None) /\
    (forall v, outcome = Facilitator.Next (Some v) -> v.(isValid) = true) /\
    ((exists body, outcome = Facilitator.Respond 500 body) <->
     (exists e, Facilitator.findMatchingRoute E req.(Facilitator.path) routes = Throw e)) /\
    (forall status body, outcome = Facilitator.Respond status body -> gateway_status status).
Proof.
  destruct (Facilitator.findMatchingRoute E (Facilitator.path req) routes)
    as [[route |] | e] eqn:found.
  - rewrite (middleware_priced E payTo routes req w found).
    assert (fresh : forall text w0,
               exists outcome w',
                 (Ok (challenge E payTo route text w0), tick w0) = (Ok outcome, w') /\
                 (outcome = Facilitator.Next None <->
                  Ok (Some route) = @Ok (option Facilitator.PaymentRoute) None) /\
                 (forall v, outcome = Facilitator.Next (Some v) -> isValid v = true) /\
                 ((exists body, outcome = Facilitator.Respond 500 body) <->
                  (exists e, Ok (Some route) = @Throw (option Facilitator.PaymentRoute) e)) /\
                 (forall status body,
                     outcome = Facilitator.Respond status body -> gateway_status status)).
    { intros text w0. do 2 eexists. split; [reflexivity |]. unfold challenge.
      repeat split; try discriminate.
      - intros (body & H); discriminate H.
      - intros (e & H); discriminate H.
      - intros status body [= <- _]. right; left; reflexivity. }
    destruct (Facilitator.x_payment req) as [header |]; [| apply fresh].
    destruct (header =? EmptyString)%string; [apply fresh |].
    destruct (Facilitator.JSON_parse E header) as [paymentRequest | m].
    + destruct (processPayment_total E Facilitator.middleware_config paymentRequest w)
        as (v & w1 & run).
      rewrite run. destruct (isValid v) eqn:valid; [| apply fresh].
      do 2 eexists. split; [reflexivity |].
      repeat split; try discriminate.
      * intros v' [= <-]. exact valid.
      * intros (body & H); discriminate H.
      * intros (e & H); discriminate H.
    + do 2 eexists. split; [reflexivity |].
      repeat split; try discriminate.
      * intros (body & H); discriminate H.
      * intros (e & H); discriminate H.
      * intros status body [= <- _]. left; reflexivity.
  - unfold Facilitator.createPaymentMiddleware, try_catch, bind, lift. rewrite found.
    do 2 eexists. split; [reflexivity |].
    repeat split; try discriminate; try reflexivity.
    + intros (body & H); discriminate H.
    + intros (e & H); discriminate H.
  - unfold Facilitator.createPaymentMiddleware, try_catch, bind, lift. rewrite found.
    do 2 eexists. split; [reflexivity |].
    repeat split; try discriminate.
    + intros _. now exists e.
    + intros _. eexists; reflexivity.
    + intros status body [= <- _]. right; right; reflexivity.
Qed.

(** X6 — The gateway of [payment-middleware.ts] never reaches the ledger: its
    facilitator is built in mock mode, so whatever the request and the proof,
    nothing is handed to the ledger and no confirmation is waited for, also
    when the request is admitted. *)
Theorem gateway_never_reaches_ledger
  (E : Facilitator.Env) (payTo : string) (routes : Facilitator.PaymentRoutes)
  (req : Facilitator.Request) (w : Facilitator.World) :
  (snd (Facilitator.createPaymentMiddleware E payTo routes req w)).(Facilitator.submitted)
    = w.(Facilitator.submitted) /\
  (snd (Facilitator.createPaymentMiddleware E payTo routes req w)).(Facilitator.awaited)
    = w.(Facilitator.awaited).
Proof. apply untouched_createPaymentMiddleware. Qed.

(** What the handler of the test server does on a priced route. *)
Lemma custom_priced (E : Facilitator.Env) (payTo : string)
  (routes : Facilitator.PaymentRoutes) (req : Facilitator.Request)
  (route : Facilitator.PaymentRoute) (w : Facilitator.World) :
  TestServer.findMatchingRoute E req.(Facilitator.path) routes = Ok (Some route) ->
  TestServer.customPaymentMiddleware E payTo routes req w =
  match req.(Facilitator.x_payment) with
  | None =>
      (Ok (challenge E payTo route "Payment required to access this resource" w), tick w)
  | Some paymentHeader =>
      if (paymentHeader =? EmptyString)%string
      then (Ok (challenge E payTo route "Payment required to access this resource" w), tick w)
      else
        match E.(Facilitator.JSON_parse) paymentHeader with
        | SyntaxError _ =>
            (Ok (Facilitator.Respond 400
                   (Facilitator.BodyError "Invalid payment header format")), w)
        | ParseOk paymentRequest =>
            let (r, w1) :=
              Facilitator.processPayment E TestServer.custom_config paymentRequest w in
            match r with
            | Ok v =>
                if v.(isValid)
                then (Ok (Facilitator.Next (Some v)), w1)
                else (Ok (challenge E payTo route
                            ("Payment verification failed: " ++ reason v) w1), tick w1)
            | Throw _ =>
                (Ok (Facilitator.Respond 500
                       (Facilitator.BodyError "Internal server error in payment processing")),
                 w1)
            end
        end
  end.
Proof.
  intros found.
  unfold TestServer.customPaymentMiddleware, try_catch, bind at 1, lift. rewrite found.
  destruct (Facilitator.x_payment req) as [paymentHeader |]; [| reflexivity].
  destruct (paymentHeader =? EmptyString)%string; [reflexivity |].
  destruct (Facilitator.JSON_parse E paymentHeader) as [paymentRequest | m]; [| reflexivity].
  unfold bind.
  destruct (Facilitator.processPayment E TestServer.custom_config paymentRequest w)
    as [[v | e] w1]; [| reflexivity].
  destruct (isValid v); reflexivity.
Qed.

(** X7 — The handler of the test server, whose facilitator verifies against
    the ledger.  It never throws; it admits a request only with a valid
    verification; and handling one request hands at most one transaction to
    the ledger, none at all unless a route matches and the request carries a
    header that is parseable JSON. *)
Theorem custom_gateway_submits_at_most_once
  (E : Facilitator.Env) (payTo : string) (routes : Facilitator.PaymentRoutes)
  (req : Facilitator.Request) (w : Facilitator.World) :
  exists outcome w' d,
    TestServer.customPaymentMiddleware E payTo routes req w = (Ok outcome, w') /\
    (d <= 1)%nat /\
    handed_over w' = (handed_over w + d)%nat /\
    (d = 1%nat ->
     exists route header paymentRequest,
       TestServer.findMatchingRoute E req.(Facilitator.path) routes = Ok (Some route) /\
       req.(Facilitator.x_payment) = Some header /\
       E.(Facilitator.JSON_parse) header = ParseOk paymentRequest) /\
    (forall v, outcome = Facilitator.Next (Some v) -> v.(isValid) = true) /\
    (forall status body, outcome = Facilitator.Respond status body -> gateway_status status).
Proof.
  destruct (TestServer.findMatchingRoute E (Facilitator.path req) routes)
    as [[route |] | e] eqn:found.
  - rewrite (custom_priced E payTo routes req w found).
    assert (fresh : forall text,
               exists outcome w' d,
                 (Ok (challenge E payTo route text w), tick w) = (Ok outcome, w') /\
                 (d <= 1)%nat /\
                 handed_over w' = (handed_over w + d)%nat /\
                 (d = 1%nat ->
                  exists route0 header paymentRequest,
                    Ok (Some route) = Ok (Some route0) /\
                    Facilitator.x_payment req = Some header /\
                    Facilitator.JSON_parse E header = ParseOk paymentRequest) /\
                 (forall v, outcome = Facilitator.Next (Some v) -> isValid v = true) /\
                 (forall status body,
                     outcome = Facilitator.Respond status body -> gateway_status status)).
    { intros text. exists (challenge E payTo route text w), (tick w), 0%nat.
      split; [reflexivity |]. split; [lia |]. split; [unfold handed_over, tick; cbn [Facilitator.submitted]; lia |].
      split; [discriminate |]. split; [discriminate |].
      intros status body [= <- _]. right; left; reflexivity. }
    destruct (Facilitator.x_payment req) as [header |] eqn:Hheader; [| apply fresh].
    destruct (header =? EmptyString)%string; [apply fresh |].
    destruct (Facilitator.JSON_parse E header) as [paymentRequest | m] eqn:parse.
    + destruct (counted_processPayment E TestServer.custom_config paymentRequest)
        as (d & Hd & count).
      specialize (count w).
      destruct (processPayment_total E TestServer.custom_config paymentRequest w)
        as (v & w1 & run).
      rewrite run in *. cbn [snd] in count.
      assert (reached : d = 1%nat ->
                exists route0 header0 paymentRequest0,
                  Ok (Some route) = Ok (Some route0) /\
                  Some header = Some header0 /\
                  Facilitator.JSON_parse E header0 = ParseOk paymentRequest0)
        by (intros _; now exists route, header, paymentRequest).
      destruct (isValid v) eqn:valid.
      * exists (Facilitator.Next (Some v)), w1, d.
        repeat split; try assumption; try discriminate.
        intros v' [= <-]. exact valid.
      * exists (challenge E payTo route ("Payment verification failed: " ++ reason v) w1),
          (tick w1), d.
        repeat split; try assumption; try discriminate.
        intros status body [= <- _]. right; left; reflexivity.
    + exists (Facilitator.Respond 400 (Facilitator.BodyError "Invalid payment header format")),
        w, 0%nat.
      split; [reflexivity |]. split; [lia |]. split; [unfold handed_over, tick; cbn [Facilitator.submitted]; lia |].
      split; [discriminate |]. split; [discriminate |].
      intros status body [= <- _]. left; reflexivity.
  - unfold TestServer.customPaymentMiddleware, try_catch, bind, lift. rewrite found.
    exists (Facilitator.Next None), w, 0%nat.
    split; [reflexivity |]. split; [lia |]. split; [unfold handed_over, tick; cbn [Facilitator.submitted]; lia |].
    repeat split; discriminate.
  - unfold TestServer.customPaymentMiddleware, try_catch, bind, lift. rewrite found.
    eexists; exists w, 0%nat.
    split; [reflexivity |]. split; [lia |]. split; [unfold handed_over, tick; cbn [Facilitator.submitted]; lia |].
    split; [discriminate |]. split; [discriminate |].
    intros status body [= <- _]. right; right; reflexivity.
Qed.

(** ** Live verification *)

(** X8 — Wallet message signatures are refused in live mode.  When the
    transaction of a proof is an object with the prefix ["APTOS"] and a
    message, and the signature is a hex text (or parseable JSON), the
    facilitator hands nothing to the ledger and returns an invalid result
    whose error says that real mode requires actual blockchain
    transactions. *)
Theorem wallet_message_refused
  (E : Facilitator.Env) (config : Facilitator.FacilitatorConfig)
  (p : Facilitator.PaymentRequest) (fields : list (string * JValue)) (message : JValue)
  (w : Facilitator.World) :
  Facilitator.mock_enabled config = false ->
  E.(Facilitator.JSON_parse) p.(Facilitator.transaction) = ParseOk (JObj fields) ->
  lookup "prefix" fields = Some (JStr "APTOS") ->
  lookup "message" fields = Some message ->
  truthy message = true ->
  (prefix "0x" p.(Facilitator.signature) = true \/
   exists s, E.(Facilitator.JSON_parse) p.(Facilitator.signature) = ParseOk s) ->
  Facilitator.processPayment E config (Facilitator.to_js p) w =
  (Ok {| isValid := false;
         transactionHash := None;
         error := Some ("Failed to submit transaction: " ++
                        "Real mode requires actual blockchain transactions, not wallet message signatures. Please use X402Client to create proper Aptos transactions.");
         verifiedAt := E.(Facilitator.Date_now) w.(Facilitator.ticks) |},
   tick w).
Proof.
  intros live parse Hprefix Hmessage Htruthy Hsignature.
  rewrite processPayment_live with (tx := JObj fields) by assumption.
  assert (thrown :
    Facilitator.submitTransaction_try E (JObj fields) (JStr (Facilitator.signature p)) w =
    (Throw (Error "Real mode requires actual blockchain transactions, not wallet message signatures. Please use X402Client to create proper Aptos transactions."), w)).
  { unfold Facilitator.submitTransaction_try, try_catch, bind, lift, ret, throw.
    cbn [is_string get_prop].
    rewrite Hprefix, Hmessage.
    destruct Hsignature as [hex | (s & parse_s)].
    - rewrite hex. cbn [Facilitator.strict_eq_string]. rewrite Htruthy. reflexivity.
    - destruct (prefix "0x" (Facilitator.signature p)).
      + cbn [Facilitator.strict_eq_string]. rewrite Htruthy. reflexivity.
      + unfold Facilitator.JSON_parse_value. cbn [js_ToString]. rewrite parse_s.
        cbn [Facilitator.strict_eq_string]. rewrite Htruthy. reflexivity. }
  unfold Facilitator.submitTransaction, try_catch. rewrite thrown.
  unfold Facilitator.submitTransaction_catch.
  replace (exn_message_includes "timeout"
             (Error "Real mode requires actual blockchain transactions, not wallet message signatures. Please use X402Client to create proper Aptos transactions.") ||
           exn_message_includes "confirmation"
             (Error "Real mode requires actual blockchain transactions, not wallet message signatures. Please use X402Client to create proper Aptos transactions."))
    with false by (vm_compute; reflexivity).
  reflexivity.
Qed.

Lemma wallet_message_refused_witness :
  exists v,
    Facilitator.processPayment quoting_runtime live_config
      (Facilitator.to_js wallet_message_proof) Facilitator.initial_world
      = (Ok v, tick Facilitator.initial_world) /\
    v.(isValid) = false.
Proof.
  eexists. split.
  - apply (@wallet_message_refused quoting_runtime live_config wallet_message_proof
             [("prefix", JStr "APTOS"); ("message", JStr "pay 1000000")]
             (JStr "pay 1000000") Facilitator.initial_world);
      try reflexivity.
    left. reflexivity.
  - reflexivity.
Defined.



(** ** Where a hash comes from *)

Section Provenance.

Import Facilitator.

Variable E : Env.

Lemma settles_throw (e : Exn) : settles E (throw e).
Proof. intros w h w' H. discriminate H. Qed.

Lemma settles_bind_pure {A : Type} (m : M World A) (k : A -> M World string) :
  pure m -> (forall x, settles E (k x)) -> settles E (bind m k).
Proof.
  intros [r Hm] Hk w h w'. unfold bind. rewrite Hm.
  destruct r as [x | e]; [apply Hk | discriminate].
Qed.

Ltac depends_on_nothing :=
  repeat first
    [ apply pure_ret | apply pure_throw | apply pure_lift
    | apply pure_if
    | apply pure_bind; [| intros ?]
    | apply pure_try_catch; [| intros ?]
    | match goal with
      | |- pure (match ?x with _ => _ end) => destruct x
      end ].

Lemma settles_submitTransaction_try (transaction signature : JValue) :
  settles E (submitTransaction_try E transaction signature).
Proof.
  unfold submitTransaction_try.
  apply settles_bind_pure; [depends_on_nothing | intros parsedTransaction].
  apply settles_bind_pure; [depends_on_nothing | intros parsedSignature].
  apply settles_bind_pure; [depends_on_nothing | intros prefix_].
  apply settles_bind_pure; [depends_on_nothing | intros walletMessage].
  destruct walletMessage; [apply settles_throw |].
  apply settles_bind_pure; [depends_on_nothing | intros rawTransaction].
  apply settles_bind_pure; [depends_on_nothing | intros toSubmit].
  cbv zeta.
  apply settles_bind_pure; [depends_on_nothing | intros _].
  apply settles_bind_pure; [depends_on_nothing | intros payload].
  apply settles_bind_pure; [depends_on_nothing | intros _].
  apply settles_bind_pure; [depends_on_nothing | intros entryFunction].
  intros w h w'.
  unfold bind, lift, post_transaction, submit_sdk, wait_confirmation, ret, throw, settled.
  destruct (truthy rawTransaction && is_object rawTransaction && truthy entryFunction).
  - destruct (submissionPayload_of E parsedTransaction (fst toSubmit) (snd toSubmit))
      as [submissionPayload | e]; [| discriminate].
    destruct (fetch_transactions E (List.length (submitted w)) submissionPayload)
      as [restResponse | e] eqn:posted; [| discriminate].
    destruct (rest_ok restResponse) eqn:ok; cbn [negb]; [| discriminate].
    cbn [submitted awaited ticks].
    destruct (waitForTransaction E (List.length (awaited w)) (rest_hash restResponse))
      as [[] | e] eqn:waited; [| discriminate].
    intros [= <- <-]. cbn [submitted awaited ticks].
    split; [| reflexivity].
    exists (ViaRest submissionPayload). repeat split; try assumption.
    exists restResponse. auto.
  - destruct (submit_simple E (List.length (submitted w)) (fst toSubmit) (snd toSubmit))
      as [transactionHash | e] eqn:sent; [| discriminate].
    cbn [submitted awaited ticks].
    destruct (waitForTransaction E (List.length (awaited w)) transactionHash)
      as [[] | e] eqn:waited; [| discriminate].
    intros [= <- <-]. cbn [submitted awaited ticks].
    split; [| reflexivity].
    exists (ViaSdk (fst toSubmit) (snd toSubmit)). repeat split; assumption.
Qed.

(** What a hash returned by [submitTransaction] stands for. *)
Lemma provenance_submitTransaction (transaction signature : JValue) (w w' : World) (h : string) :
  submitTransaction E transaction signature w = (Ok h, w') ->
  settled E w w' h \/
  exists error w0,
    submitTransaction_try E transaction signature w = (Throw error, w0) /\
    timeout_like error = true /\
    h = timeout_hash E transaction error w0 /\
    submitted w' = submitted w0 /\
    awaited w' = awaited w0.
Proof.
  unfold submitTransaction, try_catch.
  destruct (submitTransaction_try E transaction signature w) as [[h0 | e] w0] eqn:tried.
  - intros [= <- <-]. apply settles_submitTransaction_try in tried. left. apply tried.
  - unfold submitTransaction_catch, timeout_hash.
    destruct (exn_message_includes "timeout" e || exn_message_includes "confirmation" e)
      eqn:taken; [| discriminate].
    intros caught. right. exists e, w0. split; [reflexivity |]. split; [exact taken |].
    revert caught. unfold bind, now, ret.
    destruct (exn_transactionHash e) as [h0 |];
      [destruct (h0 =? EmptyString)%string |];
      intros [= <- <-]; cbn [submitted awaited]; auto.
Qed.

Lemma traced_createRealVerification (paymentRequest : JValue) (w w' : World)
  (v : PaymentVerification) :
  createRealVerification E paymentRequest w = (Ok v, w') ->
  v.(isValid) = true ->
  exists h, v.(transactionHash) = Some h /\ provenance E paymentRequest w w' h.
Proof.
  unfold createRealVerification, try_catch.
  match goal with
  | |- match ?body w with _ => _ end = _ -> _ =>
      destruct (body w) as [[v0 | e] w0] eqn:run
  end.
  - intros [= <- <-] valid. revert run.
    unfold bind at 1, lift.
    destruct (get_prop paymentRequest "address") as [address0 | e]; [| discriminate].
    unfold bind at 1, lift.
    destruct (get_prop paymentRequest "transaction") as [text | e] eqn:Htext;
      [| discriminate].
    unfold bind at 1, lift.
    destruct (JSON_parse_value E text) as [transaction | e] eqn:parsed; [| discriminate].
    unfold bind at 1, lift.
    destruct (get_prop paymentRequest "signature") as [signature | e] eqn:Hsignature;
      [| discriminate].
    unfold bind at 1, lift.
    destruct (get_prop paymentRequest "publicKey") as [publicKey | e]; [| discriminate].
    unfold bind at 1, lift.
    unfold bind at 1, verifySignature, try_catch, ret. cbn [negb].
    unfold bind at 1, lift.
    unfold bind at 1.
    destruct (submitTransaction E transaction signature w) as [[h | e] w1] eqn:submitted_;
      [| discriminate].
    unfold bind, now, ret. intros [= <- <-]. cbn [isValid transactionHash].
    exists h. split; [reflexivity |].
    destruct (provenance_submitTransaction _ _ _ submitted_)
      as [(s & ? & ? & ? & ?) | (error & w2 & tried & taken & named & same_s & same_a)].
    + left. exists s. cbn [submitted awaited]. auto.
    + right. exists text, transaction, signature, error, w2.
      cbn [submitted awaited]. repeat split; assumption.
  - unfold bind, now, ret. intros [= <- _] valid. discriminate valid.
Qed.

Lemma traced_processPayment (config : FacilitatorConfig) (paymentRequest : JValue)
  (w w' : World) (v : PaymentVerification) :
  mock_enabled config = false ->
  processPayment E config paymentRequest w = (Ok v, w') ->
  v.(isValid) = true ->
  exists h, v.(transactionHash) = Some h /\ provenance E paymentRequest w w' h.
Proof.
  intros live. unfold processPayment. rewrite live. cbn [negb].
  unfold try_catch at 1, bind at 1, lift.
  destruct (get_prop paymentRequest "address") as [address | e].
  - destruct (createRealVerification E paymentRequest w) as [[v0 | e] w0] eqn:run.
    + intros [= <- <-]. now apply traced_createRealVerification.
    + unfold bind, now, ret. intros [= <- _] valid. discriminate valid.
  - unfold bind, now, ret. intros [= <- _] valid. discriminate valid.
Qed.

End Provenance.

(** X10 — Where the hash of a valid live result comes from.  In live mode,
    whenever [processPayment] returns a valid result, the result carries a
    hash, and one of two things happened in that call.  Either exactly one
    transaction was handed to the ledger, the ledger accepted it under that
    hash, and the wait for the confirmation of that hash ended well.  Or
    the [try] block of [submitTransaction], run on the parsed transaction
    and the signature of this request, threw an error whose message
    contains ["timeout"] or ["confirmation"]; the hash is then the one that
    error carries or, failing that, one made up from the transaction and
    the clock, and no confirmation stands behind it. *)
Theorem live_hash_provenance
  (E : Facilitator.Env) (config : Facilitator.FacilitatorConfig) (paymentRequest : JValue)
  (w w' : Facilitator.World) (v : PaymentVerification) :
  Facilitator.mock_enabled config = false ->
  Facilitator.processPayment E config paymentRequest w = (Ok v, w') ->
  v.(isValid) = true ->
  exists h, v.(transactionHash) = Some h /\ provenance E paymentRequest w w' h.
Proof.
  intros live run valid.
  exact (@traced_processPayment E config paymentRequest w w' v live run valid).
Qed.

Lemma live_hash_provenance_witness :
  exists w',
    provenance accepting_ledger (Facilitator.to_js short_proof)
      Facilitator.initial_world w' sample_hash.
Proof.
  destruct (@live_hash_provenance accepting_ledger live_config
              (Facilitator.to_js short_proof) Facilitator.initial_world
              _ _ eq_refl eq_refl eq_refl) as (h & named & origin).
  injection named as <-.
  eexists. exact origin.
Defined.

(** ** The time of verification *)

Section Stamp.

Import Facilitator.

Variable E : Env.

Lemma stamped_now_ret (valid : bool) (h : option string) (text : option string) :
  stamped E (bind (now E) (fun t =>
               ret {| isValid := valid; transactionHash := h;
                      error := text; verifiedAt := t |})).
Proof.
  intros w v w'. unfold bind, now, ret. intros [= <- <-].
  exists (ticks w). cbn [ticks verifiedAt]. auto.
Qed.

Lemma stamped_bind {A : Type} (m : M World A) (k : A -> M World PaymentVerification) :
  later m -> (forall x, stamped E (k x)) -> stamped E (bind m k).
Proof.
  intros Hm Hk w v w'. unfold bind. specialize (Hm w).
  destruct (m w) as [[x | e] w0]; [| discriminate].
  intros run. destruct (Hk _ _ _ _ run) as (n & ? & ? & ?).
  exists n. cbn [snd] in Hm. repeat split; try assumption. lia.
Qed.

Lemma stamped_try_catch (m : M World PaymentVerification)
  (h : Exn -> M World PaymentVerification) :
  stamped E m -> later m -> (forall e, stamped E (h e)) -> stamped E (try_catch m h).
Proof.
  intros Hm Lm Hh w v w'. unfold try_catch. specialize (Lm w).
  destruct (m w) as [[v0 | e] w0] eqn:run.
  - intros [= <- <-]. exact (Hm _ _ _ run).
  - intros caught. destruct (Hh _ _ _ _ caught) as (n & ? & ? & ?).
    exists n. cbn [snd] in Lm. repeat split; try assumption. lia.
Qed.

Lemma stamped_if (c : bool) (m1 m2 : M World PaymentVerification) :
  stamped E m1 -> stamped E m2 -> stamped E (if c then m1 else m2).
Proof. destruct c; auto. Qed.

Ltac advancing :=
  repeat first
    [ apply later_ret | apply later_throw | apply later_lift
    | apply later_now | apply later_wait | apply later_post | apply later_sdk
    | apply later_if
    | apply later_bind; [| intros ?]
    | apply later_try_catch; [| intros ?]
    | match goal with
      | |- later (match ?x with _ => _ end) => destruct x
      | |- later (let _ := _ in _) => cbv zeta
      end ].

Ltac stamping :=
  repeat first
    [ apply stamped_now_ret
    | apply stamped_if
    | apply stamped_bind; [advancing | intros ?]
    | apply stamped_try_catch; [| advancing | intros ?] ].

Lemma later_submitTransaction (transaction signature : JValue) :
  later (submitTransaction E transaction signature).
Proof.
  unfold submitTransaction, submitTransaction_try, submitTransaction_catch. advancing.
Qed.

Lemma later_createRealVerification_body (paymentRequest : JValue) :
  later (createRealVerification E paymentRequest).
Proof.
  unfold createRealVerification, submitTransaction, submitTransaction_try,
    submitTransaction_catch, verifySignature.
  advancing.
Qed.

Lemma stamped_processPayment (config : FacilitatorConfig) (paymentRequest : JValue) :
  stamped E (processPayment E config paymentRequest).
Proof.
  unfold processPayment.
  apply stamped_try_catch; [| | intros error; apply stamped_now_ret].
  - apply stamped_bind; [advancing | intros _].
    apply stamped_if.
    + unfold createRealVerification.
      apply stamped_try_catch; [| | intros error; apply stamped_now_ret].
      * do 6 (apply stamped_bind; [advancing | intros ?]).
        apply stamped_bind; [unfold verifySignature; advancing | intros ?].
        apply stamped_if; [apply stamped_now_ret |].
        apply stamped_bind; [advancing | intros ?].
        apply stamped_bind; [apply later_submitTransaction | intros ?].
        apply stamped_now_ret.
      * unfold submitTransaction, submitTransaction_try,
          submitTransaction_catch, verifySignature.
        advancing.
    + do 5 (apply stamped_bind; [advancing | intros ?]).
      apply stamped_bind; [unfold verifySignature; advancing | intros ?].
      apply stamped_if; [apply stamped_now_ret |].
      apply stamped_bind; [advancing | intros ?].
      apply stamped_bind; [advancing | intros ?].
      apply stamped_bind; [advancing | intros ?].
      cbv zeta. apply stamped_now_ret.
  - unfold createRealVerification, submitTransaction, submitTransaction_try,
      submitTransaction_catch, verifySignature.
    advancing.
Qed.

End Stamp.

(** X11 — The time of verification is the last reading of the clock.
    Whatever the mode, the input and the ledger do, [processPayment] returns
    a result whose [verifiedAt] is the value of the last reading of the
    clock made during the call: it is taken after the submission and the
    wait for the confirmation, and after the reading that enters a hash
    the facilitator makes up. *)
Theorem verifiedAt_is_last_reading
  (E : Facilitator.Env) (config : Facilitator.FacilitatorConfig) (paymentRequest : JValue)
  (w : Facilitator.World) :
  exists v w' n,
    Facilitator.processPayment E config paymentRequest w = (Ok v, w') /\
    (w.(Facilitator.ticks) <= n)%nat /\
    w'.(Facilitator.ticks) = S n /\
    v.(verifiedAt) = E.(Facilitator.Date_now) n.
Proof.
  destruct (processPayment_total E config paymentRequest w) as (v & w' & run).
  destruct (@stamped_processPayment E config paymentRequest w v w' run) as (n & ? & ? & ?).
  exists v, w', n. auto.
Qed.

(** ** The endpoints of the facilitator's server *)

Lemma get_prop_throws (v : JValue) (k : string) :
  (exists e, get_prop v k = Throw e) <-> v = JNull \/ v = JUndefined.
Proof.
  split.
  - intros [e H]. destruct v; try discriminate H; auto.
  - intros [-> | ->]; eexists; reflexivity.
Qed.

Lemma get_prop_returns (v : JValue) (k : string) :
  v <> JNull -> v <> JUndefined -> exists x, get_prop v k = Ok x.
Proof.
  intros not_null not_undefined.
  destruct v; try (eexists; reflexivity); congruence.
Qed.

(** X12 — [POST /verify] never fails on a proof it can read.  The endpoint
    always answers, with 200 or 500, and makes no look-up.  It answers 500
    exactly when the body is [null] or [undefined]; the result it sends
    then is invalid and the facilitator was not called.  For every other
    body it answers 200 with the result of [processPayment], valid or not:
    a rejected proof is reported with status 200. *)
Theorem verify_endpoint_status
  (E : Facilitator.Env) (config : Facilitator.FacilitatorConfig)
  (body : JValue) (w : FacilitatorServer.World) :
  exists status v w',
    FacilitatorServer.verify E config body w = (Ok (status, v), w') /\
    w'.(FacilitatorServer.lookups) = w.(FacilitatorServer.lookups) /\
    populated v /\
    (status = 500%Z <-> body = JNull \/ body = JUndefined) /\
    (status = 500%Z ->
       v.(isValid) = false /\
       w'.(FacilitatorServer.facilitator) = tick w.(FacilitatorServer.facilitator)) /\
    (status <> 500%Z ->
       status = 200%Z /\
       Facilitator.processPayment E config body w.(FacilitatorServer.facilitator)
       = (Ok v, w'.(FacilitatorServer.facilitator))).
Proof.
  assert (cases : body = JNull \/ body = JUndefined \/
                  (body <> JNull /\ body <> JUndefined)).
  { destruct body; auto; right; right; split; discriminate. }
  unfold FacilitatorServer.verify, try_catch, bind, lift, ret,
    FacilitatorServer.in_facilitator.
  destruct cases as [-> | [-> | [not_null not_undefined]]].
  - unfold Facilitator.now. eexists 500%Z, _, _. split; [reflexivity |].
    cbn [FacilitatorServer.lookups FacilitatorServer.facilitator isValid].
    split; [reflexivity |]. split; [split; [eexists |]; reflexivity |].
    split; [split; auto |]. split; [auto |].
    intros differs. now elim differs.
  - unfold Facilitator.now. eexists 500%Z, _, _. split; [reflexivity |].
    cbn [FacilitatorServer.lookups FacilitatorServer.facilitator isValid].
    split; [reflexivity |]. split; [split; [eexists |]; reflexivity |].
    split; [split; auto |]. split; [auto |].
    intros differs. now elim differs.
  - destruct (get_prop_returns "address" not_null not_undefined) as [x ->].
    destruct (get_prop_returns "transaction" not_null not_undefined) as [y ->].
    destruct (processPayment_total E config body w.(FacilitatorServer.facilitator))
      as (v & f' & run).
    rewrite run.
    eexists 200%Z, v, _. split; [reflexivity |].
    cbn [FacilitatorServer.lookups FacilitatorServer.facilitator].
    split; [reflexivity |].
    split; [exact (@returns_populated_processPayment E config _ _ _ _ run) |].
    split; [split; [discriminate | intros [-> | ->]; congruence] |].
    split; [discriminate |].
    intros _. split; reflexivity.
Qed.

(** X13 — [GET /transaction/:hash].  [isTransactionConfirmed] never throws.
    In mock mode the endpoint answers 200 with [confirmed: true] without
    looking anything up.  In live mode it looks the hash up twice; the
    answer is 500 exactly when the second look-up throws, with the message
    of that error; a first look-up that throws or finds [null] only makes
    [confirmed] false in a 200 answer that carries the details the second
    look-up found. *)
Theorem transaction_endpoint_status
  (E : Facilitator.Env) (getTransactionByHash : nat -> string -> Res JValue)
  (config : Facilitator.FacilitatorConfig) (hash : string) (w : FacilitatorServer.World) :
  (exists b w', FacilitatorServer.isTransactionConfirmed getTransactionByHash config hash w
                = (Ok b, w')) /\
  (Facilitator.mock_enabled config = true ->
     exists details,
       FacilitatorServer.transaction_status E getTransactionByHash config hash w =
       (Ok (200%Z, FacilitatorServer.TransactionStatus hash true details),
        {| FacilitatorServer.facilitator := tick w.(FacilitatorServer.facilitator);
           FacilitatorServer.lookups := w.(FacilitatorServer.lookups) |})) /\
  (Facilitator.mock_enabled config = false ->
     let first := getTransactionByHash w.(FacilitatorServer.lookups) hash in
     let second := getTransactionByHash (S w.(FacilitatorServer.lookups)) hash in
     let confirmed :=
       match first with Ok JNull | Throw _ => false | Ok _ => true end in
     FacilitatorServer.transaction_status E getTransactionByHash config hash w =
     (Ok match second with
         | Ok details => (200%Z, FacilitatorServer.TransactionStatus hash confirmed details)
         | Throw error =>
             (500%Z, FacilitatorServer.TransactionError (message_or "Unknown error" error))
         end,
      {| FacilitatorServer.facilitator := w.(FacilitatorServer.facilitator);
         FacilitatorServer.lookups := S (S w.(FacilitatorServer.lookups)) |})).
Proof.
  split; [| split].
  - unfold FacilitatorServer.isTransactionConfirmed, try_catch, bind, ret,
      FacilitatorServer.lookup_transaction.
    destruct (Facilitator.mock_enabled config); [eexists; eexists; reflexivity |].
    destruct (getTransactionByHash _ hash); eexists; eexists; reflexivity.
  - intros mock. eexists.
    unfold FacilitatorServer.transaction_status, FacilitatorServer.isTransactionConfirmed,
      FacilitatorServer.getTransactionDetails, try_catch, bind, ret,
      FacilitatorServer.in_facilitator, Facilitator.now.
    rewrite mock. reflexivity.
  - intros live. cbv zeta.
    unfold FacilitatorServer.transaction_status, FacilitatorServer.isTransactionConfirmed,
      FacilitatorServer.getTransactionDetails, try_catch, bind, ret, throw,
      FacilitatorServer.lookup_transaction.
    rewrite live.
    destruct (getTransactionByHash (FacilitatorServer.lookups w) hash) as [first | e1];
      cbn [FacilitatorServer.lookups FacilitatorServer.facilitator];
      destruct (getTransactionByHash (S (FacilitatorServer.lookups w)) hash)
        as [second | e2];
      try reflexivity;
      destruct first; reflexivity.
Qed.

(** ** The server's handler and the facilitator *)

Section Relay.

Import Server.

Variable E : Env.
Variable config : ServerConfig.

(** [verifyPayment] outside mock mode on a header that parses. *)
Lemma verifyPayment_live (header : string) (paymentRequest : JValue) (w : World) :
  config.(mockMode) <> Some true ->
  E.(JSON_parse) header = ParseOk paymentRequest ->
  verifyPayment E config header w =
  match relayed_fields paymentRequest with
  | Some body =>
      match E.(post_verify) (List.length w.(posted))
              (config.(facilitatorUrl) ++ "/verify") body with
      | Ok answer =>
          (Ok answer,
           {| ticks := w.(ticks); randoms := w.(randoms); posted := body :: w.(posted) |})
      | Throw error =>
          (Ok {| isValid := false; transactionHash := None;
                 error := Some (message_or "Payment verification failed" error);
                 verifiedAt := E.(Date_now) w.(ticks) |},
           {| ticks := S w.(ticks); randoms := w.(randoms); posted := body :: w.(posted) |})
      end
  | None =>
      (Ok {| isValid := false; transactionHash := None;
             error := Some (match get_prop paymentRequest "transaction" with
                            | Throw error => message_or "Payment verification failed" error
                            | Ok _ => "Payment verification failed"
                            end);
             verifiedAt := E.(Date_now) w.(ticks) |},
       {| ticks := S w.(ticks); randoms := w.(randoms); posted := w.(posted) |})
  end.
Proof.
  intros live parse.
  unfold verifyPayment, try_catch, bind, lift, relayed_fields, axios_post.
  replace (match mockMode config with Some b => b | None => false end) with false
    by (destruct (mockMode config) as [[] |]; [now elim live | reflexivity | reflexivity]).
  rewrite parse.
  destruct paymentRequest; cbn [get_prop]; try reflexivity;
    match goal with
    | |- context [post_verify E ?n ?u ?b] => destruct (post_verify E n u b); reflexivity
    end.
Qed.

Lemma verifyPayment_total (header : string) (w : World) :
  exists v w', verifyPayment E config header w = (Ok v, w').
Proof.
  unfold verifyPayment, try_catch.
  match goal with |- context [match ?body w with _ => _ end] =>
    destruct (body w) as [[a | e] w0] end.
  - exists a, w0. reflexivity.
  - eexists; eexists. reflexivity.
Qed.

Lemma verifyPayment_posts_at_most_once (header : string) (w : World) :
  exists v w',
    verifyPayment E config header w = (Ok v, w') /\
    (List.length w'.(posted) <= List.length w.(posted) + 1)%nat.
Proof.
  unfold verifyPayment, try_catch, bind, lift, axios_post, createMockVerification, now, ret.
  destruct (match mockMode config with Some b => b | None => false end).
  - do 2 eexists. split; [reflexivity |]. cbn [posted]. lia.
  - destruct (JSON_parse E header) as [paymentRequest | m].
    + destruct paymentRequest; cbn [get_prop];
        try (do 2 eexists; split; [reflexivity |]; cbn [posted]; lia);
        match goal with
        | |- context [post_verify E ?n ?u ?b] =>
            destruct (post_verify E n u b);
            do 2 eexists; (split; [reflexivity |]); cbn [posted List.length]; lia
        end.
    + do 2 eexists. split; [reflexivity |]. cbn [posted]. lia.
Qed.

End Relay.

(** X14 — The server's handler relays the facilitator's answer.
    [verifyPayment] never throws.  It sends at most one request to the
    facilitator, and only outside mock mode, for a header that parses to a
    value with properties: the body sent holds the five fields of the proof
    and nothing else.  When the facilitator answers, the answer is returned
    as it is; when the request fails, the result is invalid and carries the
    message of the failure.  When nothing was sent, a valid result can only
    come from mock mode. *)
Theorem verifyPayment_relays_facilitator
  (E : Server.Env) (config : Server.ServerConfig) (header : string) (w : Server.World) :
  exists v w',
    Server.verifyPayment E config header w = (Ok v, w') /\
    ( (w'.(Server.posted) = w.(Server.posted) /\
       (v.(isValid) = true -> config.(Server.mockMode) = Some true))
      \/
      (exists paymentRequest body,
         config.(Server.mockMode) <> Some true /\
         E.(Server.JSON_parse) header = ParseOk paymentRequest /\
         relayed_fields paymentRequest = Some body /\
         w'.(Server.posted) = body :: w.(Server.posted) /\
         match E.(Server.post_verify) (List.length w.(Server.posted))
                 (config.(Server.facilitatorUrl) ++ "/verify") body with
         | Ok answer => v = answer
         | Throw failure =>
             v.(isValid) = false /\
             v.(error) = Some (message_or "Payment verification failed" failure)
         end) ).
Proof.
  destruct (config.(Server.mockMode)) as [[] |] eqn:mode.
  - rewrite verifyPayment_mock by exact mode.
    do 2 eexists. split; [reflexivity |]. left. split; reflexivity.
  - assert (live : Server.mockMode config <> Some true) by (rewrite mode; discriminate).
    rewrite <- mode.
    destruct (E.(Server.JSON_parse) header) as [paymentRequest | m] eqn:parse.
    + rewrite verifyPayment_live with (paymentRequest := paymentRequest) by assumption.
      destruct (relayed_fields paymentRequest) as [body |] eqn:fields.
      * destruct (Server.post_verify E (List.length (Server.posted w))
                    (Server.facilitatorUrl config ++ "/verify") body) as [answer | failure]
          eqn:reply;
          do 2 eexists; (split; [reflexivity |]); right;
          exists paymentRequest, body; rewrite reply; repeat split; auto.
      * do 2 eexists. split; [reflexivity |]. left. split; [reflexivity | discriminate].
    + rewrite verifyPayment_unparseable with (m := m) by assumption.
      do 2 eexists. split; [reflexivity |]. left. split; [reflexivity | discriminate].
  - assert (live : Server.mockMode config <> Some true) by (rewrite mode; discriminate).
    rewrite <- mode.
    destruct (E.(Server.JSON_parse) header) as [paymentRequest | m] eqn:parse.
    + rewrite verifyPayment_live with (paymentRequest := paymentRequest) by assumption.
      destruct (relayed_fields paymentRequest) as [body |] eqn:fields.
      * destruct (Server.post_verify E (List.length (Server.posted w))
                    (Server.facilitatorUrl config ++ "/verify") body) as [answer | failure]
          eqn:reply;
          do 2 eexists; (split; [reflexivity |]); right;
          exists paymentRequest, body; rewrite reply; repeat split; auto.
      * do 2 eexists. split; [reflexivity |]. left. split; [reflexivity | discriminate].
    + rewrite verifyPayment_unparseable with (m := m) by assumption.
      do 2 eexists. split; [reflexivity |]. left. split; [reflexivity | discriminate].
Qed.

(** X15 — The outcomes of the server's handler.  The handler never throws.
    It calls [next()] without a verification exactly when
    [isPaymentRequired] answers [false]; it calls [next()] with a
    verification only when that verification is valid; it answers with
    status 402 or 500 and nothing else, and with 500 exactly when the route
    look-up throws.  A request without a proof never reaches the
    facilitator, and no request reaches it more than once. *)
Theorem handler_outcomes
  (E : Server.Env) (config : Server.ServerConfig) (routes : Server.PaymentRoutes)
  (req : Server.Request) (w : Server.World) :
  let route := req.(Server.method) ++ " " ++ req.(Server.path) in
  exists outcome w',
    Server.createX402Middleware E config routes req w = (Ok outcome, w') /\
    (outcome = Server.Next None <-> Server.isPaymentRequired E route routes = Ok false) /\
    (forall v, outcome = Server.Next (Some v) -> v.(isValid) = true) /\
    ((exists body, outcome = Server.Respond 500 body) <->
     (exists e, Server.isPaymentRequired E route routes = Throw e)) /\
    (forall status body, outcome = Server.Respond status body -> handler_status status) /\
    (absent req.(Server.x_payment) = true -> w'.(Server.posted) = w.(Server.posted)) /\
    (List.length w'.(Server.posted) <= List.length w.(Server.posted) + 1)%nat.
Proof.
  cbv zeta.
  destruct (Server.isPaymentRequired E (Server.method req ++ " " ++ Server.path req) routes)
    as [[] | e] eqn:required.
  - destruct (isPaymentRequired_config E _ _ (route_not_inherited _ _) required) as [c found].
    destruct (absent (Server.x_payment req)) eqn:no_header.
    + rewrite (createX402Middleware_no_header E config routes req w required found no_header).
      do 2 eexists. split; [reflexivity |]. cbn [Server.posted].
      repeat split; try discriminate; try lia.
      * intros (body & H); discriminate H.
      * intros (e & H); discriminate H.
      * intros status body [= <- _]. left; reflexivity.
    + destruct (Server.x_payment req) as [header |] eqn:Hheader; [| discriminate no_header].
      cbn [absent] in no_header. apply String.eqb_neq in no_header.
      rewrite (createX402Middleware_header E config routes req w required found
                 Hheader no_header).
      destruct (verifyPayment_posts_at_most_once E config header w)
        as (v & w1 & run & bound).
      rewrite run. destruct (isValid v) eqn:valid.
      * do 2 eexists. split; [reflexivity |].
        repeat split; try discriminate; try exact bound.
        -- intros v' [= <-]. exact valid.
        -- intros (body & H); discriminate H.
        -- intros (e & H); discriminate H.
      * do 2 eexists. split; [reflexivity |]. cbn [Server.posted].
        repeat split; try discriminate; try exact bound.
        -- intros (body & H); discriminate H.
        -- intros (e & H); discriminate H.
        -- intros status body [= <- _]. left; reflexivity.
  - unfold Server.createX402Middleware, try_catch, bind, lift. rewrite required.
    do 2 eexists. split; [reflexivity |].
    repeat split; try discriminate; try reflexivity; try lia.
    + intros (body & H); discriminate H.
    + intros (e & H); discriminate H.
  - unfold Server.createX402Middleware, try_catch, bind, lift. rewrite required.
    do 2 eexists. split; [reflexivity |].
    repeat split; try discriminate; try reflexivity; try lia.
    + intros _. now exists e.
    + intros _. eexists; reflexivity.
    + intros status body [= <- _]. right; reflexivity.
Qed.

(** ** The client's checks before it pays *)

Section Checks.

Import Client.

Variable E : Env.
Variable account : AptosAccount.
Variable config : X402ClientConfig.

Lemma validatePaymentPayload_eq (payload : JValue) (w : World) :
  validatePaymentPayload E payload w =
  match get_prop payload "amount", get_prop payload "token",
        get_prop payload "recipient", get_prop payload "deadline" with
  | Ok amount, Ok token, Ok recipient, Ok deadline =>
      if truthy amount && truthy token && truthy recipient && truthy deadline
      then
        match js_BigInt E amount with
        | Ok value =>
            if (value <=? 0)%Z then (Ok false, w)
            else (Ok (negb (js_le E deadline (E.(Date_now) w.(ticks)))), ticked w)
        | Throw _ => (Ok false, w)
        end
      else (Ok false, w)
  | _, _, _, _ => (Ok false, w)
  end.
Proof.
  unfold validatePaymentPayload, try_catch, bind, lift, now, ret, ticked.
  destruct (get_prop payload "amount") as [amount | e]; [| reflexivity].
  destruct (get_prop payload "token") as [token | e]; [| reflexivity].
  destruct (get_prop payload "recipient") as [recipient | e]; [| reflexivity].
  destruct (get_prop payload "deadline") as [deadline | e]; [| reflexivity].
  destruct (truthy amount), (truthy token), (truthy recipient), (truthy deadline);
    cbn [negb orb andb]; try reflexivity.
  destruct (js_BigInt E amount) as [value | e]; [| reflexivity].
  destruct (value <=? 0)%Z; [reflexivity |].
  destruct (js_le E deadline (Date_now E (ticks w))); reflexivity.
Qed.

Lemma validatePaymentPayload_answers (payload : JValue) (w : World) :
  exists b w',
    validatePaymentPayload E payload w = (Ok b, w') /\
    (w' = w \/ w' = ticked w) /\
    (b = true -> w' = ticked w) /\
    (b = true <-> acceptable E payload (E.(Date_now) w.(ticks))).
Proof.
  rewrite validatePaymentPayload_eq. unfold acceptable.
  destruct (get_prop payload "amount") as [amount | e] eqn:Hamount.
  2:{ exists false, w. repeat split; auto; try discriminate.
      intros (? & ? & ? & ? & ? & H & _); discriminate H. }
  destruct (get_prop payload "token") as [token | e] eqn:Htoken.
  2:{ exists false, w. repeat split; auto; try discriminate.
      intros (? & ? & ? & ? & ? & _ & H & _); discriminate H. }
  destruct (get_prop payload "recipient") as [recipient | e] eqn:Hrecipient.
  2:{ exists false, w. repeat split; auto; try discriminate.
      intros (? & ? & ? & ? & ? & _ & _ & H & _); discriminate H. }
  destruct (get_prop payload "deadline") as [deadline | e] eqn:Hdeadline.
  2:{ exists false, w. repeat split; auto; try discriminate.
      intros (? & ? & ? & ? & ? & _ & _ & _ & H & _); discriminate H. }
  destruct (truthy amount && truthy token && truthy recipient && truthy deadline) eqn:all.
  2:{ exists false, w. repeat split; auto; try discriminate.
      intros (a & t & r & d & v & [= <-] & [= <-] & [= <-] & [= <-] & Ha & Ht & Hr & Hd & _).
      rewrite Ha, Ht, Hr, Hd in all. discriminate all. }
  apply andb_true_iff in all as [all Hd].
  apply andb_true_iff in all as [all Hr].
  apply andb_true_iff in all as [Ha Ht].
  destruct (js_BigInt E amount) as [value | e] eqn:Hvalue.
  2:{ exists false, w. repeat split; auto; try discriminate.
      intros (a & t & r & d & v & [= <-] & _ & _ & _ & _ & _ & _ & _ & H & _).
      rewrite Hvalue in H. discriminate H. }
  destruct (value <=? 0)%Z eqn:sign.
  { exists false, w. repeat split; auto; try discriminate.
    intros (a & t & r & d & v & [= <-] & _ & _ & _ & _ & _ & _ & _ & H & positive & _).
    rewrite Hvalue in H. injection H as <-. apply Z.leb_le in sign. lia. }
  apply Z.leb_gt in sign.
  eexists _, (ticked w). split; [reflexivity |].
  split; [now right |]. split; [reflexivity |].
  split.
  - intros ahead. apply negb_true_iff in ahead.
    exists amount, token, recipient, deadline, value. repeat split; assumption.
  - intros (a & t & r & d & v & _ & _ & _ & [= <-] & _ & _ & _ & _ & _ & _ & ahead).
    now rewrite ahead.
Qed.

Lemma checkBalance_eq (payer : string) (token amount : JValue) (w : World) :
  checkBalance E payer token amount w =
  (Ok match E.(getAccountCoinAmount) w.(queries) payer token with
      | Ok balance =>
          match js_BigInt E amount with
          | Ok required => (balance >=? required)%Z
          | Throw _ => false
          end
      | Throw _ => false
      end,
   queried w).
Proof.
  unfold checkBalance, try_catch, bind, lift, query_balance, ret, queried.
  destruct (getAccountCoinAmount E (queries w) payer token) as [balance | e];
    [| reflexivity].
  destruct (js_BigInt E amount); reflexivity.
Qed.

(** The steps before the retry either stop with an error before anything
    is built, or build one transaction after all the checks have passed. *)
Lemma payment_steps_checked (response : AxiosResponse) (w w' : World)
  (r : Res SignedTransaction) :
  payment_steps E account response w = (r, w') ->
  (built w' = built w /\ exists e, r = Throw e) \/
  (built w' = S (built w) /\
   exists payment,
     get_prop response.(data) "payment" = Ok payment /\
     acceptable E payment (E.(Date_now) w.(ticks)) /\
     acceptable E payment (E.(Date_now) (S w.(ticks))) /\
     covered E w.(queries) account.(address) payment).
Proof.
  assert (stop : forall (e : Exn) (w0 : World),
             built w0 = built w ->
             (@Throw SignedTransaction e, w0) = (r, w') ->
             (built w' = built w /\ exists e, r = Throw e) \/
             (built w' = S (built w) /\
              exists payment,
                get_prop response.(data) "payment" = Ok payment /\
                acceptable E payment (E.(Date_now) w.(ticks)) /\
                acceptable E payment (E.(Date_now) (S w.(ticks))) /\
                covered E w.(queries) account.(address) payment)).
  { intros e w0 same [= <- <-]. left. split; [exact same | now exists e]. }
  unfold payment_steps, bind at 1, lift.
  destruct (get_prop (data response) "payment") as [payment | e] eqn:Hpayment;
    [| now apply stop].
  unfold bind at 1.
  destruct (validatePaymentPayload_answers payment w)
    as (b & w1 & run & place & moved & ok).
  rewrite run.
  destruct b; cbn [negb];
    [| apply stop; destruct place as [-> | ->]; reflexivity].
  rewrite (moved eq_refl). clear place moved run w1.
  destruct ok as [ok _]. specialize (ok eq_refl).
  pose proof ok as (amount & token & recipient & deadline & value &
                    Hamount & Htoken & Hrecipient & Hdeadline &
                    Ta & Tt & Tr & Td & Hvalue & positive & ahead).
  unfold bind at 1, lift. rewrite Hdeadline.
  unfold bind at 1, now. cbn [ticks ticked requests queries built].
  destruct (js_le E deadline (Date_now E (S (ticks w)))) eqn:ahead';
    [now apply stop |].
  unfold bind at 1, lift. rewrite Htoken.
  unfold bind at 1, lift. rewrite Hamount.
  unfold bind at 1. rewrite checkBalance_eq. cbn [queries requests built ticks].
  destruct (getAccountCoinAmount E (queries w) (address account) token)
    as [balance | e] eqn:Hbalance;
    cbn [negb]; [| now apply stop].
  rewrite Hvalue.
  destruct (balance >=? value)%Z eqn:enough;
    cbn [negb]; [| now apply stop].
  unfold createPaymentTransaction, bind at 1, lift.
  destruct (publicKey_of E (privateKey account)) as [key | e];
    [| now apply stop].
  unfold bind at 1, lift. rewrite Htoken.
  unfold bind at 1, lift. rewrite Hrecipient.
  unfold bind at 1, lift. rewrite Hamount.
  intros run. right. split.
  - revert run. unfold bind, build, now, ret, queried.
    cbn [queries requests built ticks].
    destruct (build_simple E _ (address account) token recipient amount);
      intros [= _ <-]; reflexivity.
  - exists payment. split; [reflexivity |]. split; [exact ok |]. split.
    + exists amount, token, recipient, deadline, value. repeat split; assumption.
    + exists token, amount, balance, value. repeat split; try assumption.
      apply Z.geb_le in enough. lia.
Qed.

Lemma built_retryWithPayment (url : string) (options : RequestOptions)
  (signedTransaction : SignedTransaction) (w : World) :
  built (snd (retryWithPayment E config url options signedTransaction w)) = built w.
Proof. rewrite retryWithPayment_eq. reflexivity. Qed.

(** A value returned by [handlePaymentRequired] is the body of the reply to
    the retry, and that reply has a status below 400. *)
Lemma handlePaymentRequired_result (response : AxiosResponse) (url : string)
  (options : RequestOptions) (w w' : World) (d : JValue) :
  handlePaymentRequired E account config response url options w = (Ok d, w') ->
  exists n proof reply,
    E.(http) n (requestConfig_of config url options (Some proof)) = Replied reply /\
    d = reply.(data) /\
    (reply.(status) < 400)%Z.
Proof.
  rewrite handlePaymentRequired_steps. unfold bind.
  destruct (payment_steps E account response w) as [[signedTransaction | e] w1];
    [| discriminate].
  rewrite retryWithPayment_eq. cbv zeta.
  match goal with |- context [E.(http) ?n ?c] =>
    destruct (E.(http) n c) as [reply | error] eqn:answered end.
  - destruct (reply.(status) <? 500)%Z; [| discriminate].
    destruct (reply.(status) =? 402)%Z; [discriminate |].
    destruct (reply.(status) >=? 400)%Z eqn:high; [discriminate |].
    intros [= <- _]. do 3 eexists. split; [exact answered |]. split; [reflexivity |].
    rewrite Z.geb_leb in high. apply Z.leb_gt in high. exact high.
  - destruct error; discriminate.
Qed.

End Checks.

(** X16 — What the client accepts as a payment request.
    [validatePaymentPayload] never throws and sends, queries and builds
    nothing.  It answers [true] exactly when the payload has truthy
    [amount], [token], [recipient] and [deadline], the amount converts to
    an integer above zero, and the deadline is not at or before the clock
    reading; a deadline that is not a number is not before any time, so it
    passes. *)
Theorem validatePaymentPayload_accepts
  (E : Client.Env) (payload : JValue) (w : Client.World) :
  exists b w',
    Client.validatePaymentPayload E payload w = (Ok b, w') /\
    w'.(Client.requests) = w.(Client.requests) /\
    w'.(Client.queries) = w.(Client.queries) /\
    w'.(Client.built) = w.(Client.built) /\
    (b = true <-> acceptable E payload (E.(Client.Date_now) w.(Client.ticks))).
Proof.
  destruct (validatePaymentPayload_answers E payload w)
    as (b & w' & run & [-> | ->] & _ & ok);
    exists b; eexists; (split; [exact run |]); repeat split; apply ok.
Qed.

(** X17 — The client pays only after its checks.  In
    [handlePaymentRequired], either no transaction is built and no request
    is sent, or exactly one transaction is built, and then the payment
    request of the 402 passed the validation, its deadline was ahead of
    both clock readings, and the ledger reported a balance of the payer's
    account that covers the amount. *)
Theorem payment_built_only_after_checks
  (E : Client.Env) (account : Client.AptosAccount) (config : Client.X402ClientConfig)
  (response : AxiosResponse) (url : string) (options : Client.RequestOptions)
  (w : Client.World) :
  let out := Client.handlePaymentRequired E account config response url options w in
  ((snd out).(Client.built) = w.(Client.built) /\
   (snd out).(Client.requests) = w.(Client.requests)) \/
  ((snd out).(Client.built) = S w.(Client.built) /\
   exists payment,
     get_prop response.(data) "payment" = Ok payment /\
     acceptable E payment (E.(Client.Date_now) w.(Client.ticks)) /\
     acceptable E payment (E.(Client.Date_now) (S w.(Client.ticks))) /\
     covered E w.(Client.queries) account.(Client.address) payment).
Proof.
  cbv zeta. rewrite handlePaymentRequired_steps. unfold bind.
  pose proof (quiet_payment_steps E account response w) as silent.
  destruct (payment_steps E account response w) as [[signedTransaction | e] w1] eqn:steps;
    cbn [fst snd] in *;
    destruct (payment_steps_checked E account response w steps) as [[same halted] | checked].
  - destruct halted as [e H]. discriminate H.
  - right. rewrite built_retryWithPayment. exact checked.
  - left. auto.
  - right. exact checked.
Qed.

(** X18 — Where a value returned by [request] comes from.  Every value the
    driver returns is the body of a reply of the peer.  It is the reply to
    the first request, whose status is then below 500 and not 402; or it is
    the reply to a request that carries a proof, whose status is then below
    400.  So a first reply with a status from 400 to 499 other than 402 is
    returned as a value, whereas the same reply to the retry is thrown. *)
Theorem request_result_origin
  (E : Client.Env) (account : Client.AptosAccount) (config : Client.X402ClientConfig)
  (url : string) (options : Client.RequestOptions) (w w' : Client.World) (d : JValue) :
  Client.request E account config url options w = (Ok d, w') ->
  exists n requestConfig reply,
    E.(Client.http) n requestConfig = Client.Replied reply /\
    d = reply.(data) /\
    ( (n = List.length w.(Client.requests) /\
       requestConfig = Client.requestConfig_of config url options None /\
       (reply.(status) < 500)%Z /\ reply.(status) <> 402%Z)
      \/
      ((exists proof,
          requestConfig = Client.requestConfig_of config url options (Some proof)) /\
       (reply.(status) < 400)%Z) ).
Proof.
  assert (paid : forall response w0 w1,
             Client.handlePaymentRequired E account config response url options w0
             = (Ok d, w1) ->
             exists n requestConfig reply,
               E.(Client.http) n requestConfig = Client.Replied reply /\
               d = reply.(data) /\
               ( (n = List.length w.(Client.requests) /\
                  requestConfig = Client.requestConfig_of config url options None /\
                  (reply.(status) < 500)%Z /\ reply.(status) <> 402%Z)
                 \/
                 ((exists proof,
                     requestConfig = Client.requestConfig_of config url options (Some proof)) /\
                  (reply.(status) < 400)%Z) )).
  { intros response w0 w1 run.
    destruct (handlePaymentRequired_result E account config _ _ _ _ run)
      as (n & proof & reply & answered & body & low).
    exists n, (Client.requestConfig_of config url options (Some proof)), reply.
    split; [exact answered |]. split; [exact body |].
    right. split; [now exists proof | exact low]. }
  unfold Client.request, try_catch, bind, Client.axios.
  destruct (Client.http E (List.length (Client.requests w))
              (Client.requestConfig_of config url options None))
    as [response | error] eqn:answered.
  - destruct (response.(status) <? 500)%Z eqn:low.
    + destruct (response.(status) =? 402)%Z eqn:is402.
      * match goal with
        | |- context [Client.handlePaymentRequired E account config response url options ?w0] =>
            destruct (Client.handlePaymentRequired E account config response url options w0)
              as [[a | e] w1] eqn:first
        end.
        -- intros [= <- _]. eapply paid. exact first.
        -- destruct e as [m h | m [response' |] | m h]; try discriminate.
           destruct (response'.(status) =? 402)%Z; [| discriminate].
           intros again. eapply paid. exact again.
      * intros [= <- _].
        exists (List.length (Client.requests w)),
          (Client.requestConfig_of config url options None), response.
        split; [exact answered |].
        split; [reflexivity |]. left.
        apply Z.ltb_lt in low. apply Z.eqb_neq in is402. auto.
    + cbn [status]. destruct (response.(status) =? 402)%Z eqn:is402.
      * apply Z.eqb_eq in is402. apply Z.ltb_ge in low. lia.
      * discriminate.
  - destruct error as [m h | m [response' |] | m h]; try discriminate.
    destruct (response'.(status) =? 402)%Z; [| discriminate].
    intros again. eapply paid. exact again.
Qed.

Lemma request_result_origin_witness :
  exists n requestConfig reply,
    (client_env missing_reply).(Client.http) n requestConfig = Client.Replied reply /\
    missing_reply.(data) = reply.(data) /\
    ( (n = 0%nat /\
       requestConfig = Client.requestConfig_of client_config "/weather" plain_get None /\
       (reply.(status) < 500)%Z /\ reply.(status) <> 402%Z)
      \/
      ((exists proof,
          requestConfig =
          Client.requestConfig_of client_config "/weather" plain_get (Some proof)) /\
       (reply.(status) < 400)%Z) ).
Proof.
  exact (@request_result_origin (client_env missing_reply) sample_account client_config
           "/weather" plain_get Client.initial_world
           (sent (Client.requestConfig_of client_config "/weather" plain_get None)
                 Client.initial_world)
           missing_reply.(data) eq_refl).
Defined.

(** ** The hash the facilitator makes up *)

(** X19 — The mock hash holds the first 32 bytes of the address and nothing
    else.  In mock mode, for two proofs whose transactions parse and whose
    addresses have at least 32 bytes, whatever the clock reads and whatever
    the rest of the proofs, both results carry a hash of 66 characters, and
    the two hashes are equal exactly when the addresses agree on their
    first 32 bytes: addresses that differ only later share a hash. *)
Theorem mock_hash_keeps_first_32_bytes
  (E : Facilitator.Env) (config : Facilitator.FacilitatorConfig)
  (p q : Facilitator.PaymentRequest) (wp wq : Facilitator.World) :
  Facilitator.mock_enabled config = true ->
  (exists t, E.(Facilitator.JSON_parse) p.(Facilitator.transaction) = ParseOk t) ->
  (exists t, E.(Facilitator.JSON_parse) q.(Facilitator.transaction) = ParseOk t) ->
  (32 <= String.length p.(Facilitator.address))%nat ->
  (32 <= String.length q.(Facilitator.address))%nat ->
  exists vp wp' vq wq' hp hq,
    Facilitator.processPayment E config (Facilitator.to_js p) wp = (Ok vp, wp') /\
    Facilitator.processPayment E config (Facilitator.to_js q) wq = (Ok vq, wq') /\
    vp.(transactionHash) = Some hp /\
    vq.(transactionHash) = Some hq /\
    String.length hp = 66%nat /\
    (hp = hq <->
     substring 0 32 p.(Facilitator.address) = substring 0 32 q.(Facilitator.address)).
Proof.
  intros mock [tp parse_p] [tq parse_q] long_p long_q.
  rewrite !processPayment_mock by exact mock.
  rewrite parse_p, parse_q.
  do 6 eexists.
  split; [reflexivity |]. split; [reflexivity |].
  split; [reflexivity |]. split; [reflexivity |].
  rewrite !hash_of_text_long by assumption.
  split.
  - rewrite hash_of_text_eq. cbn [append String.length].
    rewrite toString_hex_length, length_substring_0. lia.
  - apply hash_of_text_same.
Qed.

Lemma mock_hash_keeps_first_32_bytes_witness :
  exists vp wp' vq wq' hp,
    Facilitator.processPayment accepting_ledger mock_config
      (Facilitator.to_js long_proof) Facilitator.initial_world = (Ok vp, wp') /\
    Facilitator.processPayment accepting_ledger mock_config
      (Facilitator.to_js lookalike_proof) Facilitator.initial_world = (Ok vq, wq') /\
    vp.(transactionHash) = Some hp /\
    vq.(transactionHash) = Some hp.
Proof.
  destruct (@mock_hash_keeps_first_32_bytes accepting_ledger mock_config
              long_proof lookalike_proof
              Facilitator.initial_world Facilitator.initial_world eq_refl)
    as (vp & wp' & vq & wq' & hp & hq & run_p & run_q & named_p & named_q & _ & same).
  - exists transfer_value. reflexivity.
  - exists transfer_value. reflexivity.
  - cbn. lia.
  - cbn. lia.
  - exists vp, wp', vq, wq', hp. repeat split; try assumption.
    rewrite named_q. f_equal. symmetry. apply same. reflexivity.
Defined.

(** ** The web client *)

Section Web.

Import WebClient.

Variable E : Env.

Lemma rethrow_is_identity {W A : Type} (m : M W A) (w : W) :
  try_catch m (fun error => throw error) w = m w.
Proof. unfold try_catch, throw. destruct (m w) as [[a | e] w0]; reflexivity. Qed.

Lemma calm_paymentDetails_of (responseData : JValue) : calm (paymentDetails_of E responseData).
Proof.
  intros w. unfold paymentDetails_of, bind, lift, now, ret.
  destruct (get_prop responseData "payment") as [payment | e]; [| now cbn].
  destruct (truthy payment); [now cbn |].
  destruct (get_prop responseData "recipient") as [recipient | e]; [| now cbn].
  destruct (get_prop responseData "amount") as [amount | e]; [| now cbn].
  destruct (truthy recipient && truthy amount); now cbn.
Qed.


End Web.

(** X20 — The web client sends at most two requests and returns only what
    a 200 brings.  [x402Request] sends the caller's request; a second
    request follows only when the first reply is a 402, after exactly one
    transfer has been built and signed, and it is the caller's request with
    the header [X-Payment] set to the proof, replacing any value the caller
    gave that header.  A value is returned only when the last reply has
    status 200, and it is the JSON body of that reply. *)
Theorem web_client_sends_at_most_two
  (E : WebClient.Env) (url : string) (options : WebClient.RequestInit)
  (walletAccount : WebClient.WalletAccount) (w w' : WebClient.World) (r : Res JValue) :
  WebClient.x402Request E url options walletAccount w = (r, w') ->
  (w'.(WebClient.fetched) = (url, options) :: w.(WebClient.fetched) /\
   forall d, r = Ok d ->
     exists reply,
       E.(WebClient.fetch) (List.length w.(WebClient.fetched)) url options = Ok reply /\
       reply.(WebClient.fetch_status) = 200%Z /\
       reply.(WebClient.fetch_json) = Ok d)
  \/
  (exists proof first,
     E.(WebClient.fetch) (List.length w.(WebClient.fetched)) url options = Ok first /\
     first.(WebClient.fetch_status) = 402%Z /\
     w'.(WebClient.fetched) =
       (url, WebClient.with_payment options proof) :: (url, options) :: w.(WebClient.fetched) /\
     lookup "X-Payment" (WebClient.with_payment options proof).(WebClient.init_headers)
       = Some proof /\
     List.length w'.(WebClient.built) = S (List.length w.(WebClient.built)) /\
     w'.(WebClient.signed) = S w.(WebClient.signed) /\
     forall d, r = Ok d ->
       exists reply,
         E.(WebClient.fetch) (S (List.length w.(WebClient.fetched))) url
           (WebClient.with_payment options proof) = Ok reply /\
         reply.(WebClient.fetch_status) = 200%Z /\
         reply.(WebClient.fetch_json) = Ok d).
Proof.
  unfold WebClient.x402Request. rewrite rethrow_is_identity.
  unfold bind at 1, WebClient.do_fetch.
  destruct (WebClient.fetch E (List.length (WebClient.fetched w)) url options)
    as [first | e] eqn:Hfirst;
    [| intros [= <- <-]; left; split; [reflexivity | discriminate]].
  destruct (WebClient.fetch_status first =? 200)%Z eqn:granted_at_once.
  { unfold lift. intros [= <- <-]. left. split; [reflexivity |].
    intros d Hd. exists first. apply Z.eqb_eq in granted_at_once. auto. }
  destruct (WebClient.fetch_status first =? 402)%Z eqn:asked;
    [| intros [= <- <-]; left; split; [reflexivity | discriminate]].
  apply Z.eqb_eq in asked.
  unfold bind at 1, lift.
  destruct (WebClient.fetch_json first) as [responseData | e];
    [| intros [= <- <-]; left; split; [reflexivity | discriminate]].
  unfold bind at 1.
  match goal with
  | |- context [WebClient.paymentDetails_of E responseData ?w0] =>
      pose proof (calm_paymentDetails_of E responseData w0) as (same_f & same_b & same_s);
      destruct (WebClient.paymentDetails_of E responseData w0) as [[paymentDetails | e] w1]
  end;
    cbn [snd WebClient.fetched WebClient.built WebClient.signed] in same_f, same_b, same_s;
    [| intros [= <- <-]; left; split; [exact same_f | discriminate]].
  unfold bind at 1, lift.
  destruct (get_prop paymentDetails "amount") as [amount_ | e];
    [| intros [= <- <-]; left; split; [exact same_f | discriminate]].
  cbv zeta. unfold bind at 1, lift.
  destruct (get_prop paymentDetails "recipient") as [recipient_ | e];
    [| intros [= <- <-]; left; split; [exact same_f | discriminate]].
  unfold bind at 1, lift.
  match goal with
  | |- context [WebClient.BigInt_of_string E ?text] =>
      destruct (WebClient.BigInt_of_string E text) as [value | e]
  end;
    [| intros [= <- <-]; left; split; [exact same_f | discriminate]].
  unfold bind at 1, WebClient.build.
  match goal with
  | |- context [WebClient.build_simple E ?n ?s ?t ?v] =>
      destruct (WebClient.build_simple E n s t v) as [transaction | e]
  end;
    [| intros [= <- <-]; left; split; [exact same_f | discriminate]].
  unfold bind at 1, WebClient.sign.
  cbn [WebClient.fetched WebClient.built WebClient.signed WebClient.ticks].
  destruct (WebClient.signTransaction E (WebClient.signed w1) transaction)
    as [senderAuthenticator | e];
    [| intros [= <- <-]; left; split; [exact same_f | discriminate]].
  unfold bind at 1, WebClient.now.
  cbn [WebClient.fetched WebClient.built WebClient.signed WebClient.ticks].
  unfold bind at 1, WebClient.do_fetch.
  cbn [WebClient.fetched WebClient.built WebClient.signed WebClient.ticks].
  rewrite same_f. cbn [List.length].
  match goal with
  | |- context [WebClient.with_payment options ?text] => set (proof := text)
  end.
  intros run. right. exists proof, first.
  split; [reflexivity |]. split; [exact asked |].
  assert (after : WebClient.fetched w' =
                  (url, WebClient.with_payment options proof) :: (url, options)
                    :: WebClient.fetched w /\
                  List.length (WebClient.built w') = S (List.length (WebClient.built w)) /\
                  WebClient.signed w' = S (WebClient.signed w)).
  { revert run.
    destruct (WebClient.fetch E (S (List.length (WebClient.fetched w))) url
                (WebClient.with_payment options proof)) as [retryResponse | e];
      [destruct (WebClient.fetch_status retryResponse =? 200)%Z |];
      unfold lift, throw; intros [= _ <-];
      cbn [WebClient.fetched WebClient.built WebClient.signed List.length];
      rewrite same_b, same_s; auto. }
  destruct after as (sent_twice & built_once & signed_once).
  split; [exact sent_twice |].
  split; [unfold WebClient.with_payment; cbn [WebClient.init_headers];
          rewrite lookup_set_key; reflexivity |].
  split; [exact built_once |]. split; [exact signed_once |].
  intros d Hd. subst r. revert run.
  destruct (WebClient.fetch E (S (List.length (WebClient.fetched w))) url
              (WebClient.with_payment options proof)) as [retryResponse | e];
    [| discriminate].
  destruct (WebClient.fetch_status retryResponse =? 200)%Z eqn:granted_then;
    [| discriminate].
  unfold lift. intros [= body _]. exists retryResponse.
  apply Z.eqb_eq in granted_then. auto.
Qed.

Lemma web_client_sends_at_most_two_witness :
  exists proof,
    lookup "X-Payment" (WebClient.with_payment bare_get proof).(WebClient.init_headers)
    = Some proof.
Proof.
  destruct (@web_client_sends_at_most_two (browser bare_402) "/weather" bare_get wallet
              WebClient.initial_world _ _ eq_refl)
    as [[once _] | (proof & first & _ & _ & _ & replaced & _)].
  - discriminate once.
  - exists proof. exact replaced.
Defined.



(** ** From the client to the gateway *)

Lemma header_value_set_key (name k v : string) (o : list (string * string)) :
  (lower k =? lower name)%string = false ->
  header_value name (Client.set_key k v o) = header_value name o.
Proof.
  intros other. induction o as [| [k0 v0] tl IH].
  - cbn [Client.set_key header_value]. now rewrite other.
  - cbn [Client.set_key]. destruct (k =? k0)%string eqn:same.
    + apply String.eqb_eq in same. subst k0. cbn [header_value].
      now rewrite other.
    + cbn [header_value]. now rewrite IH.
Qed.

(** Headers of the caller that do not name [name], in any letter case,
    leave the header as the client set it. *)
Lemma header_value_spread (name : string) (extra base : list (string * string)) :
  header_value name extra = None ->
  header_value name (Client.spread base extra) = header_value name base.
Proof.
  unfold Client.spread. revert base.
  induction extra as [| [k v] tl IH]; intros base unnamed; [reflexivity |].
  cbn [header_value] in unnamed. cbn [fold_left fst snd].
  destruct (header_value name tl) eqn:later; [discriminate unnamed |].
  destruct (lower k =? lower name)%string eqn:other; [discriminate unnamed |].
  rewrite IH by reflexivity. now apply header_value_set_key.
Qed.

(** X22 — A proof made by the client passes the mock gateway.  Take the
    request [retryWithPayment] sends for a signed transaction, with options
    whose headers do not name the payment header, in any letter case, and
    let it arrive at the gateway of [payment-middleware.ts] on a priced
    path.  If the server's [JSON.parse] reads back what the client's
    [JSON.stringify] printed, reads the raw transaction, and rejects the
    empty text, the gateway admits the request with a valid verification,
    whatever amount and recipient the transaction names. *)
Theorem client_proof_passes_mock_gateway
  (EC : Client.Env) (config : Client.X402ClientConfig) (url : string)
  (options : Client.RequestOptions) (signedTransaction : Client.SignedTransaction)
  (w : Client.World)
  (EF : Facilitator.Env) (payTo path : string) (routes : Facilitator.PaymentRoutes)
  (route : Facilitator.PaymentRoute) (wF : Facilitator.World) :
  let t := EC.(Client.Date_now) w.(Client.ticks) in
  let proof := Facilitator.to_js (proof_request signedTransaction t) in
  header_value "x-payment" options.(Client.headers) = None ->
  Facilitator.findMatchingRoute EF path routes = Ok (Some route) ->
  EF.(Facilitator.JSON_parse) (EC.(Client.JSON_stringify) proof) = ParseOk proof ->
  (exists transaction,
      EF.(Facilitator.JSON_parse) signedTransaction.(Client.rawTransaction)
      = ParseOk transaction) ->
  (exists m, EF.(Facilitator.JSON_parse) EmptyString = SyntaxError m) ->
  exists second v wF',
    (snd (Client.retryWithPayment EC config url options signedTransaction w)).(Client.requests)
      = second :: w.(Client.requests) /\
    (arriving path second).(Facilitator.x_payment)
      = Some (EC.(Client.JSON_stringify) proof) /\
    Facilitator.createPaymentMiddleware EF payTo routes (arriving path second) wF
      = (Ok (Facilitator.Next (Some v)), wF') /\
    v.(isValid) = true.
Proof.
  intros t proof own found read_back [transaction readable] [m empty].
  rewrite retryWithPayment_eq. cbv zeta. cbn [snd sent Client.requests].
  eexists. do 2 eexists. split; [reflexivity |].
  rewrite middleware_priced with (route := route); [| exact found].
  unfold arriving. cbn [Facilitator.x_payment Client.requestConfig_of Client.cfg_headers].
  rewrite header_value_spread by exact own.
  change (paymentProof_of signedTransaction (Client.Date_now EC (Client.ticks w)))
    with proof.
  set (header := Client.JSON_stringify EC proof) in *.
  change (header_value "x-payment"
            ([("Content-Type", "application/json");
              ("User-Agent", "x402-aptos-client/1.0.0")] ++
             [("X-Payment", header)])%list)
    with (Some header).
  split; [reflexivity |].
  cbv iota.
  destruct (header =? EmptyString)%string eqn:blank.
  { apply String.eqb_eq in blank. rewrite blank, empty in read_back. discriminate read_back. }
  rewrite read_back. unfold proof.
  rewrite (@processPayment_mock EF Facilitator.middleware_config eq_refl).
  cbn [Facilitator.transaction proof_request]. rewrite readable.
  split; reflexivity.
Qed.

Lemma client_proof_passes_mock_gateway_witness :
  exists second v wF',
    (snd (Client.retryWithPayment printing_client client_config "/weather" plain_get
            signed_transfer Client.initial_world)).(Client.requests)
      = [second] /\
    (arriving "/weather" second).(Facilitator.x_payment) = Some short_proof_header /\
    Facilitator.createPaymentMiddleware accepting_ledger sample_payTo sample_routes
      (arriving "/weather" second) Facilitator.initial_world
      = (Ok (Facilitator.Next (Some v)), wF') /\
    v.(isValid) = true.
Proof.
  apply (@client_proof_passes_mock_gateway printing_client client_config "/weather"
           plain_get signed_transfer Client.initial_world
           accepting_ledger sample_payTo "/weather" sample_routes
           {| Facilitator.price := PriceString "1000000";
              Facilitator.network := "aptos-testnet" |}
           Facilitator.initial_world).
  - reflexivity.
  - reflexivity.
  - reflexivity.
  - exists transfer_value. reflexivity.
  - eexists. reflexivity.
Defined.

(** A caller's header in lower case reaches the gateway in the place of
    the proof. *)
Example lower_case_header_displaces_proof :
  exists second,
    (snd (Client.retryWithPayment printing_client client_config "/weather" lower_case_get
            signed_transfer Client.initial_world)).(Client.requests) = [second] /\
    (arriving "/weather" second).(Facilitator.x_payment) = Some "stale" /\
    fst (Facilitator.createPaymentMiddleware accepting_ledger sample_payTo sample_routes
           (arriving "/weather" second) Facilitator.initial_world)
    = Ok (Facilitator.Respond 400 (Facilitator.BodyError "Invalid payment header format")).
Proof.
  eexists. split; [reflexivity |]. split; reflexivity.
Qed.

Lemma lookup_absent {A : Type} (k : string) (o : list (string * A)) :
  ~ In k (map fst o) -> lookup k o = None.
Proof.
  induction o as [| [k' v'] tl IH]; intros fresh; [reflexivity |].
  cbn [lookup]. cbn [map fst In] in fresh.
  destruct (k =? k')%string eqn:same.
  - apply String.eqb_eq in same. subst k'. elim fresh. now left.
  - apply IH. intros H. apply fresh. now right.
Qed.

(** A key the caller sets keeps the caller's value after the spread. *)
Lemma lookup_spread_own (k v : string) (extra base : list (string * string)) :
  NoDup (map fst extra) ->
  lookup k extra = Some v ->
  lookup k (Client.spread base extra) = Some v.
Proof.
  unfold Client.spread. revert base.
  induction extra as [| [k' v'] tl IH]; intros base unique own; [discriminate own |].
  cbn [lookup] in own. cbn [map fst] in unique. inversion unique as [| ? ? fresh rest]; subst.
  cbn [fold_left fst snd].
  destruct (k =? k')%string eqn:same.
  - injection own as <-. apply String.eqb_eq in same. subst k'.
    change (fold_left (fun o kv => Client.set_key (fst kv) (snd kv) o) tl
              (Client.set_key k v' base))
      with (Client.spread (Client.set_key k v' base) tl).
    rewrite lookup_spread_absent by (now apply lookup_absent).
    rewrite lookup_set_key, String.eqb_refl. reflexivity.
  - now apply IH.
Qed.

(** X23 — A payment header of the caller displaces the proof.  The request
    [retryWithPayment] sends always has an [X-Payment] header.  It holds
    the proof when the caller's options set no such header; when they do,
    it holds the caller's value, and the proof is not sent at all. *)
Theorem caller_header_displaces_proof
  (E : Client.Env) (config : Client.X402ClientConfig) (url : string)
  (options : Client.RequestOptions) (signedTransaction : Client.SignedTransaction)
  (w : Client.World) :
  NoDup (map fst options.(Client.headers)) ->
  exists second,
    (snd (Client.retryWithPayment E config url options signedTransaction w)).(Client.requests)
      = second :: w.(Client.requests) /\
    lookup "X-Payment" second.(Client.cfg_headers) =
    Some match lookup "X-Payment" options.(Client.headers) with
         | Some own => own
         | None =>
             E.(Client.JSON_stringify)
               (paymentProof_of signedTransaction (E.(Client.Date_now) w.(Client.ticks)))
         end.
Proof.
  intros unique.
  rewrite retryWithPayment_eq. cbv zeta. cbn [snd sent Client.requests].
  eexists. split; [reflexivity |].
  cbn [Client.requestConfig_of Client.cfg_headers].
  destruct (lookup "X-Payment" (Client.headers options)) as [own |] eqn:set.
  - now apply lookup_spread_own.
  - rewrite lookup_spread_absent by exact set. reflexivity.
Qed.

Lemma caller_header_displaces_proof_witness :
  exists second,
    (snd (Client.retryWithPayment printing_client client_config "/weather" insisting_get
            signed_transfer Client.initial_world)).(Client.requests)
      = [second] /\
    lookup "X-Payment" second.(Client.cfg_headers) = Some "stale".
Proof.
  apply (@caller_header_displaces_proof printing_client client_config "/weather"
           insisting_get signed_transfer Client.initial_world).
  cbn. constructor; [intros [] | constructor].
Defined.

(** ** The website agent *)

(** X24 — The style with the most keywords, the first one on a tie.
    [determineStyle] always answers one of the four keys of
    [WEBSITE_STYLES], so the fallback of [generateWebsiteContent] and its
    own last [return] are never reached.  The style it answers has the
    highest count of keywords found in the lower-cased text; every style
    listed before it has a strictly lower count, so a text with no keyword
    at all gets ["professional"]. *)
Theorem determineStyle_first_maximum
  (toLowerCase : string -> string) (topic description : string) :
  let text := toLowerCase (topic ++ " " ++ description) in
  let style := WebsiteBuilder.determineStyle toLowerCase topic description in
  In style WebsiteBuilder.WEBSITE_STYLES /\
  exists before count after,
    WebsiteBuilder.styleScores text = (before ++ (style, count) :: after)%list /\
    (forall entry, In entry before -> (snd entry < count)%nat) /\
    (forall entry, In entry after -> (snd entry <= count)%nat).
Proof.
  cbv zeta. unfold WebsiteBuilder.determineStyle.
  set (text := toLowerCase (topic ++ " " ++ description)).
  unfold WebsiteBuilder.styleScores, WebsiteBuilder.styleKeywords.
  cbn [map fst snd fold_left].
  set (professional := WebsiteBuilder.score text _).
  set (creative := WebsiteBuilder.score text _).
  set (minimal := WebsiteBuilder.score text _).
  set (eco := WebsiteBuilder.score text _).
  destruct (professional <? creative)%nat eqn:first; cbn [snd];
    [destruct (creative <? minimal)%nat eqn:second
    | destruct (professional <? minimal)%nat eqn:second]; cbn [snd];
    match goal with
    | |- context [(?a <? eco)%nat] => destruct (a <? eco)%nat eqn:third
    end; cbn [fst];
    repeat match goal with
           | H : (_ <? _)%nat = true |- _ => apply Nat.ltb_lt in H
           | H : (_ <? _)%nat = false |- _ => apply Nat.ltb_ge in H
           end;
    (split; [cbn; tauto |]).
  - exists [("professional", professional); ("creative", creative); ("minimal", minimal)],
      eco, [].
    split; [reflexivity |]. split; [| intros entry []].
    intros entry [<- | [<- | [<- | []]]]; cbn [snd]; lia.
  - exists [("professional", professional); ("creative", creative)],
      minimal, [("eco-friendly", eco)].
    split; [reflexivity |]. split.
    + intros entry [<- | [<- | []]]; cbn [snd]; lia.
    + intros entry [<- | []]; cbn [snd]; lia.
  - exists [("professional", professional); ("creative", creative); ("minimal", minimal)],
      eco, [].
    split; [reflexivity |]. split; [| intros entry []].
    intros entry [<- | [<- | [<- | []]]]; cbn [snd]; lia.
  - exists [("professional", professional)], creative,
      [("minimal", minimal); ("eco-friendly", eco)].
    split; [reflexivity |]. split.
    + intros entry [<- | []]; cbn [snd]; lia.
    + intros entry [<- | [<- | []]]; cbn [snd]; lia.
  - exists [("professional", professional); ("creative", creative); ("minimal", minimal)],
      eco, [].
    split; [reflexivity |]. split; [| intros entry []].
    intros entry [<- | [<- | [<- | []]]]; cbn [snd]; lia.
  - exists [("professional", professional); ("creative", creative)],
      minimal, [("eco-friendly", eco)].
    split; [reflexivity |]. split.
    + intros entry [<- | [<- | []]]; cbn [snd]; lia.
    + intros entry [<- | []]; cbn [snd]; lia.
  - exists [("professional", professional); ("creative", creative); ("minimal", minimal)],
      eco, [].
    split; [reflexivity |]. split; [| intros entry []].
    intros entry [<- | [<- | [<- | []]]]; cbn [snd]; lia.
  - exists [], professional,
      [("creative", creative); ("minimal", minimal); ("eco-friendly", eco)].
    split; [reflexivity |]. split; [intros entry [] |].
    intros entry [<- | [<- | [<- | []]]]; cbn [snd]; lia.
Qed.

Section CleanContent.

Import WebsiteBuilder.

Lemma space_is_space : is_space 32 = true.
Proof. reflexivity. Qed.

Lemma newline_is_space : is_space 10 = true.
Proof. reflexivity. Qed.

Lemma is_newline_space (c : N) : (c =? 10)%N = true -> is_space c = true.
Proof. intros H. apply N.eqb_eq in H. now subst c. Qed.

(** *** The ink is kept *)

Lemma ink_trimStart (text : list N) : ink (trimStart text) = ink text.
Proof.
  induction text as [| c rest IH]; [reflexivity |].
  cbn [trimStart]. destruct (is_space c) eqn:space; [| reflexivity].
  rewrite IH. unfold ink. cbn [filter]. now rewrite space.
Qed.

Lemma ink_trimEnd (text : list N) : ink (trimEnd text) = ink text.
Proof.
  induction text as [| c rest IH]; [reflexivity |].
  cbn [trimEnd]. unfold ink in *. cbn [filter].
  destruct (trimEnd rest) as [| k kept].
  - rewrite <- IH. destruct (is_space c) eqn:space; cbn [filter negb]; [reflexivity |].
    now rewrite space.
  - cbn [filter]. destruct (negb (is_space c)); now rewrite <- IH.
Qed.

Lemma ink_trim (text : list N) : ink (trim text) = ink text.
Proof. unfold trim. now rewrite ink_trimEnd, ink_trimStart. Qed.

Lemma ink_replace_runs (in_run : bool) (text : list N) :
  ink (replace_runs in_run text) = ink text.
Proof.
  revert in_run. induction text as [| c rest IH]; intros in_run; [reflexivity |].
  cbn [replace_runs]. unfold ink in *. cbn [filter].
  destruct (is_space c) eqn:space; cbn [negb].
  - destruct in_run; [apply IH |]. cbn [filter]. rewrite space_is_space. apply IH.
  - cbn [filter]. rewrite space. cbn [negb]. now rewrite IH.
Qed.

Lemma ink_app (a b : list N) : ink (a ++ b) = (ink a ++ ink b)%list.
Proof. apply filter_app. Qed.

Lemma ink_join_space (lines : list (list N)) :
  ink (join_space lines) = List.concat (map ink lines).
Proof.
  induction lines as [| line rest IH]; [reflexivity |].
  destruct rest as [| next rest].
  - cbn [join_space map List.concat]. now rewrite app_nil_r.
  - change (join_space (line :: next :: rest))
      with (line ++ 32%N :: join_space (next :: rest))%list.
    rewrite ink_app. cbn [map List.concat] in *. rewrite <- IH.
    unfold ink at 2. cbn [filter]. rewrite space_is_space. reflexivity.
Qed.

Lemma ink_blank_line (line : list N) : trim line = [] -> ink line = [].
Proof. intros blank. now rewrite <- (ink_trim line), blank. Qed.

Lemma ink_kept_lines (lines : list (list N)) :
  List.concat (map ink (filter (fun line => match trim line with [] => false | _ => true end)
                          lines))
  = List.concat (map ink lines).
Proof.
  induction lines as [| line rest IH]; [reflexivity |].
  cbn [filter]. destruct (trim line) eqn:trimmed.
  - cbn [map List.concat]. rewrite (ink_blank_line line trimmed). exact IH.
  - cbn [map List.concat]. now rewrite IH.
Qed.

Lemma ink_split_newline (content : list N) :
  List.concat (map ink (split_newline content)) = ink content.
Proof.
  induction content as [| c rest IH]; [reflexivity |].
  cbn [split_newline]. destruct (c =? 10)%N eqn:newline.
  - cbn [map List.concat]. rewrite IH. unfold ink. cbn [filter].
    now rewrite (is_newline_space c newline).
  - destruct (split_newline rest) as [| line lines].
    + cbn [map List.concat] in *. unfold ink in *. cbn [filter].
      rewrite <- IH. destruct (negb (is_space c)); reflexivity.
    + cbn [map List.concat] in *. unfold ink in *. cbn [filter].
      rewrite <- IH. destruct (negb (is_space c)); reflexivity.
Qed.

Lemma ink_cleanContent (content : list N) : ink (cleanContent content) = ink content.
Proof.
  unfold cleanContent. cbv zeta.
  now rewrite ink_trim, ink_replace_runs, ink_join_space, ink_kept_lines, ink_split_newline.
Qed.

(** *** The result is tidy *)

Lemma squeezed_replace_runs (in_run : bool) (text : list N) :
  squeezed_from in_run (replace_runs in_run text) = true.
Proof.
  revert in_run. induction text as [| c rest IH]; intros in_run; [reflexivity |].
  cbn [replace_runs]. destruct (is_space c) eqn:space.
  - destruct in_run; [apply IH |].
    cbn [squeezed_from]. rewrite space_is_space. cbn. apply IH.
  - cbn [squeezed_from]. rewrite space. apply IH.
Qed.

Lemma squeezed_weaken (text : list N) :
  squeezed_from true text = true -> squeezed_from false text = true.
Proof.
  destruct text as [| c rest]; [reflexivity |].
  cbn [squeezed_from]. destruct (is_space c); [| auto].
  rewrite andb_false_r. discriminate.
Qed.

Lemma squeezed_trimStart (text : list N) :
  squeezed_from false text = true -> squeezed_from true (trimStart text) = true.
Proof.
  destruct text as [| c rest]; [reflexivity |].
  cbn [squeezed_from trimStart]. destruct (is_space c) eqn:space.
  - intros H. apply andb_true_iff in H as [_ H].
    destruct rest as [| d rest]; [reflexivity |].
    cbn [trimStart]. destruct (is_space d) eqn:space'.
    + cbn [squeezed_from] in H. rewrite space', andb_false_r in H. discriminate H.
    + exact H.
  - intros H. cbn [squeezed_from]. now rewrite space.
Qed.

Lemma tidy_trimEnd (after_space : bool) (text : list N) :
  squeezed_from after_space text = true ->
  trimEnd text = [] \/ tidy_from after_space (trimEnd text) = true.
Proof.
  revert after_space. induction text as [| c rest IH]; intros after_space; [now left |].
  cbn [squeezed_from trimEnd]. destruct (is_space c) eqn:space.
  - intros H. apply andb_true_iff in H as [H squeezed].
    destruct (IH true squeezed) as [blank | tidy_rest].
    + left. now rewrite blank.
    + right. destruct (trimEnd rest) as [| k kept] eqn:kept_rest.
      * discriminate tidy_rest.
      * cbn [tidy_from]. rewrite space, H. exact tidy_rest.
  - intros squeezed. right.
    destruct (IH false squeezed) as [blank | tidy_rest].
    + rewrite blank. cbn [tidy_from]. now rewrite space.
    + destruct (trimEnd rest) as [| k kept] eqn:kept_rest.
      * cbn [tidy_from]. now rewrite space.
      * cbn [tidy_from]. rewrite space. exact tidy_rest.
Qed.

Lemma tidy_cleanContent (content : list N) : tidy (cleanContent content) = true.
Proof.
  unfold cleanContent, trim. cbv zeta.
  match goal with |- context [replace_runs false ?joined] =>
    pose proof (squeezed_trimStart _ (squeezed_replace_runs false joined)) as squeezed
  end.
  apply tidy_trimEnd in squeezed. unfold tidy.
  destruct squeezed as [-> | tidy_text]; [reflexivity |].
  now destruct (trimEnd _).
Qed.

(** *** Tidy text is left alone *)

Lemma tidy_no_newline (after_space : bool) (text : list N) :
  squeezed_from after_space text = true -> split_newline text = [text].
Proof.
  revert after_space. induction text as [| c rest IH]; intros after_space; [reflexivity |].
  cbn [squeezed_from split_newline].
  destruct (c =? 10)%N eqn:newline.
  - rewrite (is_newline_space c newline). apply N.eqb_eq in newline. subst c.
    cbn. discriminate.
  - destruct (is_space c).
    + intros H. apply andb_true_iff in H as [_ H]. now rewrite (IH true H).
    + intros H. now rewrite (IH false H).
Qed.

Lemma tidy_squeezed (after_space : bool) (text : list N) :
  tidy_from after_space text = true -> squeezed_from after_space text = true.
Proof.
  revert after_space. induction text as [| c rest IH]; intros after_space; [reflexivity |].
  cbn [tidy_from squeezed_from]. destruct (is_space c).
  - intros H. apply andb_true_iff in H as [H tidy_rest]. rewrite H. now apply IH.
  - apply IH.
Qed.

Lemma replace_runs_squeezed (after_space : bool) (text : list N) :
  squeezed_from after_space text = true -> replace_runs after_space text = text.
Proof.
  revert after_space. induction text as [| c rest IH]; intros after_space; [reflexivity |].
  cbn [squeezed_from replace_runs]. destruct (is_space c).
  - intros H. apply andb_true_iff in H as [H squeezed].
    apply andb_true_iff in H as [is32 fresh].
    apply N.eqb_eq in is32. subst c.
    destruct after_space; [discriminate fresh |]. now rewrite (IH true squeezed).
  - intros squeezed. now rewrite (IH false squeezed).
Qed.

Lemma trimStart_tidy (text : list N) :
  squeezed_from true text = true -> trimStart text = text.
Proof.
  destruct text as [| c rest]; [reflexivity |].
  cbn [squeezed_from trimStart]. destruct (is_space c); [| reflexivity].
  rewrite andb_false_r. discriminate.
Qed.

Lemma trimEnd_tidy (after_space : bool) (text : list N) :
  tidy_from after_space text = true -> trimEnd text = text.
Proof.
  revert after_space. induction text as [| c rest IH]; intros after_space; [reflexivity |].
  cbn [tidy_from trimEnd]. destruct (is_space c) eqn:space.
  - intros H. apply andb_true_iff in H as [_ tidy_rest].
    rewrite (IH true tidy_rest).
    destruct rest as [| d rest]; [discriminate tidy_rest | reflexivity].
  - intros tidy_rest. rewrite (IH false tidy_rest).
    destruct rest; reflexivity.
Qed.

Lemma cleanContent_tidy (text : list N) : tidy text = true -> cleanContent text = text.
Proof.
  destruct text as [| c rest]; [reflexivity |].
  unfold tidy. intros tidy_text.
  pose proof (tidy_squeezed _ _ tidy_text) as squeezed.
  assert (trimmed : trim (c :: rest) = c :: rest).
  { unfold trim. now rewrite (trimStart_tidy _ squeezed), (trimEnd_tidy _ _ tidy_text). }
  unfold cleanContent. cbv zeta.
  rewrite (tidy_no_newline _ _ squeezed). cbn [filter].
  rewrite trimmed. cbn [join_space].
  rewrite (replace_runs_squeezed _ _ (squeezed_weaken _ squeezed)).
  exact trimmed.
Qed.

End CleanContent.

(** X25 — What [cleanContent] leaves.  The cleaned text is tidy: its only
    white space is the single space, never two in a row and none at either
    end.  It holds the same characters other than white space, in the same
    order, as the text given.  A tidy text is returned as it is, so
    cleaning twice is cleaning once. *)
Theorem cleanContent_tidies (content : list N) :
  tidy (WebsiteBuilder.cleanContent content) = true /\
  ink (WebsiteBuilder.cleanContent content) = ink content /\
  (tidy content = true -> WebsiteBuilder.cleanContent content = content) /\
  WebsiteBuilder.cleanContent (WebsiteBuilder.cleanContent content)
  = WebsiteBuilder.cleanContent content.
Proof.
  split; [apply tidy_cleanContent |].
  split; [apply ink_cleanContent |].
  split; [apply cleanContent_tidy |].
  apply cleanContent_tidy, tidy_cleanContent.
Qed.
